(** * CyberCheck: the trust-verification pipeline

    A shallow embedding of the attendance pipeline of the CyberCheck
    application and the properties of its specification:

    - [FaceApi], [FaceCapture]: descriptor comparison and the liveness loop
      (src/lib/faceApi.ts, src/components/FaceCapture.tsx);
    - [Auth]: the login action of the edge function
      (supabase/functions/auth/index.ts) with the SQL helpers it calls
      (supabase/migrations);
    - [AuthActions], [Runs]: the other actions of the edge function
      (logout, refresh, validate, hash-password, block-ip, unblock-ip), the
      SQL functions that read a session token, and a run of logins;
    - [Geolocation], [Checkin]: the fake-GPS check (src/lib/geolocation.ts)
      and the student check-in page (component [StudentCheckin]);
    - [ClientAuth]: the PIN generator, the browser rule and the device
      binding of the client library (src/lib/auth.ts);
    - [PinField]: the PIN field of the check-in page;
    - [TeacherLessons], [TeacherAttendance]: the writes of the teacher's
      pages to a lesson and to an attendance row.

    Conventions.  A JavaScript [number] is an IEEE 754 binary64 value, that
    is, a primitive [float].  A JavaScript string is the sequence of its
    code units, taken in the 8-bit range.  An awaited call to the browser
    or to the data store is a function of the store and of the values the
    environment supplies to the handler, and it answers, unless the code
    handles its failure; a function that may throw returns an [option],
    [None] being the exception.  The steps of one handler run one after
    the other on the store.  Between the two handlers of a check-in the
    other clients may write ([Checkin.checkin_apart]; [Checkin.checkin] is
    the check-in with nothing in between), and while a capture waits, the
    calls of the frame loop that are under way may record a detection
    ([FaceCapture.processFrame]).  Timestamps are milliseconds in [Z]. *)

From Stdlib Require Import ZArith List Bool Lia Floats String Ascii.
From Stdlib.Strings Require Import Byte.
From stdpp Require Import gmap strings list.
Import ListNotations.

#[local] Set Warnings "-inexact-float".

(** ** JavaScript numbers *)

Module JS.

(** [Math.pow(d, 2)]: the square of [d], correctly rounded. *)
Definition Math_pow2 (d : float) : float := (d * d)%float.

(** The length of an array as a number (exact below 2^53). *)
Definition of_nat (n : nat) : float := of_uint63 (Uint63.of_Z (Z.of_nat n)).

(** [Number.prototype.toFixed(4)], step 8: the integer [n] for which
    [n / 10^4 - v] is as close to zero as possible, the larger one on a
    tie, for the positive value [v = m * 2^e]. *)
Definition toFixed4_digits (m : positive) (e : Z) : Z :=
  if (0 <=? e)%Z then (Z.pos m * 2 ^ e * 10000)%Z
  else ((2 * Z.pos m * 10000 + 2 ^ (- e)) / (2 * 2 ^ (- e)))%Z.

(** The value [n] as the numerator of a decimal with sign [s]. *)
Definition decimal_numerator (s : bool) (n : Z) : spec_float :=
  match n with
  | Z0 => S754_zero s
  | Zpos p => S754_finite s p 0
  | Zneg _ => S754_nan
  end.

(** [parseFloat(v.toFixed(4))].  [toFixed] prints NaN and the infinities by
    name and a value of magnitude at least 10^21 by [ToString], and
    [parseFloat] reads each of them back; [-0] prints as ["0.0000"];
    otherwise the digits of [toFixed4_digits] are printed with four
    decimals, and [parseFloat] returns the binary64 value nearest to that
    decimal. *)
Definition parseFloat_toFixed4 (v : float) : float :=
  match Prim2SF v with
  | S754_nan => nan
  | S754_infinity _ => v
  | S754_zero _ => 0%float
  | S754_finite s m e =>
      if (1e21 <=? abs v)%float then v
      else SF2Prim (SFdiv prec emax (decimal_numerator s (toFixed4_digits m e))
                          (S754_finite false 10000 0))
  end.

End JS.

(** ** Face descriptors and liveness (src/lib/faceApi.ts) *)

Module FaceApi.

Record Point := { px : float; py : float }.

Record Box := { width : float; height : float }.

(** The part of a face-api detection with descriptor and landmarks that the
    application reads. *)
Record Detection := {
  box : Box;
  score : float;
  positions : list Point;
  descriptor : list float
}.

Record FaceMatch := { is_match : bool; distance : float }.

Record Liveness := { isLive : bool; reason : option string }.

(** [getFaceEmbedding]: the descriptor of the detected face, if any. *)
Definition getFaceEmbedding (detection : option Detection) : option (list float) :=
  d ← detection; Some (descriptor d).

(** The loop [for (i = 0; i < 128; i++) sum += Math.pow(e1[i] - e2[i], 2)].
    An index past the end of an array reads [undefined], and the
    difference is then NaN. *)
Definition squared_differences (embedding1 embedding2 : list float) : float :=
  fold_left
    (fun sum i => (sum + JS.Math_pow2 (nth i embedding1 nan - nth i embedding2 nan))%float)
    (seq 0 128) 0%float.

Definition threshold : float := 0.5%float.

Definition compareFaceEmbeddings (embedding1 embedding2 : list float) : FaceMatch :=
  if negb (length embedding1 =? 128)%nat || negb (length embedding2 =? 128)%nat
  then {| is_match := false; distance := 1%float |}
  else
    let distance := sqrt (squared_differences embedding1 embedding2) in
    {| is_match := (distance <? threshold)%float;
       distance := JS.parseFloat_toFixed4 distance |}.

(** One turn of the landmark loop of [checkLiveness]:
    [totalMovement += Math.sqrt(dx * dx + dy * dy)].  Reading [.x] of a
    missing current landmark throws. *)
Definition movement_step (prevLandmarks currLandmarks : list Point)
    (totalMovement : option float) (i : nat) : option float :=
  total ← totalMovement;
  prev ← nth_error prevLandmarks i;
  curr ← nth_error currLandmarks i;
  let dx := (px curr - px prev)%float in
  let dy := (py curr - py prev)%float in
  Some (total + sqrt (dx * dx + dy * dy))%float.

Definition avgMovement (prevLandmarks currLandmarks : list Point) : option float :=
  totalMovement ←
    fold_left (movement_step prevLandmarks currLandmarks)
              (seq 0 (length prevLandmarks)) (Some 0%float);
  Some (totalMovement / JS.of_nat (length prevLandmarks))%float.

(** [checkLiveness(video, previousDetection)], with [currentDetection] the
    result of [detectFace(video)]. *)
Definition checkLiveness (currentDetection previousDetection : option Detection)
  : option Liveness :=
  match currentDetection with
  | None => Some {| isLive := false; reason := Some "Yuz aniqlanmadi"%string |}
  | Some current =>
      if (width (box current) <? 100)%float || (height (box current) <? 100)%float
      then Some {| isLive := false;
                   reason := Some "Yuzingizni kameraga yaqinroq olib keling"%string |}
      else if (score current <? 0.8)%float
      then Some {| isLive := false; reason := Some "Yuz aniq ko'rinmayapti"%string |}
      else
        match previousDetection with
        | Some previous =>
            avg ← avgMovement (positions previous) (positions current);
            if (avg <? 0.1)%float
            then Some {| isLive := false;
                         reason := Some "Harakatlanmayapsiz - boshingizni biroz qimirlatib turing"%string |}
            else Some {| isLive := true; reason := None |}
        | None => Some {| isLive := true; reason := None |}
        end
  end.

End FaceApi.

(** ** The capture component (src/components/FaceCapture.tsx) *)

Module FaceCapture.
Import FaceApi.

Inductive Mode := register | verify.

Inductive Status := loading | ready | detecting | success | error.

(** What [handleCapture] does that its environment can observe, in order. *)
Inductive Effect :=
| CheckLiveness (sample : nat) (live : bool)
| Sleep (ms : Z)
| GetFaceEmbedding
| StopCamera
| OnVerificationFailed
| OnCapture (embedding : list float).

(** The callback by which a capture ends, if it ends with one. *)
Inductive Callback :=
| CaptureCallback (embedding : list float)
| VerificationFailedCallback.

Record Capture := {
  status : Status;
  livenessPass : nat;
  effects : list Effect;
  callback : option Callback
}.

(** [processFrame] past its guard, with [detection] what its [detectFace]
    finds: a face replaces the detection the component holds in
    [previousDetectionRef.current]. *)
Definition processFrame (previousDetectionRef : option Detection)
    (detection : option Detection) : option Detection :=
  match detection with
  | Some d => Some d
  | None => previousDetectionRef
  end.

(** The liveness loop of [handleCapture]: three calls of [checkLiveness],
    each against [previousDetectionRef.current] as it is when the call is
    made, and each followed by a 200 ms pause.  [video k] is what
    [detectFace] finds at its [k]-th call of the capture.  Calls of
    [processFrame] that are past their guard when the capture begins go on
    while it waits: [frames i] is what those that finish between the call
    of sample [i] and the next reading of the ref find, in order. *)
Definition liveness_step (video : nat -> option Detection)
    (frames : nat -> list (option Detection))
    (acc : option (option Detection * nat * list Effect)) (i : nat)
  : option (option Detection * nat * list Effect) :=
  '(previousDetectionRef, pass, eff) ← acc;
  liveness ← checkLiveness (video i) previousDetectionRef;
  Some (fold_left processFrame (frames i) previousDetectionRef,
        if isLive liveness then S pass else pass,
        eff ++ [CheckLiveness i (isLive liveness); Sleep 200]).

Definition liveness_loop (video : nat -> option Detection)
    (frames : nat -> list (option Detection))
    (previousDetection : option Detection) : option (nat * list Effect) :=
  '(_, pass, eff) ←
    fold_left (liveness_step video frames) (seq 0 3) (Some (previousDetection, 0, []));
  Some (pass, eff).

(** [handleCapture()], with [previousDetection] what
    [previousDetectionRef.current] is when it is called. *)
Definition handleCapture (mode : Mode) (existingEmbedding : option (list float))
    (previousDetection : option Detection)
    (frames : nat -> list (option Detection)) (video : nat -> option Detection)
  : option Capture :=
  '(pass, eff) ← liveness_loop video frames previousDetection;
  if (pass <? 2)%nat
  then Some {| status := ready; livenessPass := pass; effects := eff; callback := None |}
  else
    match getFaceEmbedding (video 3) with
    | None =>
        Some {| status := ready; livenessPass := pass;
                effects := eff ++ [GetFaceEmbedding]; callback := None |}
    | Some embedding =>
        let matched :=
          match mode, existingEmbedding with
          | verify, Some existing => is_match (compareFaceEmbeddings existing embedding)
          | _, _ => true
          end in
        if matched
        then Some {| status := success; livenessPass := pass;
                     effects := eff ++ [GetFaceEmbedding; StopCamera; OnCapture embedding];
                     callback := Some (CaptureCallback embedding) |}
        else Some {| status := error; livenessPass := pass;
                     effects := eff ++ [GetFaceEmbedding; StopCamera; OnVerificationFailed];
                     callback := Some VerificationFailedCallback |}
    end.

End FaceCapture.

(** ** JavaScript strings *)

Module Str.

(** White space in the sense of [String.prototype.trim] and [parseInt],
    within the 8-bit range: TAB, LF, VT, FF, CR, SP and NBSP. *)
Definition isWhitespace (c : ascii) : bool :=
  let n := nat_of_ascii c in
  ((9 <=? n)%nat && (n <=? 13)%nat) || (n =? 32)%nat || (n =? 160)%nat.

Fixpoint trimStart (s : string) : string :=
  match s with
  | String c rest => if isWhitespace c then trimStart rest else s
  | EmptyString => EmptyString
  end.

(** The string without its trailing white space. *)
Fixpoint trimEnd (s : string) : string :=
  match s with
  | String c rest =>
      match trimEnd rest with
      | EmptyString => if isWhitespace c then EmptyString else String c EmptyString
      | rest' => String c rest'
      end
  | EmptyString => EmptyString
  end.

Definition trim (s : string) : string := trimEnd (trimStart s).

(** [s.replace(/[<>]/g, "")]. *)
Fixpoint removeAngles (s : string) : string :=
  match s with
  | String c rest =>
      if Ascii.eqb c "<" || Ascii.eqb c ">" then removeAngles rest
      else String c (removeAngles rest)
  | EmptyString => EmptyString
  end.

Definition startsWith (s prefix : string) : bool := String.prefix prefix s.

(** [s.split(sep)] for a separator of one character. *)
Fixpoint split (sep : ascii) (s : string) : list string :=
  match s with
  | EmptyString => [EmptyString]
  | String c rest =>
      if Ascii.eqb c sep then EmptyString :: split sep rest
      else match split sep rest with
           | part :: parts => String c part :: parts
           | [] => [String c EmptyString]
           end
  end.

Definition digitValue (c : ascii) : option Z :=
  let n := nat_of_ascii c in
  if (48 <=? n)%nat && (n <=? 57)%nat then Some (Z.of_nat n - 48)%Z else None.

(** The value of the longest prefix of decimal digits, after the digits
    [acc] already read; [None] when there is no digit at all. *)
Fixpoint digitsPrefix (s : string) (acc : option Z) : option Z :=
  match s with
  | String c rest =>
      match digitValue c with
      | Some d => digitsPrefix rest (Some (10 * default 0%Z acc + d)%Z)
      | None => acc
      end
  | EmptyString => acc
  end.

(** [parseInt(s, 10)] as a mathematical integer; [None] is NaN. *)
Definition parseInt10 (s : string) : option Z :=
  match trimStart s with
  | String "-" rest => n ← digitsPrefix rest None; Some (- n)%Z
  | String "+" rest => digitsPrefix rest None
  | t => digitsPrefix t None
  end.

Definition hexDigit (n : N) : ascii :=
  match n with
  | 0 => "0" | 1 => "1" | 2 => "2" | 3 => "3" | 4 => "4" | 5 => "5"
  | 6 => "6" | 7 => "7" | 8 => "8" | 9 => "9" | 10 => "a" | 11 => "b"
  | 12 => "c" | 13 => "d" | 14 => "e" | _ => "f"
  end%N%char.

(** [b.toString(16).padStart(2, "0")] for a byte [b]. *)
Definition toHex2 (b : byte) : string :=
  let n := Byte.to_N b in
  String (hexDigit (n / 16)) (String (hexDigit (n mod 16)) EmptyString).

(** The value of a hexadecimal digit, and the byte two of them write. *)
Definition hexValue (c : ascii) : N :=
  let n := N_of_ascii c in
  if (48 <=? n)%N && (n <=? 57)%N then (n - 48)%N
  else if (97 <=? n)%N && (n <=? 102)%N then (n - 87)%N
  else 0%N.

Definition fromHex2 (s : string) : option byte :=
  match s with
  | String a (String b EmptyString) => Byte.of_N (16 * hexValue a + hexValue b)
  | _ => None
  end.

(** The character [c] occurs in [s]. *)
Fixpoint occurs (c : ascii) (s : string) : bool :=
  match s with
  | String d rest => Ascii.eqb d c || occurs c rest
  | EmptyString => false
  end.

(** [Array.from(bytes, toHex2).join("")]. *)
Definition hex (bytes : list byte) : string :=
  fold_right (fun b acc => toHex2 b +:+ acc) EmptyString bytes.

(** A string used as a condition: the empty string is falsy. *)
Definition truthy (s : string) : bool := negb (String.eqb s EmptyString).

(** [a || b] on strings that may be [null] or [undefined]. *)
Definition orElse (a : option string) (b : option string) : option string :=
  match a with
  | Some s => if truthy s then Some s else b
  | None => b
  end.

End Str.

(** ** The credential authority (supabase/functions/auth/index.ts) *)

Module Auth.

Inductive Role := admin | teacher | student.

Record User := {
  user_id : string;
  user_login : string;
  password_hash : string;
  full_name : string;
  role : Role;
  is_active : option bool;
  device_fingerprint : option string
}.

Record Session := {
  session_user_id : string;
  token : string;
  refresh_token : string;
  session_fingerprint : option string;
  session_user_agent : string;
  session_ip_address : string;
  expires_at : Z;
  refresh_expires_at : Z
}.

Record LoginAttempt := {
  attempt_login : string;
  attempt_ip_address : option string;
  attempt_user_agent : option string;
  attempt_success : bool;
  attempt_created_at : Z
}.

Inductive RuleType := whitelist | blacklist.

Record IpRule := {
  rule_ip_address : string;
  rule_type : RuleType;
  rule_expires_at : option Z
}.

Record ActivityLog := {
  log_user_id : string;
  log_action : string;
  log_reason : option string;
  log_ip_address : option string
}.

(** The tables the login action reads and writes. *)
Record Store := {
  users : list User;
  sessions : list Session;
  login_attempts : list LoginAttempt;
  ip_rules : list IpRule;
  activity_logs : list ActivityLog
}.

Definition minutes15 : Z := 15 * 60 * 1000.
Definition hours24 : Z := 24 * 60 * 60 * 1000.
Definition hours12 : Z := 12 * 60 * 60 * 1000.
Definition days7 : Z := 7 * 24 * 60 * 60 * 1000.

Definition isBlacklist (t : RuleType) : bool :=
  match t with blacklist => true | whitelist => false end.

(** SQL [is_ip_blocked(check_ip)]. *)
Definition is_ip_blocked (db : Store) (now : Z) (check_ip : string) : bool :=
  existsb
    (fun r =>
       String.eqb (rule_ip_address r) check_ip
       && isBlacklist (rule_type r)
       && match rule_expires_at r with
          | None => true
          | Some e => (now <? e)%Z
          end)
    (ip_rules db).

(** The rows [is_login_rate_limited] counts: a failed attempt of the last
    15 minutes for the login or from the address. *)
Definition counts_against (now : Z) (check_login check_ip : string)
    (a : LoginAttempt) : bool :=
  (String.eqb (attempt_login a) check_login
   || match attempt_ip_address a with
      | Some ip => String.eqb ip check_ip
      | None => false
      end)
  && negb (attempt_success a)
  && (now - minutes15 <? attempt_created_at a)%Z.

(** SQL [is_login_rate_limited(check_login, check_ip)]. *)
Definition is_login_rate_limited (db : Store) (now : Z)
    (check_login check_ip : string) : bool :=
  (5 <=? length (List.filter (counts_against now check_login check_ip) (login_attempts db)))%nat.

(** SQL [record_login_attempt]: insert the attempt, then prune the attempts
    older than 24 hours. *)
Definition record_login_attempt (db : Store) (now : Z)
    (p_login p_ip_address p_user_agent : string) (p_success : bool) : Store :=
  let inserted :=
    login_attempts db ++
    [{| attempt_login := p_login;
        attempt_ip_address := Some p_ip_address;
        attempt_user_agent := Some p_user_agent;
        attempt_success := p_success;
        attempt_created_at := now |}] in
  {| users := users db;
     sessions := sessions db;
     login_attempts :=
       List.filter (fun a => negb (attempt_created_at a <? now - hours24)%Z) inserted;
     ip_rules := ip_rules db;
     activity_logs := activity_logs db |}.

Definition insert_activity_log (db : Store) (l : ActivityLog) : Store :=
  {| users := users db;
     sessions := sessions db;
     login_attempts := login_attempts db;
     ip_rules := ip_rules db;
     activity_logs := activity_logs db ++ [l] |}.

(** [from("users").select("*").eq("login", l).eq("is_active", true).maybeSingle()];
    [login] is unique. *)
Definition select_active_user (db : Store) (l : string) : option User :=
  find (fun u => String.eqb (user_login u) l
                 && match is_active u with Some true => true | _ => false end)
       (users db).

Definition update_users (db : Store) (id : string) (f : User -> User) : Store :=
  {| users := map (fun u => if String.eqb (user_id u) id then f u else u) (users db);
     sessions := sessions db;
     login_attempts := login_attempts db;
     ip_rules := ip_rules db;
     activity_logs := activity_logs db |}.

Definition set_password_hash (h : string) (u : User) : User :=
  {| user_id := user_id u; user_login := user_login u; password_hash := h;
     full_name := full_name u; role := role u; is_active := is_active u;
     device_fingerprint := device_fingerprint u |}.

(** [update({ device_fingerprint: fingerprint })]; an [undefined] value is
    not sent, and the column keeps its value. *)
Definition set_device_fingerprint (fp : option string) (u : User) : User :=
  {| user_id := user_id u; user_login := user_login u;
     password_hash := password_hash u;
     full_name := full_name u; role := role u; is_active := is_active u;
     device_fingerprint :=
       match fp with Some f => Some f | None => device_fingerprint u end |}.

(** [from("sessions").delete().eq("user_id", id)]. *)
Definition delete_sessions (db : Store) (id : string) : Store :=
  {| users := users db;
     sessions := List.filter (fun s => negb (String.eqb (session_user_id s) id)) (sessions db);
     login_attempts := login_attempts db;
     ip_rules := ip_rules db;
     activity_logs := activity_logs db |}.

(** [from("sessions").insert(row)]; the column [token] is unique, and a
    row with a token already present is refused. *)
Definition insert_session (db : Store) (row : Session) : option Store :=
  if existsb (fun s => String.eqb (token s) (token row)) (sessions db)
  then None
  else Some {| users := users db;
               sessions := sessions db ++ [row];
               login_attempts := login_attempts db;
               ip_rules := ip_rules db;
               activity_logs := activity_logs db |}.

(** [generateToken], [generateRefreshToken] and [generateSalt]: the bytes
    [crypto.getRandomValues] filled in, in hexadecimal. *)
Definition generateToken (random32 : list byte) : string := Str.hex random32.
Definition generateRefreshToken (random64 : list byte) : string := Str.hex random64.
Definition generateSalt (random16 : list byte) : string := Str.hex random16.

(** [sanitizeInput]; a value that is not a string gives the empty string. *)
Definition sanitizeInput (input : option string) : string :=
  match input with
  | Some s => Str.removeAngles (Str.trim s)
  | None => EmptyString
  end.

(** [validateCSRFToken]: [clientCSRF && headerCSRF && clientCSRF === headerCSRF]
    as a condition.  A body value that is not a string is never [===] to a
    header. *)
Definition validateCSRFToken (headerCSRF clientCSRF : option string) : bool :=
  match clientCSRF, headerCSRF with
  | Some c, Some h => Str.truthy c && Str.truthy h && String.eqb c h
  | _, _ => false
  end.

Section Hashing.

(** [crypto.subtle.deriveBits] for PBKDF2 with SHA-256 and 256 bits of
    output, on the UTF-8 bytes of the password and of the salt. *)
Variable deriveBits : string -> string -> Z -> list byte.

(** [hashPassword(password, salt)]. *)
Definition hashPassword (password : string) (salt : option string)
    (random16 : list byte) : string :=
  let useSalt :=
    match salt with
    | Some s => if Str.truthy s then s else generateSalt random16
    | None => generateSalt random16
    end in
  let hashHex := Str.hex (deriveBits password useSalt 100000) in
  "$pbkdf2$100000$" +:+ useSalt +:+ "$" +:+ hashHex.

(** The iteration count as [deriveBits] takes it: an [unsigned long] that is
    not zero; anything else throws. *)
Definition valid_iterations (n : option Z) : option Z :=
  i ← n; if (1 <=? i)%Z && (i <=? 4294967295)%Z then Some i else None.

(** [verifyPassword(password, storedHash)]. *)
Definition verifyPassword (password storedHash : string) : option bool :=
  if Str.startsWith storedHash "$pbkdf2$"
  then
    match Str.split "$" storedHash with
    | [_; _; iterations; salt; expectedHash] =>
        i ← valid_iterations (Str.parseInt10 iterations);
        Some (String.eqb (Str.hex (deriveBits password salt i)) expectedHash)
    | _ => Some false
    end
  else Some (String.eqb password storedHash).


(** The body of a login request; a field is [None] when it is absent or
    not a string. *)
Record LoginBody := {
  login : option string;
  password : option string;
  fingerprint : option string;
  csrf_token : option string
}.

(** A POST request whose path ends in [login]; [body] is [None] when
    [req.json()] throws. *)
Record Request := {
  x_forwarded_for : option string;
  x_real_ip : option string;
  cf_connecting_ip : option string;
  user_agent : option string;
  x_xsrf_token : option string;
  body : option LoginBody
}.

(** What the environment supplies to one request: the SQL [now()], the two
    readings [new Date()] of the token issuance and the random bytes. *)
Record Env := {
  sql_now : Z;
  date_access : Z;
  date_refresh : Z;
  random_token : list byte;
  random_refresh : list byte;
  random_salt : list byte
}.

Record PublicUser := {
  pub_id : string;
  pub_login : string;
  pub_full_name : string;
  pub_role : Role;
  pub_is_active : option bool
}.

Inductive ResponseBody :=
| Failure (error : string)
| LoggedIn (token refresh_token : string) (user : PublicUser) (expires_at : Z).

Record Response := { status : Z; payload : ResponseBody }.

(** The steps of the login action whose order the properties are about, as
    they happen. *)
Inductive Event :=
| RpcIsIpBlocked (ip : string)
| ReadBody
| CsrfComparison (ok : bool)
| RpcIsLoginRateLimited (login ip : string)
| SelectUser (login : string)
| RpcRecordLoginAttempt (login : string) (success : bool)
| VerifyPassword (login : string)
| InsertActivityLog (action : string)
| UpdatePasswordHash (id hash : string)
| UpdateDeviceFingerprint (id : string)
| DeleteSessions (id : string)
| InsertSession (id : string).

(** The events that read or write the data store. *)
Definition is_data_access (e : Event) : bool :=
  match e with
  | ReadBody | CsrfComparison _ | VerifyPassword _ => false
  | _ => true
  end.

(** The events that check the submitted credentials. *)
Definition checks_credentials (e : Event) : bool :=
  match e with
  | SelectUser _ | VerifyPassword _ => true
  | _ => false
  end.

Definition is_csrf_comparison (e : Event) : bool :=
  match e with
  | CsrfComparison _ => true
  | _ => false
  end.

Definition is_password_upgrade (e : Event) : bool :=
  match e with
  | UpdatePasswordHash _ _ => true
  | _ => false
  end.

(** [getClientIP]: the first field of [x-forwarded-for], trimmed, or one
    of the other two headers, or ["unknown"]. *)
Definition firstField (s : string) : string :=
  match Str.split "," s with
  | f :: _ => f
  | [] => EmptyString
  end.

Definition getClientIP (req : Request) : string :=
  default "unknown"%string
    (Str.orElse (f ← x_forwarded_for req; Some (Str.trim (firstField f)))
       (Str.orElse (x_real_ip req) (Str.orElse (cf_connecting_ip req) None))).

Definition respond (code : Z) (error : string) : Response :=
  {| status := code; payload := Failure error |}.

(** [setHours(getHours() + 12)] and [setDate(getDate() + 7)] on a date of
    the edge runtime, whose local time is UTC. *)
Definition plus12hours (t : Z) : Z := (t + hours12)%Z.
Definition plus7days (t : Z) : Z := (t + days7)%Z.

Definition publicUser (u : User) : PublicUser :=
  {| pub_id := user_id u; pub_login := user_login u;
     pub_full_name := full_name u; pub_role := role u;
     pub_is_active := is_active u |}.

Definition isStudent (r : Role) : bool :=
  match r with student => true | _ => false end.

(** The end of the login action, from [// Record successful login]: the
    attempt is recorded, the sessions of the user are deleted and the new
    one inserted. *)
Definition issue_session (env : Env) (req : Request) (b : LoginBody)
    (clientIP userAgent sanitizedLogin : string) (u : User)
    (db : Store) (trace : list Event) : Response * Store * list Event :=
  let db := record_login_attempt db (sql_now env) sanitizedLogin clientIP userAgent true in
  let trace := trace ++ [RpcRecordLoginAttempt sanitizedLogin true] in
  let token := generateToken (random_token env) in
  let refreshToken := generateRefreshToken (random_refresh env) in
  let expiresAt := plus12hours (date_access env) in
  let refreshExpiresAt := plus7days (date_refresh env) in
  let db := delete_sessions db (user_id u) in
  let trace := trace ++ [DeleteSessions (user_id u); InsertSession (user_id u)] in
  match insert_session db
          {| session_user_id := user_id u;
             token := token;
             refresh_token := refreshToken;
             session_fingerprint := fingerprint b;
             session_user_agent := userAgent;
             session_ip_address := clientIP;
             expires_at := expiresAt;
             refresh_expires_at := refreshExpiresAt |} with
  | None => (respond 500 "Sessiya yaratishda xatolik", db, trace)
  | Some db =>
      let db := insert_activity_log db
                  {| log_user_id := user_id u; log_action := "login_success";
                     log_reason := None; log_ip_address := Some clientIP |} in
      ({| status := 200;
          payload := LoggedIn token refreshToken (publicUser u) expiresAt |},
       db, trace ++ [InsertActivityLog "login_success"])
  end.

(** The device binding of a student, from [// Check device binding for
    students]; [None] when the login goes on. *)
Definition device_gate (env : Env) (b : LoginBody)
    (clientIP userAgent sanitizedLogin : string) (u : User)
    (db : Store) (trace : list Event)
  : (Response * Store * list Event) + (Store * list Event) :=
  if isStudent (role u)
  then
    let bound :=
      match device_fingerprint u with
      | Some d => Str.truthy d
      | None => false
      end in
    if bound && negb (bool_decide (device_fingerprint u = fingerprint b))
    then
      let db := record_login_attempt db (sql_now env) sanitizedLogin clientIP userAgent false in
      let db := insert_activity_log db
                  {| log_user_id := user_id u; log_action := "login_failed";
                     log_reason := Some "device_mismatch"%string;
                     log_ip_address := Some clientIP |} in
      inl (respond 403 "Bu qurilmadan kirish mumkin emas. Qurilmani o'zgartirish uchun admin bilan bog'laning.",
           db,
           trace ++ [RpcRecordLoginAttempt sanitizedLogin false;
                     InsertActivityLog "login_failed"])
    else if negb bound
    then inr (update_users db (user_id u) (set_device_fingerprint (fingerprint b)),
              trace ++ [UpdateDeviceFingerprint (user_id u)])
    else inr (db, trace)
  else inr (db, trace).

(** [Deno.serve] on a login request. *)
Definition serve_login (env : Env) (req : Request) (db : Store)
  : Response * Store * list Event :=
  let clientIP := getClientIP req in
  let userAgent := default EmptyString (user_agent req) in
  let trace := [RpcIsIpBlocked clientIP] in
  if is_ip_blocked db (sql_now env) clientIP
  then (respond 403 "Bu IP manzildan kirish bloklangan", db, trace)
  else
    let trace := trace ++ [ReadBody] in
    match body req with
    | None => (respond 500 "Tizim xatosi", db, trace)
    | Some b =>
        let csrf := validateCSRFToken (x_xsrf_token req) (csrf_token b) in
        let trace := trace ++ [CsrfComparison csrf] in
        if negb csrf
        then (respond 403 "Xavfsizlik xatosi. Sahifani yangilang.", db, trace)
        else
          let sanitizedLogin := sanitizeInput (login b) in
          let sanitizedPassword := sanitizeInput (password b) in
          if negb (Str.truthy sanitizedLogin) || negb (Str.truthy sanitizedPassword)
          then (respond 400 "Login va parol to'ldirilishi shart", db, trace)
          else
            let trace := trace ++ [RpcIsLoginRateLimited sanitizedLogin clientIP] in
            if is_login_rate_limited db (sql_now env) sanitizedLogin clientIP
            then (respond 429 "Juda ko'p noto'g'ri urinish. 15 daqiqadan so'ng qayta urinib ko'ring.",
                  db, trace)
            else
              let trace := trace ++ [SelectUser sanitizedLogin] in
              match select_active_user db sanitizedLogin with
              | None =>
                  (respond 401 "Login yoki parol noto'g'ri",
                   record_login_attempt db (sql_now env) sanitizedLogin clientIP userAgent false,
                   trace ++ [RpcRecordLoginAttempt sanitizedLogin false])
              | Some u =>
                  let trace := trace ++ [VerifyPassword sanitizedLogin] in
                  match verifyPassword sanitizedPassword (password_hash u) with
                  | None => (respond 500 "Tizim xatosi", db, trace)
                  | Some false =>
                      let db := record_login_attempt db (sql_now env) sanitizedLogin
                                  clientIP userAgent false in
                      let db := insert_activity_log db
                                  {| log_user_id := user_id u; log_action := "login_failed";
                                     log_reason := Some "wrong_password"%string;
                                     log_ip_address := Some clientIP |} in
                      (respond 401 "Login yoki parol noto'g'ri", db,
                       trace ++ [RpcRecordLoginAttempt sanitizedLogin false;
                                 InsertActivityLog "login_failed"])
                  | Some true =>
                      let '(db, trace) :=
                        if negb (Str.startsWith (password_hash u) "$pbkdf2$")
                        then
                          let hashedPassword :=
                            hashPassword sanitizedPassword None (random_salt env) in
                          (update_users db (user_id u) (set_password_hash hashedPassword),
                           trace ++ [UpdatePasswordHash (user_id u) hashedPassword])
                        else (db, trace) in
                      match device_gate env b clientIP userAgent sanitizedLogin u db trace with
                      | inl rejected => rejected
                      | inr (db, trace) =>
                          issue_session env req b clientIP userAgent sanitizedLogin u db trace
                      end
                  end
              end
    end.

End Hashing.

End Auth.

(** ** The other actions of the credential authority
       (supabase/functions/auth/index.ts) *)

Module AuthActions.
Import Auth.

(** The JSON body of an action other than login, with the fields the
    actions read; a field is [None] when it is absent, and [json] of a
    request is [None] when [req.json()] throws.  [targetIP] is the address
    the two address actions name and [expiresIn] a whole number of
    minutes. *)
Record Body := {
  body_token : option string;
  body_refresh_token : option string;
  body_password : option string;
  targetIP : string;
  expiresIn : option Z
}.

(** What the environment supplies to one request: the SQL [now()], the
    reading of the clock the action takes first ([new Date()] of a query,
    [Date.now()] of a block), the later one of an expiry, and the random
    bytes of [generateToken]. *)
Record Clock := {
  now_sql : Z;
  date_now : Z;
  date_issue : Z;
  random32 : list byte
}.

Inductive Reply :=
| Failed (error : string)
| Succeeded
| Done (message : string)
| Refreshed (access_token : string) (expires_at : Z)
| Hashed (hash : string)
| Invalid
| Valid (user : PublicUser) (expires_at : Z).

Record Answer := { code : Z; reply : Reply }.

Inductive Action := logout | refresh | validate | block_ip | unblock_ip.

(** The session both SQL functions read: [WHERE s.token = session_token
    AND s.expires_at > now()]; [token] is unique. *)
Definition live_session (db : Store) (now : Z) (session_token : option string)
  : option Session :=
  t ← session_token;
  find (fun s => String.eqb (token s) t && (now <? expires_at s)%Z) (sessions db).

(** The embedded [users] row of a session and the [JOIN] of the SQL
    functions: the user the session refers to; [id] is the primary key. *)
Definition user_of (db : Store) (id : string) : option User :=
  find (fun u => String.eqb (user_id u) id) (users db).

(** SQL [get_user_role_from_token(session_token)]. *)
Definition get_user_role_from_token (db : Store) (now : Z)
    (session_token : option string) : option Role :=
  s ← live_session db now session_token;
  u ← user_of db (session_user_id s);
  Some (role u).

(** SQL [get_user_id_from_token(session_token)]. *)
Definition get_user_id_from_token (db : Store) (now : Z)
    (session_token : option string) : option string :=
  s ← live_session db now session_token;
  Some (session_user_id s).

(** [maybeSingle()]: the row, if there is one; more than one row is an
    error, which the actions treat as no row. *)
Definition maybeSingle {A} (rows : list A) : option A :=
  match rows with
  | [r] => Some r
  | _ => None
  end.

Definition with_sessions (db : Store) (l : list Session) : Store :=
  {| users := users db;
     sessions := l;
     login_attempts := login_attempts db;
     ip_rules := ip_rules db;
     activity_logs := activity_logs db |}.

Definition with_ip_rules (db : Store) (l : list IpRule) : Store :=
  {| users := users db;
     sessions := sessions db;
     login_attempts := login_attempts db;
     ip_rules := l;
     activity_logs := activity_logs db |}.

(** [from("sessions").delete().eq("token", token)]. *)
Definition delete_session_by_token (db : Store) (t : string) : Store :=
  with_sessions db (List.filter (fun s => negb (String.eqb (token s) t)) (sessions db)).

Definition set_access_token (t : string) (e : Z) (s : Session) : Session :=
  {| session_user_id := session_user_id s;
     token := t;
     refresh_token := refresh_token s;
     session_fingerprint := session_fingerprint s;
     session_user_agent := session_user_agent s;
     session_ip_address := session_ip_address s;
     expires_at := e;
     refresh_expires_at := refresh_expires_at s |}.

(** No string occurs twice. *)
Fixpoint distinct (l : list string) : bool :=
  match l with
  | [] => true
  | x :: rest => negb (existsb (String.eqb x) rest) && distinct rest
  end.

(** [from("sessions").update({ token, expires_at }).eq("refresh_token", r)]:
    every row with this refresh token is written; the update fails when
    the column [token], which is unique, would hold a value twice. *)
Definition update_by_refresh_token (db : Store) (r newToken : string) (e : Z)
  : option Store :=
  let updated :=
    map (fun s => if String.eqb (refresh_token s) r
                  then set_access_token newToken e s else s)
        (sessions db) in
  if distinct (map token updated) then Some (with_sessions db updated) else None.

(** [new Date(t).toISOString()], which throws on a time value out of the
    range of a date. *)
Definition toISOString (t : Z) : option Z :=
  if (Z.abs t <=? 8640000000000000)%Z then Some t else None.

(** [expiresIn ? new Date(Date.now() + expiresIn * 60000).toISOString() : null]. *)
Definition block_expiry (clock : Clock) (b : Body) : option (option Z) :=
  match expiresIn b with
  | Some n =>
      if (n =? 0)%Z then Some None
      else e ← toISOString (date_now clock + n * 60000)%Z; Some (Some e)
  | None => Some None
  end.

(** [from("ip_rules").upsert(row, { onConflict: "ip_address,rule_type" })]
    of a blacklist rule: the rule of the address is rewritten, or added. *)
Definition upsert_blacklist (db : Store) (ip : string) (e : option Z) : Store :=
  let row := {| rule_ip_address := ip; rule_type := blacklist; rule_expires_at := e |} in
  let hit r := String.eqb (rule_ip_address r) ip && isBlacklist (rule_type r) in
  with_ip_rules db
    (if existsb hit (ip_rules db)
     then map (fun r => if hit r then row else r) (ip_rules db)
     else ip_rules db ++ [row]).

(** [from("ip_rules").delete().eq("ip_address", ip).eq("rule_type", "blacklist")]. *)
Definition delete_blacklist (db : Store) (ip : string) : Store :=
  with_ip_rules db
    (List.filter
       (fun r => negb (String.eqb (rule_ip_address r) ip && isBlacklist (rule_type r)))
       (ip_rules db)).

Definition answer (c : Z) (r : Reply) : Answer := {| code := c; reply := r |}.

Definition ip_refused : Answer := answer 403 (Failed "Bu IP manzildan kirish bloklangan").

Definition system_error : Answer := answer 500 (Failed "Tizim xatosi").

(** A body field used as a condition and then as a value. *)
Definition field (v : option string) : option string :=
  s ← v; if Str.truthy s then Some s else None.

(** The action [logout]. *)
Definition serve_logout (clientIP : string) (b : option Body) (db : Store)
  : Answer * Store :=
  match field (b ≫= body_token) with
  | Some t =>
      match maybeSingle (List.filter (fun s => String.eqb (token s) t) (sessions db)) with
      | Some session =>
          let db := delete_session_by_token db t in
          let db := insert_activity_log db
                      {| log_user_id := session_user_id session; log_action := "logout";
                         log_reason := None; log_ip_address := Some clientIP |} in
          (answer 200 Succeeded, db)
      | None => (answer 200 Succeeded, db)
      end
  | None => (answer 200 Succeeded, db)
  end.

(** The action [refresh].  The user of the session is read after the
    update, for the log line; reading the login of a missing user throws. *)
Definition serve_refresh (clock : Clock) (b : option Body) (db : Store)
  : Answer * Store :=
  match field (b ≫= body_refresh_token) with
  | None => (answer 400 (Failed "Refresh token talab qilinadi"), db)
  | Some r =>
      match maybeSingle
              (List.filter
                 (fun s => String.eqb (refresh_token s) r
                           && (date_now clock <=? refresh_expires_at s)%Z)
                 (sessions db)) with
      | None => (answer 401 (Failed "Yaroqsiz refresh token"), db)
      | Some session =>
          let newToken := generateToken (random32 clock) in
          let expiresAt := plus12hours (date_issue clock) in
          match update_by_refresh_token db r newToken expiresAt with
          | None => (answer 500 (Failed "Token yangilashda xatolik"), db)
          | Some db =>
              match user_of db (session_user_id session) with
              | Some _ => (answer 200 (Refreshed newToken expiresAt), db)
              | None => (system_error, db)
              end
          end
      end
  end.

(** The action [validate]. *)
Definition serve_validate (clock : Clock) (b : option Body) (db : Store)
  : Answer * Store :=
  match field (b ≫= body_token) with
  | None => (answer 200 Invalid, db)
  | Some t =>
      match maybeSingle
              (List.filter
                 (fun s => String.eqb (token s) t && (date_now clock <=? expires_at s)%Z)
                 (sessions db)) with
      | None => (answer 200 Invalid, db)
      | Some session =>
          match user_of db (session_user_id session) with
          | Some user => (answer 200 (Valid (publicUser user) (expires_at session)), db)
          | None => (system_error, db)
          end
      end
  end.

(** The actions [block-ip] and [unblock-ip].  The two SQL functions read
    the session at the same [now()], so that [userId] is the user of the
    session whose role was read; the log row of a session that is gone has
    no user, written here as the empty id. *)
Definition serve_ip_rule (block : bool) (clock : Clock) (clientIP : string)
    (b : option Body) (db : Store) : Answer * Store :=
  match b with
  | None => (system_error, db)
  | Some body =>
      match get_user_role_from_token db (now_sql clock) (body_token body) with
      | Some admin =>
          let userId :=
            default EmptyString
              (get_user_id_from_token db (now_sql clock) (body_token body)) in
          if block
          then
            match block_expiry clock body with
            | None => (system_error, db)
            | Some expiresAt =>
                let db := upsert_blacklist db (targetIP body) expiresAt in
                let db := insert_activity_log db
                            {| log_user_id := userId; log_action := "ip_blocked";
                               log_reason := None; log_ip_address := Some clientIP |} in
                (answer 200 (Done ("IP " +:+ targetIP body +:+ " bloklandi")), db)
            end
          else
            let db := delete_blacklist db (targetIP body) in
            let db := insert_activity_log db
                        {| log_user_id := userId; log_action := "ip_unblocked";
                           log_reason := None; log_ip_address := Some clientIP |} in
            (answer 200 (Done ("IP " +:+ targetIP body +:+ " blokdan chiqarildi")), db)
      | _ => (answer 403 (Failed "Faqat admin ushbu amalni bajara oladi"), db)
      end
  end.

(** [Deno.serve] on a request whose path ends in one of these actions: the
    address is looked up in the blacklist first, whatever the action. *)
Definition serve (clock : Clock) (action : Action) (req : Request)
    (json : option Body) (db : Store) : Answer * Store :=
  let clientIP := getClientIP req in
  if is_ip_blocked db (now_sql clock) clientIP
  then (ip_refused, db)
  else
    match action with
    | logout => serve_logout clientIP json db
    | refresh => serve_refresh clock json db
    | validate => serve_validate clock json db
    | block_ip => serve_ip_rule true clock clientIP json db
    | unblock_ip => serve_ip_rule false clock clientIP json db
    end.

Section Hashing.

Variable deriveBits : string -> string -> Z -> list byte.

(** The action [hash-password], with the random bytes of [generateSalt];
    the password is hashed as it is. *)
Definition serve_hash_password (random16 : list byte) (req : Request)
    (json : option Body) (now : Z) (db : Store) : Answer * Store :=
  if is_ip_blocked db now (getClientIP req)
  then (ip_refused, db)
  else
    match json with
    | None => (system_error, db)
    | Some body =>
        match field (body_password body) with
        | None => (answer 400 (Failed "Password required"), db)
        | Some password =>
            (answer 200 (Hashed (hashPassword deriveBits password None random16)), db)
        end
    end.

End Hashing.

End AuthActions.

(** ** Requests one after the other *)

Module Runs.
Import Auth.

Section Logins.

Variable deriveBits : string -> string -> Z -> list byte.

(** Login requests served one after the other, each on the store the one
    before it left, with the answers in order. *)
Fixpoint serve_logins (rs : list (Env * Request)) (db : Store) : list Response * Store :=
  match rs with
  | [] => ([], db)
  | (env, req) :: rest =>
      let '(resp, db1, _) := serve_login deriveBits env req db in
      let '(resps, db2) := serve_logins rest db1 in
      (resp :: resps, db2)
  end.

End Logins.

End Runs.

(** ** Geolocation (src/lib/geolocation.ts) *)

Module Geolocation.

Record LocationData := {
  latitude : float;
  longitude : float;
  accuracy : float;
  timestamp : Z
}.

Record FakeCheck := { isFake : bool; reasons : list string }.

Inductive PermissionState := granted | denied | prompt.

Definition toLowerChar (c : ascii) : ascii :=
  let n := nat_of_ascii c in
  if ((65 <=? n)%nat && (n <=? 90)%nat)
     || ((192 <=? n)%nat && (n <=? 222)%nat && negb (n =? 215)%nat)
  then ascii_of_nat (n + 32) else c.

Fixpoint toLowerCase (s : string) : string :=
  match s with
  | String c rest => String (toLowerChar c) (toLowerCase rest)
  | EmptyString => EmptyString
  end.

Fixpoint includes (s sub : string) : bool :=
  String.prefix sub s
  || match s with
     | String _ rest => includes rest sub
     | EmptyString => false
     end.

(** [detectFakeGPS()].  [permission] is the state the permissions query
    returned, [None] when the query is not available or throws, and
    [location] is what its own call of [getCurrentLocation] gave, the
    message of the error on the right. *)
Definition detectFakeGPS (userAgent : string) (permission : option PermissionState)
    (location : LocationData + string) : FakeCheck :=
  let ua := toLowerCase userAgent in
  let emulator := includes ua "sdk" || includes ua "emulator" || includes ua "simulator" in
  let r1 := if emulator then ["Emulyator aniqlandi"%string] else [] in
  let r2 := match permission with
            | Some denied => r1 ++ ["GPS ruxsati yo'q"%string]
            | _ => r1
            end in
  match location with
  | inl loc =>
      let tooFine := (accuracy loc <? 1)%float in
      let r3 := if tooFine
                then r2 ++ ["GPS aniqlik darajasi shubhali (juda aniq)"%string] else r2 in
      let wrong := (accuracy loc =? 0)%float || (1000 <? accuracy loc)%float in
      let r4 := if wrong then r3 ++ ["GPS aniqlik darajasi noto'g'ri"%string] else r3 in
      {| isFake := emulator || tooFine || wrong; reasons := r4 |}
  | inr _ =>
      {| isFake := emulator; reasons := r2 ++ ["GPS tekshiruvida xatolik"%string] |}
  end.

End Geolocation.

(** ** The client library (src/lib/auth.ts) *)

Module ClientAuth.

Definition digitChar (d : Z) : ascii := ascii_of_nat (48 + Z.to_nat d).

(** The decimal digits of [n] before [acc], the last digit first; [fuel]
    bounds their number. *)
Fixpoint toDigits (fuel : nat) (n : Z) (acc : string) : string :=
  match fuel with
  | O => acc
  | S fuel' =>
      let acc' := String (digitChar (n mod 10)) acc in
      if (n <? 10)%Z then acc' else toDigits fuel' (n / 10) acc'
  end.

(** [n.toString()] for an integer [n] that is not negative. *)
Definition toString (n : Z) : string :=
  toDigits (S (Z.to_nat (Z.log2 n))) n EmptyString.

Fixpoint repeatChar (c : ascii) (n : nat) : string :=
  match n with
  | O => EmptyString
  | S n' => String c (repeatChar c n')
  end.

(** [s.padStart(n, c)] for a filler of one character. *)
Definition padStart (n : nat) (c : ascii) (s : string) : string :=
  repeatChar c (n - String.length s) +:+ s.

(** [generatePIN()], with the three bytes [crypto.getRandomValues] filled
    in. *)
Definition generatePIN (b0 b1 b2 : byte) : string :=
  let num :=
    (Z.lor (Z.lor (Z.shiftl (Z.of_N (Byte.to_N b0)) 16)
                  (Z.shiftl (Z.of_N (Byte.to_N b1)) 8))
           (Z.of_N (Byte.to_N b2))
     mod 1000000)%Z in
  padStart 6 "0" (toString num).

Definition mobileKeywords : list string :=
  ["android"; "iphone"; "ipad"; "ipod"; "mobile"; "webos"]%string.

(** [isMobileDevice()], on [navigator.userAgent]. *)
Definition isMobileDevice (userAgent : string) : bool :=
  let ua := Geolocation.toLowerCase userAgent in
  existsb (fun keyword => Geolocation.includes ua keyword) mobileKeywords.

(** [isAllowedBrowser(role)]. *)
Definition isAllowedBrowser (userAgent : string) (role : Auth.Role) : bool :=
  let ua := Geolocation.toLowerCase userAgent in
  let isChrome := Geolocation.includes ua "chrome" && negb (Geolocation.includes ua "edg") in
  let isSafari := Geolocation.includes ua "safari" && negb (Geolocation.includes ua "chrome") in
  let isMobile := isMobileDevice userAgent in
  match role with
  | Auth.student => isMobile && (isChrome || isSafari)
  | _ => isChrome || (isMobile && isSafari)
  end.

(** [localStorage]. *)
Definition Storage := gmap string string.

Definition fp_key (userId : string) : string := "device_fp_" +:+ userId.
Definition registered_key (userId : string) : string := "device_registered_" +:+ userId.

(** [!storedFingerprint]. *)
Definition missing (v : option string) : bool :=
  match v with
  | Some s => negb (Str.truthy s)
  | None => true
  end.

(** The two [setItem] of a registration at the time [now] of [Date.now()]. *)
Definition register (now : Z) (currentFingerprint userId : string) (ls : Storage)
  : Storage :=
  <[registered_key userId := toString now]>
    (<[fp_key userId := currentFingerprint]> ls).

(** The requests by which a mismatch is reported, with the fields of their
    bodies other than the time; a request that fails is ignored. *)
Inductive Report :=
| DeviceMismatch (userId expected actual : string)
| AdminDeviceMismatch (userId expectedDevice actualDevice : string)
| TeacherDeviceChange (teacherId oldDevice newDevice : string).

(** [checkAdminDeviceBinding(userId)]; [currentFingerprint] is what
    [getFingerprint()] gives. *)
Definition checkAdminDeviceBinding (now : Z) (currentFingerprint userId : string)
    (ls : Storage) : bool * Storage * list Report :=
  let storedFingerprint := ls !! fp_key userId in
  if missing storedFingerprint
  then (true, register now currentFingerprint userId ls, [])
  else if negb (bool_decide (storedFingerprint = Some currentFingerprint))
  then (false, ls,
        [AdminDeviceMismatch userId (default EmptyString storedFingerprint)
           currentFingerprint])
  else (true, ls, []).

(** [checkTeacherDeviceBinding(userId)]. *)
Definition checkTeacherDeviceBinding (now : Z) (currentFingerprint userId : string)
    (ls : Storage) : bool * Storage * list Report :=
  let storedFingerprint := ls !! fp_key userId in
  if missing storedFingerprint
  then (true, register now currentFingerprint userId ls, [])
  else if negb (bool_decide (storedFingerprint = Some currentFingerprint))
  then (true, register now currentFingerprint userId ls,
        [TeacherDeviceChange userId (default EmptyString storedFingerprint)
           currentFingerprint])
  else (true, ls, []).

(** [enforceDeviceBinding(userId, userRole, strictMode)]. *)
Definition enforceDeviceBinding (now : Z) (currentFingerprint userId userRole : string)
    (strictMode : bool) (ls : Storage) : bool * Storage * list Report :=
  if String.eqb userRole "admin"
  then checkAdminDeviceBinding now currentFingerprint userId ls
  else if String.eqb userRole "teacher" && strictMode
  then checkTeacherDeviceBinding now currentFingerprint userId ls
  else if negb (String.eqb userRole "student")
  then (true, ls, [])
  else
    let storedFingerprint := ls !! fp_key userId in
    if missing storedFingerprint
    then (true, register now currentFingerprint userId ls, [])
    else if bool_decide (storedFingerprint = Some currentFingerprint)
    then (true, ls, [])
    else (false, ls,
          [DeviceMismatch userId (default EmptyString storedFingerprint)
             currentFingerprint]).

(** [isDeviceRegistered(userId)]. *)
Definition isDeviceRegistered (currentFingerprint userId : string) (ls : Storage) : bool :=
  bool_decide (ls !! fp_key userId = Some currentFingerprint).

(** [resetDeviceBinding(userId)]. *)
Definition resetDeviceBinding (userId : string) (ls : Storage) : Storage :=
  delete (registered_key userId) (delete (fp_key userId) ls).

(** The digits [parseInt] reads after a prefix [0x]. *)
Definition hexDigitValue (c : ascii) : option Z :=
  let n := nat_of_ascii c in
  if (48 <=? n)%nat && (n <=? 57)%nat then Some (Z.of_nat n - 48)%Z
  else if (97 <=? n)%nat && (n <=? 102)%nat then Some (Z.of_nat n - 87)%Z
  else if (65 <=? n)%nat && (n <=? 70)%nat then Some (Z.of_nat n - 55)%Z
  else None.

Fixpoint hexPrefix (s : string) (acc : option Z) : option Z :=
  match s with
  | String c rest =>
      match hexDigitValue c with
      | Some d => hexPrefix rest (Some (16 * default 0%Z acc + d)%Z)
      | None => acc
      end
  | EmptyString => acc
  end.

(** The digits of [parseInt(s)] after the sign: hexadecimal after [0x] or
    [0X], decimal otherwise. *)
Definition unsignedInt (s : string) : option Z :=
  match s with
  | String "0" (String "x" rest) => hexPrefix rest None
  | String "0" (String "X" rest) => hexPrefix rest None
  | _ => Str.digitsPrefix s None
  end.

(** [parseInt(s)] without a radix, as a mathematical integer; [None] is
    NaN. *)
Definition parseInt (s : string) : option Z :=
  match Str.trimStart s with
  | String "-" rest => n ← unsignedInt rest; Some (- n)%Z
  | String "+" rest => unsignedInt rest
  | t => unsignedInt t
  end.

Record DeviceInfo := {
  info_fingerprint : option string;
  registeredAt : option (option Z)
}.

(** [getDeviceInfo(userId)]; a [registeredAt] that is [Some None] is NaN. *)
Definition getDeviceInfo (userId : string) (ls : Storage) : DeviceInfo :=
  let registeredAt := ls !! registered_key userId in
  {| info_fingerprint := ls !! fp_key userId;
     registeredAt :=
       if missing registeredAt then None
       else Some (parseInt (default EmptyString registeredAt)) |}.

End ClientAuth.

(** ** The check-in page (component [StudentCheckin]) *)

Module Checkin.
Import Geolocation.

Inductive CheckinStep := pin_step | face_step | result_step.

Inductive AttendanceStatus := present | absent | excused | unexcused | suspicious.

(** The [status] of a check result. *)
Inductive ResultStatus := Present | Suspicious | Rejected.

Inductive Message :=
| OnlyMobile
| InvalidOrExpiredPin
| GpsError (message : string)
| NoFaceRegistered
| FaceNotVerified
| FakeGpsDetected (reasons : list string)
| TooFar (distance radius : float)
| Recorded (distance : float)
| SystemError.

Record CheckResult := {
  success : bool;
  message : Message;
  result_status : option ResultStatus
}.

(** A row of [lessons]. *)
Record Lesson := {
  lesson_row_id : string;
  pin_code : option string;
  pin_expires_at : option Z;
  is_active : option bool;
  lesson_latitude : float;
  lesson_longitude : float;
  radius_meters : option float
}.

Record LocationInfo := {
  loc_latitude : float;
  loc_longitude : float;
  loc_distance : float;
  fakeCheck : FakeCheck
}.

(** A row of [attendance]; its key [(lesson_id, student_id)] is unique. *)
Record Attendance := {
  att_status : option AttendanceStatus;
  check_in_time : option Z;
  att_latitude : option float;
  att_longitude : option float;
  distance_meters : option float;
  is_fake_gps : option bool;
  suspicious_reason : option string;
  att_fingerprint : option string;
  att_user_agent : option string;
  marked_by : option string
}.

Record ActivityLog := {
  log_user_id : string;
  log_action : string;
  log_lesson_id : string;
  log_reason : option string
}.

Record Store := {
  lessons : list Lesson;
  attendance : gmap (string * string) Attendance;
  activity_logs : list ActivityLog
}.

(** The state of the component. *)
Record State := {
  user : option string;
  pin : string;
  isChecking : bool;
  checkResult : option CheckResult;
  step : CheckinStep;
  lessonData : option Lesson;
  locationData : option LocationInfo;
  userFaceEmbedding : option (list float)
}.

(** What the browser supplies to the handlers. *)
Record Env := {
  isMobileDevice : bool;
  now : Z;
  userAgent : string;
  permission : option PermissionState;
  location_of_fake_check : LocationData + string;
  location : LocationData + string;
  getFingerprint : string
}.

(** The steps of a check-in whose order the properties are about, as they
    happen. *)
Inductive Event :=
| QueryLesson (pinCode : string)
| DetectFakeGPS
| GetCurrentLocation
| CalculateDistance
| SetStep (s : CheckinStep)
| FaceOutcome (matched : bool)
| GpsVerdict (passed : bool)
| SelectAttendance
| WriteAttendance (status : AttendanceStatus)
| InsertActivityLog (action : string).

Definition is_attendance_write (e : Event) : bool :=
  match e with
  | WriteAttendance _ => true
  | _ => false
  end.

Definition is_face_step (e : Event) : bool :=
  match e with
  | SetStep face_step => true
  | _ => false
  end.

Definition is_gps_verdict (e : Event) : bool :=
  match e with
  | GpsVerdict _ => true
  | _ => false
  end.

Definition is_present_write (e : Event) : bool :=
  match e with
  | WriteAttendance present => true
  | _ => false
  end.

(** The events the gates of a check-in are made of. *)
Definition gate_event (e : Event) : bool :=
  is_face_step e || is_gps_verdict e || is_present_write e.

(** [lesson.radius_meters || 120]. *)
Definition radiusOrDefault (r : option float) : float :=
  match r with
  | Some v => if is_zero v || is_nan v then 120%float else v
  | None => 120%float
  end.

(** The query of [handlePinSubmit]: the active lessons with this PIN that
    has not expired; [maybeSingle] gives nothing unless there is one. *)
Definition matches_pin (pinCode : string) (t : Z) (l : Lesson) : bool :=
  bool_decide (pin_code l = Some pinCode)
  && bool_decide (is_active l = Some true)
  && match pin_expires_at l with
     | Some e => (t <=? e)%Z
     | None => false
     end.

Definition select_lesson (db : Store) (pinCode : string) (t : Z) : option Lesson :=
  match List.filter (matches_pin pinCode t) (lessons db) with
  | [l] => Some l
  | _ => None
  end.

Definition insert_activity_log (db : Store) (l : ActivityLog) : Store :=
  {| lessons := lessons db;
     attendance := attendance db;
     activity_logs := activity_logs db ++ [l] |}.

(** The columns a check-in writes. *)
Record AttendanceData := {
  data_status : AttendanceStatus;
  data_check_in_time : Z;
  data_latitude : float;
  data_longitude : float;
  data_distance_meters : float;
  data_is_fake_gps : bool;
  data_suspicious_reason : option string;
  data_fingerprint : string;
  data_user_agent : string
}.

(** The row after the write: the columns of [d], and [marked_by] kept from
    the row there was, if any. *)
Definition written_row (old : option Attendance) (d : AttendanceData) : Attendance :=
  {| att_status := Some (data_status d);
     check_in_time := Some (data_check_in_time d);
     att_latitude := Some (data_latitude d);
     att_longitude := Some (data_longitude d);
     distance_meters := Some (data_distance_meters d);
     is_fake_gps := Some (data_is_fake_gps d);
     suspicious_reason := data_suspicious_reason d;
     att_fingerprint := Some (data_fingerprint d);
     att_user_agent := Some (data_user_agent d);
     marked_by := old ≫= marked_by |}.

(** Both [upsert(..., { onConflict: "lesson_id,student_id" })] and the
    select followed by [update] or [insert]: the row of the pair is
    replaced or created. *)
Definition write_attendance (db : Store) (lesson_id student_id : string)
    (d : AttendanceData) : Store :=
  {| lessons := lessons db;
     attendance :=
       <[(lesson_id, student_id) :=
           written_row (attendance db !! (lesson_id, student_id)) d]> (attendance db);
     activity_logs := activity_logs db |}.

Definition with_result (st : State) (r : CheckResult) (isChecking : bool) : State :=
  {| user := user st; pin := pin st; isChecking := isChecking;
     checkResult := Some r; step := result_step;
     lessonData := lessonData st; locationData := locationData st;
     userFaceEmbedding := userFaceEmbedding st |}.

Definition failure (m : Message) (s : option ResultStatus) : CheckResult :=
  {| success := false; message := m; result_status := s |}.

(** [setIsChecking(true)]. *)
Definition checking (st : State) : State :=
  {| user := user st; pin := pin st; isChecking := true;
     checkResult := checkResult st; step := step st;
     lessonData := lessonData st; locationData := locationData st;
     userFaceEmbedding := userFaceEmbedding st |}.

Section Handlers.

(** [calculateDistance(lat1, lon1, lat2, lon2)], the haversine formula of
    src/lib/geolocation.ts over [Math.sin], [Math.cos] and [Math.atan2]. *)
Variable calculateDistance : float -> float -> float -> float -> float.

(** [handlePinSubmit(pinCode)]. *)
Definition handlePinSubmit (env : Env) (pinCode : string) (st : State) (db : Store)
  : State * Store * list Event :=
  match user st with
  | None => (st, db, [])
  | Some uid =>
      if negb (String.length pinCode =? 6)%nat then (st, db, [])
      else if negb (isMobileDevice env)
      then (with_result st (failure OnlyMobile None) false, db, [SetStep result_step])
      else
        match select_lesson db pinCode (now env) with
        | None =>
            (with_result st (failure InvalidOrExpiredPin None) false, db,
             [QueryLesson pinCode; SetStep result_step])
        | Some lesson =>
            let st1 :=
              {| user := user st; pin := pin st; isChecking := true;
                 checkResult := None; step := step st;
                 lessonData := Some lesson; locationData := locationData st;
                 userFaceEmbedding := userFaceEmbedding st |} in
            let fake := detectFakeGPS (userAgent env) (permission env)
                          (location_of_fake_check env) in
            match location env with
            | inr err =>
                (with_result st1 (failure (GpsError err) None) false, db,
                 [QueryLesson pinCode; DetectFakeGPS; GetCurrentLocation;
                  SetStep result_step])
            | inl loc =>
                let distance :=
                  calculateDistance (latitude loc) (longitude loc)
                    (lesson_latitude lesson) (lesson_longitude lesson) in
                let info :=
                  {| loc_latitude := latitude loc; loc_longitude := longitude loc;
                     loc_distance := distance; fakeCheck := fake |} in
                let trace := [QueryLesson pinCode; DetectFakeGPS; GetCurrentLocation;
                              CalculateDistance] in
                match userFaceEmbedding st with
                | Some _ =>
                    ({| user := user st; pin := pin st; isChecking := false;
                        checkResult := None; step := face_step;
                        lessonData := Some lesson; locationData := Some info;
                        userFaceEmbedding := userFaceEmbedding st |},
                     db, trace ++ [SetStep face_step])
                | None =>
                    ({| user := user st; pin := pin st; isChecking := false;
                        checkResult := Some (failure NoFaceRegistered (Some Suspicious));
                        step := result_step;
                        lessonData := Some lesson; locationData := Some info;
                        userFaceEmbedding := userFaceEmbedding st |},
                     insert_activity_log db
                       {| log_user_id := uid; log_action := "checkin_failed";
                          log_lesson_id := lesson_row_id lesson;
                          log_reason := Some "no_face_id"%string |},
                     trace ++ [SetStep result_step; InsertActivityLog "checkin_failed"])
                end
            end
        end
  end.

(** [completeCheckin(lesson, location, distance, fakeCheck, radiusMeters,
    faceVerified)]. *)
Definition completeCheckin (env : Env) (lesson : Lesson) (lat lon : float)
    (distance : float) (fake : FakeCheck) (radiusMeters : float)
    (faceVerified : bool) (st : State) (db : Store)
  : State * Store * list Event :=
  match user st with
  | None => (st, db, [])
  | Some uid =>
      let isWithinRadius := (distance <=? radiusMeters)%float in
      let fingerprint := getFingerprint env in
      if isFake fake || negb isWithinRadius
      then
        let reason := if isFake fake then FakeGpsDetected (reasons fake)
                      else TooFar distance radiusMeters in
        ({| user := user st; pin := EmptyString; isChecking := false;
            checkResult := Some (failure reason (Some Rejected));
            step := result_step;
            lessonData := lessonData st; locationData := locationData st;
            userFaceEmbedding := userFaceEmbedding st |},
         insert_activity_log db
           {| log_user_id := uid; log_action := "checkin_rejected";
              log_lesson_id := lesson_row_id lesson; log_reason := None |},
         [GpsVerdict false; InsertActivityLog "checkin_rejected"; SetStep result_step])
      else
        let attendanceData :=
          {| data_status := present;
             data_check_in_time := now env;
             data_latitude := lat;
             data_longitude := lon;
             data_distance_meters := distance;
             data_is_fake_gps := false;
             data_suspicious_reason := None;
             data_fingerprint := fingerprint;
             data_user_agent := userAgent env |} in
        let db := write_attendance db (lesson_row_id lesson) uid attendanceData in
        let db := insert_activity_log db
                    {| log_user_id := uid; log_action := "checkin_success";
                       log_lesson_id := lesson_row_id lesson; log_reason := None |} in
        ({| user := user st; pin := EmptyString; isChecking := false;
            checkResult :=
              Some {| success := true; message := Recorded distance;
                      result_status := Some Present |};
            step := result_step;
            lessonData := lessonData st; locationData := locationData st;
            userFaceEmbedding := userFaceEmbedding st |},
         db,
         [GpsVerdict true; SelectAttendance; WriteAttendance present;
          InsertActivityLog "checkin_success"; SetStep result_step])
  end.

(** [handleFaceVerified()], the [onCapture] of the capture component. *)
Definition handleFaceVerified (env : Env) (st : State) (db : Store)
  : State * Store * list Event :=
  match lessonData st, locationData st with
  | Some lesson, Some info =>
      completeCheckin env lesson (loc_latitude info) (loc_longitude info)
        (loc_distance info) (fakeCheck info)
        (radiusOrDefault (radius_meters lesson)) true (checking st) db
  | _, _ => (st, db, [])
  end.

(** [handleFaceFailed()], the [onVerificationFailed] of the capture
    component. *)
Definition handleFaceFailed (env : Env) (st : State) (db : Store)
  : State * Store * list Event :=
  match lessonData st, locationData st, user st with
  | Some lesson, Some info, Some uid =>
      let db := write_attendance db (lesson_row_id lesson) uid
                  {| data_status := suspicious;
                     data_check_in_time := now env;
                     data_latitude := loc_latitude info;
                     data_longitude := loc_longitude info;
                     data_distance_meters := loc_distance info;
                     data_is_fake_gps := isFake (fakeCheck info);
                     data_suspicious_reason := Some "Face ID tasdiqlanmadi"%string;
                     data_fingerprint := getFingerprint env;
                     data_user_agent := userAgent env |} in
      let db := insert_activity_log db
                  {| log_user_id := uid; log_action := "checkin_suspicious";
                     log_lesson_id := lesson_row_id lesson;
                     log_reason := Some "face_verification_failed"%string |} in
      (with_result st (failure FaceNotVerified (Some Suspicious)) (isChecking st),
       db,
       [SetStep result_step; WriteAttendance suspicious;
        InsertActivityLog "checkin_suspicious"])
  | _, _, _ => (st, db, [])
  end.

(** [handleRetry()]. *)
Definition handleRetry (st : State) : State :=
  {| user := user st; pin := EmptyString; isChecking := isChecking st;
     checkResult := None; step := pin_step;
     lessonData := None; locationData := None;
     userFaceEmbedding := userFaceEmbedding st |}.

(** The face step of a check-in: the capture component runs once on
    [video] in mode [verify] and calls back, [onCapture] for a face that
    matched and [onVerificationFailed] for one that did not.  The
    callbacks work on the state the PIN step left. *)
Definition capture_step (env : Env)
    (previousDetection : option FaceApi.Detection)
    (frames : nat -> list (option FaceApi.Detection))
    (video : nat -> option FaceApi.Detection) (st : State) (db : Store)
  : State * Store * list Event :=
  match FaceCapture.handleCapture FaceCapture.verify (userFaceEmbedding st)
          previousDetection frames video with
  | Some capture =>
      match FaceCapture.callback capture with
      | Some (FaceCapture.CaptureCallback _) =>
          let '(st2, db2, t2) := handleFaceVerified env st db in
          (st2, db2, FaceOutcome true :: t2)
      | Some FaceCapture.VerificationFailedCallback =>
          let '(st2, db2, t2) := handleFaceFailed env st db in
          (st2, db2, FaceOutcome false :: t2)
      | None => (st, db, [])
      end
  | None => (st, db, [])
  end.

(** One check-in with nothing in between: the PIN is submitted and, when
    the page shows the face step, the capture component runs once and
    calls back on the store the PIN step left, the browser being as it was.
    This is [checkin_apart] below with no write of another client between
    the two handlers. *)
Definition checkin (env : Env) (pinCode : string)
    (previousDetection : option FaceApi.Detection)
    (frames : nat -> list (option FaceApi.Detection))
    (video : nat -> option FaceApi.Detection) (st : State) (db : Store)
  : State * Store * list Event :=
  let '(st1, db1, t1) := handlePinSubmit env pinCode st db in
  match step st1 with
  | face_step =>
      match FaceCapture.handleCapture FaceCapture.verify (userFaceEmbedding st1)
              previousDetection frames video with
      | Some capture =>
          match FaceCapture.callback capture with
          | Some (FaceCapture.CaptureCallback _) =>
              let '(st2, db2, t2) := handleFaceVerified env st1 db1 in
              (st2, db2, t1 ++ FaceOutcome true :: t2)
          | Some FaceCapture.VerificationFailedCallback =>
              let '(st2, db2, t2) := handleFaceFailed env st1 db1 in
              (st2, db2, t1 ++ FaceOutcome false :: t2)
          | None => (st1, db1, t1)
          end
      | None => (st1, db1, t1)
      end
  | _ => (st1, db1, t1)
  end.

(** One check-in as the page runs it, in two event handlers, and the
    other clients of the store.  The PIN is submitted on the store [db]
    with the browser as [env] has it.  The other clients then make
    [others] of the store.  When the page shows the face step, the student
    has taken the capture meanwhile, and it calls back on the store the
    others left, with the browser as [env2] has it.  The callbacks take
    the lesson and the position from the state of the component: they do
    not read the lesson again. *)
Definition checkin_apart (env : Env) (pinCode : string)
    (previousDetection : option FaceApi.Detection)
    (frames : nat -> list (option FaceApi.Detection))
    (video : nat -> option FaceApi.Detection)
    (env2 : Env) (others : Store -> Store) (st : State) (db : Store)
  : State * Store * list Event :=
  let '(st1, db1, t1) := handlePinSubmit env pinCode st db in
  match step st1 with
  | face_step =>
      let '(st2, db2, t2) :=
        capture_step env2 previousDetection frames video st1 (others db1) in
      (st2, db2, t1 ++ t2)
  | _ => (st1, others db1, t1)
  end.

End Handlers.

End Checkin.

(** ** The PIN field of the check-in page (component [StudentCheckin]) *)

Module PinField.
Import Checkin.

Definition isDigit (c : ascii) : bool :=
  let n := nat_of_ascii c in (48 <=? n)%nat && (n <=? 57)%nat.

(** [value.replace(/\D/g, "")]. *)
Fixpoint removeNonDigits (s : string) : string :=
  match s with
  | String c rest =>
      if isDigit c then String c (removeNonDigits rest) else removeNonDigits rest
  | EmptyString => EmptyString
  end.

(** [s.slice(0, n)]. *)
Fixpoint slice0 (n : nat) (s : string) : string :=
  match n, s with
  | S n', String c rest => String c (slice0 n' rest)
  | _, _ => EmptyString
  end.

Definition setPin (cleaned : string) (st : State) : State :=
  {| user := user st; pin := cleaned; isChecking := isChecking st;
     checkResult := checkResult st; step := step st;
     lessonData := lessonData st; locationData := locationData st;
     userFaceEmbedding := userFaceEmbedding st |}.

Section Handlers.

Variable calculateDistance : float -> float -> float -> float -> float.

(** [handlePinChange(value)]. *)
Definition handlePinChange (env : Env) (value : string) (st : State) (db : Store)
  : State * Store * list Event :=
  let cleaned := slice0 6 (removeNonDigits value) in
  let st := setPin cleaned st in
  if (String.length cleaned =? 6)%nat
  then handlePinSubmit calculateDistance env cleaned st db
  else (st, db, []).

End Handlers.

End PinField.

(** ** The lesson page of a teacher (component [TeacherLessons]) *)

Module TeacherLessons.
Import Checkin.

(** [from("lessons").update(...).eq("id", id)]. *)
Definition update_lesson (db : Store) (id : string) (f : Lesson -> Lesson) : Store :=
  {| lessons := map (fun l => if String.eqb (lesson_row_id l) id then f l else l)
                    (lessons db);
     attendance := attendance db;
     activity_logs := activity_logs db |}.

Definition set_inactive (l : Lesson) : Lesson :=
  {| lesson_row_id := lesson_row_id l; pin_code := pin_code l;
     pin_expires_at := pin_expires_at l; is_active := Some false;
     lesson_latitude := lesson_latitude l; lesson_longitude := lesson_longitude l;
     radius_meters := radius_meters l |}.

Definition set_pin (p : string) (e : Z) (l : Lesson) : Lesson :=
  {| lesson_row_id := lesson_row_id l; pin_code := Some p;
     pin_expires_at := Some e; is_active := is_active l;
     lesson_latitude := lesson_latitude l; lesson_longitude := lesson_longitude l;
     radius_meters := radius_meters l |}.

(** [endLesson()]; [activeLesson] is the id of the lesson the page shows,
    if any. *)
Definition endLesson (activeLesson : option string) (db : Store) : Store :=
  match activeLesson with
  | None => db
  | Some id => update_lesson db id set_inactive
  end.

(** [regeneratePIN()], with the random bytes of [generatePIN] and the
    clock; the expiry is [pinValiditySeconds] later, the local time having
    no transition in between. *)
Definition regeneratePIN (b0 b1 b2 : byte) (now pinValiditySeconds : Z)
    (activeLesson : option string) (db : Store) : Store :=
  match activeLesson with
  | None => db
  | Some id =>
      update_lesson db id
        (set_pin (ClientAuth.generatePIN b0 b1 b2) (now + 1000 * pinValiditySeconds)%Z)
  end.

End TeacherLessons.

(** ** The attendance page of a teacher (component [TeacherAttendance]) *)

Module TeacherAttendance.
Import Checkin.



End TeacherAttendance.

(** ** The properties, in the words of the specification *)

Module Spec.
Import FaceApi.

(** The Euclidean distance of two descriptors, coordinate by coordinate. *)
Definition euclidean_distance (a b : list float) : float :=
  sqrt (fold_left
          (fun sum xy => (sum + (fst xy - snd xy) * (fst xy - snd xy))%float)
          (combine a b) 0%float).

Definition finite (v : float) : Prop := is_finite v = true.

(** The mean displacement of the landmarks of [prev] in [curr]: the sum,
    landmark by landmark, of the distances between the two positions,
    divided by the number of landmarks of [prev]. *)
Definition mean_landmark_displacement (prev curr : list Point) : float :=
  (fold_left
     (fun total pc =>
        let dx := px (snd pc) - px (fst pc) in
        let dy := py (snd pc) - py (fst pc) in
        total + sqrt (dx * dx + dy * dy))
     (combine prev curr) 0
   / JS.of_nat (length prev))%float.

(** A sample as the amended property words it: a face, a box not below
    100 x 100, a score not below 0.8 and, when the component holds a
    detection, a mean landmark displacement from it not below 0.1. *)
Definition sample_accepted (held current : option Detection) : bool :=
  match current with
  | None => false
  | Some c =>
      negb (width (box c) <? 100)%float
      && negb (height (box c) <? 100)%float
      && negb (score c <? 0.8)%float
      && match held with
         | None => true
         | Some p =>
             negb (mean_landmark_displacement (positions p) (positions c) <? 0.1)%float
         end
  end.

(** A sample as the specification words it: a face, a box of at least
    100 x 100, a confidence of at least 0.8, and a mean landmark
    displacement from the sample before it above the threshold. *)
Definition sample_qualifies (previousSample current : option Detection) : bool :=
  match current with
  | None => false
  | Some c =>
      (100 <=? width (box c))%float
      && (100 <=? height (box c))%float
      && (0.8 <=? score c)%float
      && match previousSample with
         | None => true
         | Some p =>
             (0.1 <? mean_landmark_displacement (positions p) (positions c))%float
         end
  end.

(** The sample before sample [i]: the detection the component held for the
    first one, the sample just taken for the others. *)
Definition sample_before (previousDetection : option Detection)
    (video : nat -> option Detection) (i : nat) : option Detection :=
  match i with
  | O => previousDetection
  | S j => video j
  end.

Definition count (p : nat -> bool) (n : nat) : nat :=
  length (List.filter p (seq 0 n)).

(** The detection the component holds when sample [i] is taken: the last
    face that a frame processed since the capture began has recorded, and
    otherwise the one the component held when the capture began. *)
Definition detection_held (previousDetection : option Detection)
    (frames : nat -> list (option Detection)) (i : nat) : option Detection :=
  match last (omap id (concat (map frames (seq 0 i)))) with
  | Some d => Some d
  | None => previousDetection
  end.

(** Each of the three samples shows at least the landmarks of the
    detection the component holds when it is taken (the landmark model
    gives 68 points to every face). *)
Definition landmarks_present (previousDetection : option Detection)
    (frames : nat -> list (option Detection))
    (video : nat -> option Detection) : Prop :=
  forall i p c, i < 3 ->
    detection_held previousDetection frames i = Some p -> video i = Some c ->
    length (positions p) <= length (positions c).

(** Liveness as the specification words it: at least 2 of the 3 samples
    qualify. *)
Definition liveness_by_consecutive_samples (previousDetection : option Detection)
    (video : nat -> option Detection) : bool :=
  (2 <=? count (fun i => sample_qualifies (sample_before previousDetection video i)
                                          (video i)) 3)%nat.

(** [R pre e] holds of every event [e] of the trace [t] with the events
    [pre] before it, [t] coming after the events [before]. *)
Fixpoint each_event {A} (R : list A -> A -> Prop) (before t : list A) : Prop :=
  match t with
  | [] => True
  | e :: t' => R before e /\ each_event R (before ++ [e]) t'
  end.

(** The login and the password of a request as the action uses them. *)
Definition submitted_login (req : Auth.Request) : string :=
  Auth.sanitizeInput (b ← Auth.body req; Auth.login b).

Definition submitted_password (req : Auth.Request) : string :=
  Auth.sanitizeInput (b ← Auth.body req; Auth.password b).

(** The token of the body and the token of the header are both there and
    equal. *)
Definition csrf_tokens_match (req : Auth.Request) : bool :=
  match Auth.body req with
  | Some b => Auth.validateCSRFToken (Auth.x_xsrf_token req) (Auth.csrf_token b)
  | None => false
  end.

(** The request comes as far as the rate limit: its address is not
    blocked, its tokens match, its login and password are not empty. *)
Definition reaches_rate_limit (env : Auth.Env) (req : Auth.Request) (db : Auth.Store)
  : bool :=
  negb (Auth.is_ip_blocked db (Auth.sql_now env) (Auth.getClientIP req))
  && csrf_tokens_match req
  && Str.truthy (submitted_login req)
  && Str.truthy (submitted_password req).

(** The session a successful login inserts. *)
Definition issued_session (env : Auth.Env) (req : Auth.Request) (b : Auth.LoginBody)
    (u : Auth.User) : Auth.Session :=
  {| Auth.session_user_id := Auth.user_id u;
     Auth.token := Auth.generateToken (Auth.random_token env);
     Auth.refresh_token := Auth.generateRefreshToken (Auth.random_refresh env);
     Auth.session_fingerprint := Auth.fingerprint b;
     Auth.session_user_agent := default EmptyString (Auth.user_agent req);
     Auth.session_ip_address := Auth.getClientIP req;
     Auth.expires_at := Auth.plus12hours (Auth.date_access env);
     Auth.refresh_expires_at := Auth.plus7days (Auth.date_refresh env) |}.

(** The failed attempts of the last 15 minutes for the login or from the
    address. *)
Definition recent_failures (db : Auth.Store) (now : Z) (login ip : string) : nat :=
  length (List.filter (Auth.counts_against now login ip) (Auth.login_attempts db)).

Definition isHexChar (c : ascii) : bool :=
  let n := nat_of_ascii c in
  ((48 <=? n)%nat && (n <=? 57)%nat) || ((97 <=? n)%nat && (n <=? 102)%nat).

Definition isHexString (s : string) : bool :=
  forallb isHexChar (list_ascii_of_string s).

Definition isDigitString (s : string) : bool :=
  Str.truthy s
  && forallb (fun c => bool_decide (is_Some (Str.digitValue c))) (list_ascii_of_string s).

(** The grammar [$pbkdf2$<iterations>$<salt-hex>$<hash-hex>]. *)
Definition matches_pbkdf2_grammar (s : string) : bool :=
  match Str.split "$" s with
  | [lead; tag; iterations; salt; digest] =>
      String.eqb lead EmptyString && String.eqb tag "pbkdf2"
      && isDigitString iterations && isHexString salt && isHexString digest
  | _ => false
  end.

End Spec.

(** ** Sample data *)

Module Examples.
Import FaceApi.

Definition descriptor_zero : list float := repeat 0%float 128.

(** A descriptor at distance 32767/65536 of [descriptor_zero]. *)
Definition descriptor_near : list float :=
  0.4999847412109375%float :: repeat 0%float 127.

Definition descriptor_far : list float := repeat 1%float 128.

(** A face seen in a printed photograph, and the same photograph held one
    pixel to the right. *)
Definition photograph : Detection :=
  {| box := {| width := 200%float; height := 200%float |};
     score := 0.95%float;
     positions := repeat {| px := 120%float; py := 80%float |} 68;
     descriptor := descriptor_far |}.

Definition photograph_moved : Detection :=
  {| box := {| width := 200%float; height := 200%float |};
     score := 0.95%float;
     positions := repeat {| px := 121%float; py := 80%float |} 68;
     descriptor := descriptor_far |}.

Definition still_video (_ : nat) : option Detection := Some photograph_moved.

(** No frame is being processed while the capture runs. *)
Definition no_frames (_ : nat) : list (option Detection) := [].

(** A frame that was being processed when the capture began finds the
    photograph where it now is, while the first sample waits. *)
Definition late_frame (i : nat) : list (option Detection) :=
  match i with
  | O => [Some photograph_moved]
  | _ => []
  end.

(** A stand-in for PBKDF2 in the sample runs. *)
Definition sample_deriveBits (password salt : string) (iterations : Z) : list byte :=
  list_byte_of_string (password +:+ salt).

Definition bob : Auth.User :=
  {| Auth.user_id := "u-bob"; Auth.user_login := "bob";
     Auth.password_hash := "Husan0716"; Auth.full_name := "Bob";
     Auth.role := Auth.teacher; Auth.is_active := Some true;
     Auth.device_fingerprint := None |}.

Definition failed_attempt (t : Z) : Auth.LoginAttempt :=
  {| Auth.attempt_login := "bob"; Auth.attempt_ip_address := Some "10.0.0.9"%string;
     Auth.attempt_user_agent := None; Auth.attempt_success := false;
     Auth.attempt_created_at := t |}.

Definition old_session : Auth.Session :=
  {| Auth.session_user_id := "u-bob"; Auth.token := "aa"; Auth.refresh_token := "bb";
     Auth.session_fingerprint := None; Auth.session_user_agent := "";
     Auth.session_ip_address := "10.0.0.1";
     Auth.expires_at := 500000; Auth.refresh_expires_at := 600000 |}.

(** A store without failed attempts, and one with five of them within the
    last 15 minutes. *)
Definition quiet_store : Auth.Store :=
  {| Auth.users := [bob]; Auth.sessions := [old_session]; Auth.login_attempts := [];
     Auth.ip_rules := []; Auth.activity_logs := [] |}.

Definition busy_store : Auth.Store :=
  {| Auth.users := [bob]; Auth.sessions := [old_session];
     Auth.login_attempts :=
       map failed_attempt [1000000; 1000001; 1000002; 1000003; 1000004]%Z;
     Auth.ip_rules := []; Auth.activity_logs := [] |}.

Definition sample_env : Auth.Env :=
  {| Auth.sql_now := 1500000; Auth.date_access := 1500001; Auth.date_refresh := 1500002;
     Auth.random_token := [x01; x02]%byte; Auth.random_refresh := [x03; x04]%byte;
     Auth.random_salt := [x0a; xff]%byte |}.

Definition sample_body (csrf : option string) : Auth.LoginBody :=
  {| Auth.login := Some "bob"%string; Auth.password := Some "Husan0716"%string;
     Auth.fingerprint := Some "fp-1"%string; Auth.csrf_token := csrf |}.

(** A login with the right password, with and without the token in the
    body. *)
Definition request_with (csrf : option string) : Auth.Request :=
  {| Auth.x_forwarded_for := Some "10.0.0.1, 172.16.0.1"%string;
     Auth.x_real_ip := None; Auth.cf_connecting_ip := None;
     Auth.user_agent := Some "Mozilla/5.0"%string;
     Auth.x_xsrf_token := Some "t0k3n"%string;
     Auth.body := Some (sample_body csrf) |}.

Definition good_request : Auth.Request := request_with (Some "t0k3n"%string).
Definition tokenless_request : Auth.Request := request_with None.

(** A lesson with a radius of 120 m, a student enrolled with
    [descriptor_zero], and a phone. *)
Definition classroom : Checkin.Lesson :=
  {| Checkin.lesson_row_id := "lesson-1";
     Checkin.pin_code := Some "482913"%string;
     Checkin.pin_expires_at := Some 2000000%Z;
     Checkin.is_active := Some true;
     Checkin.lesson_latitude := 41.3%float;
     Checkin.lesson_longitude := 69.2%float;
     Checkin.radius_meters := Some 120%float |}.

Definition empty_register : Checkin.Store :=
  {| Checkin.lessons := [classroom];
     Checkin.attendance := ∅;
     Checkin.activity_logs := [] |}.

Definition reading : Geolocation.LocationData :=
  {| Geolocation.latitude := 41.31%float; Geolocation.longitude := 69.21%float;
     Geolocation.accuracy := 12%float; Geolocation.timestamp := 1500000 |}.

Definition phone : Checkin.Env :=
  {| Checkin.isMobileDevice := true;
     Checkin.now := 1500000;
     Checkin.userAgent := "Mozilla/5.0 (Linux; Android 13) Chrome/120 Mobile";
     Checkin.permission := Some Geolocation.granted;
     Checkin.location_of_fake_check := inl reading;
     Checkin.location := inl reading;
     Checkin.getFingerprint := "fp-1" |}.

Definition student_at_pin : Checkin.State :=
  {| Checkin.user := Some "u-stu"%string;
     Checkin.pin := "482913";
     Checkin.isChecking := false;
     Checkin.checkResult := None;
     Checkin.step := Checkin.pin_step;
     Checkin.lessonData := None;
     Checkin.locationData := None;
     Checkin.userFaceEmbedding := Some descriptor_zero |}.

(** The same student before the enrollment of a face. *)
Definition student_without_face : Checkin.State :=
  {| Checkin.user := Some "u-stu"%string;
     Checkin.pin := "482913";
     Checkin.isChecking := false;
     Checkin.checkResult := None;
     Checkin.step := Checkin.pin_step;
     Checkin.lessonData := None;
     Checkin.locationData := None;
     Checkin.userFaceEmbedding := None |}.

(** The student, and somebody else, in front of the camera. *)
Definition student_face : Detection :=
  {| box := {| width := 220%float; height := 240%float |};
     score := 0.97%float;
     positions := repeat {| px := 100%float; py := 90%float |} 68;
     descriptor := descriptor_zero |}.

Definition student_video (_ : nat) : option Detection := Some student_face.
Definition stranger_video (_ : nat) : option Detection := Some photograph.

(** The distance the haversine formula gives in the sample runs. *)
Definition meters200 (_ _ _ _ : float) : float := 200%float.
Definition meters50 (_ _ _ _ : float) : float := 50%float.

(** A request of one of the other actions some minutes after the login of
    [sample_env], and a body that carries a token. *)
Definition sample_clock : AuthActions.Clock :=
  {| AuthActions.now_sql := 1800000; AuthActions.date_now := 1800001;
     AuthActions.date_issue := 1800002; AuthActions.random32 := [x05; x06]%byte |}.

(** A request while [old_session] lasts. *)
Definition early_clock : AuthActions.Clock :=
  {| AuthActions.now_sql := 400000; AuthActions.date_now := 400001;
     AuthActions.date_issue := 400002; AuthActions.random32 := [x07; x08]%byte |}.

Definition token_body (t : string) : AuthActions.Body :=
  {| AuthActions.body_token := Some t; AuthActions.body_refresh_token := None;
     AuthActions.body_password := None;
     AuthActions.targetIP := "10.0.0.9"; AuthActions.expiresIn := None |}.

Definition refresh_body (r : string) : AuthActions.Body :=
  {| AuthActions.body_token := None; AuthActions.body_refresh_token := Some r;
     AuthActions.body_password := None;
     AuthActions.targetIP := "10.0.0.9"; AuthActions.expiresIn := None |}.

(** An administrator with a session, in a store where one address is
    blocked for good; the bodies by which the administrator blocks an
    address for [minutes] and lifts a block. *)
Definition alice : Auth.User :=
  {| Auth.user_id := "u-alice"; Auth.user_login := "alice";
     Auth.password_hash := "$pbkdf2$100000$0aff$00"; Auth.full_name := "Alice";
     Auth.role := Auth.admin; Auth.is_active := Some true;
     Auth.device_fingerprint := None |}.

Definition admin_session : Auth.Session :=
  {| Auth.session_user_id := "u-alice"; Auth.token := "cc"; Auth.refresh_token := "dd";
     Auth.session_fingerprint := None; Auth.session_user_agent := "";
     Auth.session_ip_address := "10.0.0.1";
     Auth.expires_at := 500000; Auth.refresh_expires_at := 600000 |}.

Definition guarded_store : Auth.Store :=
  {| Auth.users := [alice; bob]; Auth.sessions := [admin_session; old_session];
     Auth.login_attempts := [];
     Auth.ip_rules :=
       [{| Auth.rule_ip_address := "10.0.0.9"; Auth.rule_type := Auth.blacklist;
           Auth.rule_expires_at := None |}];
     Auth.activity_logs := [] |}.

Definition address_body (t ip : string) (minutes : option Z) : AuthActions.Body :=
  {| AuthActions.body_token := Some t; AuthActions.body_refresh_token := None;
     AuthActions.body_password := None;
     AuthActions.targetIP := ip; AuthActions.expiresIn := minutes |}.

(** The login of [good_request] with a wrong password. *)
Definition mistaken_request : Auth.Request :=
  {| Auth.x_forwarded_for := Some "10.0.0.1, 172.16.0.1"%string;
     Auth.x_real_ip := None; Auth.cf_connecting_ip := None;
     Auth.user_agent := Some "Mozilla/5.0"%string;
     Auth.x_xsrf_token := Some "t0k3n"%string;
     Auth.body :=
       Some {| Auth.login := Some "bob"%string; Auth.password := Some "guess"%string;
               Auth.fingerprint := Some "fp-1"%string;
               Auth.csrf_token := Some "t0k3n"%string |} |}.

(** Two students, one bound to a device and one who has not logged in
    yet, and the login of a student from a device. *)
Definition carol : Auth.User :=
  {| Auth.user_id := "u-carol"; Auth.user_login := "carol";
     Auth.password_hash := "secret"; Auth.full_name := "Carol";
     Auth.role := Auth.student; Auth.is_active := Some true;
     Auth.device_fingerprint := Some "fp-home"%string |}.

Definition dave : Auth.User :=
  {| Auth.user_id := "u-dave"; Auth.user_login := "dave";
     Auth.password_hash := "pass"; Auth.full_name := "Dave";
     Auth.role := Auth.student; Auth.is_active := Some true;
     Auth.device_fingerprint := None |}.

Definition school_store : Auth.Store :=
  {| Auth.users := [carol; dave]; Auth.sessions := []; Auth.login_attempts := [];
     Auth.ip_rules := []; Auth.activity_logs := [] |}.

Definition login_request (l p device : string) : Auth.Request :=
  {| Auth.x_forwarded_for := None;
     Auth.x_real_ip := Some "10.0.0.7"%string; Auth.cf_connecting_ip := None;
     Auth.user_agent := Some "Mozilla/5.0 (iPhone) Safari"%string;
     Auth.x_xsrf_token := Some "t0k3n"%string;
     Auth.body :=
       Some {| Auth.login := Some l; Auth.password := Some p;
               Auth.fingerprint := Some device;
               Auth.csrf_token := Some "t0k3n"%string |} |}.

(** The storage of a browser nobody has logged in from. *)
Definition fresh_browser : ClientAuth.Storage := ∅.

(** An account whose password is hashed by the action [hash-password],
    and the request for the hash. *)
Definition password_body (p : string) : AuthActions.Body :=
  {| AuthActions.body_token := None; AuthActions.body_refresh_token := None;
     AuthActions.body_password := Some p;
     AuthActions.targetIP := ""; AuthActions.expiresIn := None |}.

Definition erin (hash : string) : Auth.User :=
  {| Auth.user_id := "u-erin"; Auth.user_login := "erin";
     Auth.password_hash := hash; Auth.full_name := "Erin";
     Auth.role := Auth.teacher; Auth.is_active := Some true;
     Auth.device_fingerprint := None |}.

Definition store_of (u : Auth.User) : Auth.Store :=
  {| Auth.users := [u]; Auth.sessions := []; Auth.login_attempts := [];
     Auth.ip_rules := []; Auth.activity_logs := [] |}.

(** A request a quarter of an hour after the failures of [busy_store]. *)
Definition late_env : Auth.Env :=
  {| Auth.sql_now := 1000004 + 15 * 60 * 1000; Auth.date_access := 1900005;
     Auth.date_refresh := 1900006;
     Auth.random_token := [x01; x02]%byte; Auth.random_refresh := [x03; x04]%byte;
     Auth.random_salt := [x0a; xff]%byte |}.


End Examples.

(** * Proofs *)

(** ** Numbers *)

Lemma sub_diag_finite (v : float) :
  Spec.finite v -> (v - v)%float = 0%float.
Proof.
  unfold Spec.finite, is_finite. intros Hfin.
  rewrite <- (SF2Prim_Prim2SF (v - v)), sub_spec.
  rewrite <- (SF2Prim_Prim2SF v) in Hfin.
  destruct (Prim2SF v) as [s | s | | s m e].
  - destruct s; reflexivity.
  - destruct s; vm_compute in Hfin; discriminate.
  - vm_compute in Hfin; discriminate.
  - unfold SF64sub, SFsub. cbv zeta. rewrite Z.sub_diag. reflexivity.
Qed.

(** The digits [toFixed(4)] prints are those of an integer nearest to
    [m * 2^e * 10^4]. *)
Lemma toFixed4_digits_nearest (m : positive) (e : Z) :
  let n := JS.toFixed4_digits m e in
  if (0 <=? e)%Z then n = (Z.pos m * 2 ^ e * 10000)%Z
  else (- 2 ^ (- e) <= 2 * (Z.pos m * 10000 - n * 2 ^ (- e)) < 2 ^ (- e))%Z.
Proof.
  unfold JS.toFixed4_digits. destruct (0 <=? e)%Z eqn:He; [reflexivity|].
  apply Z.leb_gt in He.
  assert (Hk : (0 < 2 ^ (- e))%Z) by (apply Z.pow_pos_nonneg; lia).
  set (k := (2 ^ (- e))%Z) in *.
  pose proof (Z.div_mod (2 * Z.pos m * 10000 + k) (2 * k) ltac:(lia)) as Hdiv.
  pose proof (Z.mod_pos_bound (2 * Z.pos m * 10000 + k) (2 * k) ltac:(lia)) as Hmod.
  set (q := ((2 * Z.pos m * 10000 + k) / (2 * k))%Z) in *.
  nia.
Qed.

(** ** Descriptor comparison *)

Section Comparison.
Import FaceApi.

Lemma fold_left_map_index {A} (f : A -> nat -> A) (g : nat -> nat) (l : list nat) (s : A) :
  fold_left f (map g l) s = fold_left (fun acc i => f acc (g i)) l s.
Proof. revert s. induction l as [|i l IH]; intros s; simpl; [reflexivity|apply IH]. Qed.

Lemma squared_differences_combine (a b : list float) (s : float) :
  length a = length b ->
  fold_left
    (fun sum i => (sum + JS.Math_pow2 (nth i a nan - nth i b nan))%float)
    (seq 0 (length a)) s
  = fold_left
      (fun sum xy => (sum + (fst xy - snd xy) * (fst xy - snd xy))%float)
      (combine a b) s.
Proof.
  revert b s. induction a as [|x a IH]; intros [|y b] s Hlen; simpl in Hlen;
    try discriminate; [reflexivity|].
  injection Hlen as Hlen.
  cbn [length seq fold_left combine].
  rewrite <- seq_shift, fold_left_map_index.
  cbn [nth fst snd]. unfold JS.Math_pow2 at 1.
  apply (IH b _ Hlen).
Qed.

Lemma compare_full_length (a b : list float) :
  length a = 128 -> length b = 128 ->
  compareFaceEmbeddings a b
  = {| is_match := (Spec.euclidean_distance a b <? 0.5)%float;
       distance := JS.parseFloat_toFixed4 (Spec.euclidean_distance a b) |}.
Proof.
  intros Ha Hb.
  pose proof (squared_differences_combine a b 0%float ltac:(congruence)) as Hsum.
  rewrite Ha in Hsum.
  unfold compareFaceEmbeddings, squared_differences, Spec.euclidean_distance, threshold.
  rewrite Ha, Hb, Hsum. reflexivity.
Qed.

Lemma squared_differences_self (e : list float) :
  Forall Spec.finite e ->
  fold_left
    (fun sum xy => (sum + (fst xy - snd xy) * (fst xy - snd xy))%float)
    (combine e e) 0%float = 0%float.
Proof.
  induction 1 as [|x e Hx _ IH]; [reflexivity|].
  cbn [combine fold_left fst snd]. rewrite (sub_diag_finite x Hx).
  exact IH.
Qed.

End Comparison.

Import FaceApi.

(** C8 (amended).  For descriptors [a] and [b] of 128 numbers,
    [compareFaceEmbeddings a b] reports their Euclidean distance rounded to
    4 decimals, and [match] says whether the distance itself, before it is
    rounded, is below 0.5; for a descriptor [a] of 128 finite numbers,
    comparing [a] with itself gives a match at distance 0. *)
Theorem compareFaceEmbeddings_distance (a b : list float) :
  length a = 128 -> length b = 128 ->
  compareFaceEmbeddings a b
  = {| is_match := (Spec.euclidean_distance a b <? 0.5)%float;
       distance := JS.parseFloat_toFixed4 (Spec.euclidean_distance a b) |}
  /\ (Forall Spec.finite a ->
      compareFaceEmbeddings a a = {| is_match := true; distance := 0%float |}).
Proof.
  intros Ha Hb. split; [apply compare_full_length; assumption|].
  intros Hfin. rewrite (compare_full_length a a Ha Ha).
  unfold Spec.euclidean_distance. rewrite (squared_differences_self a Hfin).
  vm_compute. reflexivity.
Qed.

Lemma descriptor_near_finite : Forall Spec.finite Examples.descriptor_near.
Proof.
  apply List.Forall_forall. intros v [<- | Hv]; [reflexivity|].
  apply repeat_spec in Hv. subst v. reflexivity.
Defined.

Lemma compareFaceEmbeddings_distance_witness :
  length Examples.descriptor_near = 128
  /\ length Examples.descriptor_zero = 128
  /\ Forall Spec.finite Examples.descriptor_near
  /\ compareFaceEmbeddings Examples.descriptor_near Examples.descriptor_zero
     = {| is_match :=
            (Spec.euclidean_distance Examples.descriptor_near Examples.descriptor_zero
             <? 0.5)%float;
          distance :=
            JS.parseFloat_toFixed4
              (Spec.euclidean_distance Examples.descriptor_near Examples.descriptor_zero) |}
  /\ compareFaceEmbeddings Examples.descriptor_near Examples.descriptor_near
     = {| is_match := true; distance := 0%float |}.
Proof.
  split; [reflexivity|]. split; [reflexivity|]. split; [exact descriptor_near_finite|].
  destruct (compareFaceEmbeddings_distance Examples.descriptor_near
              Examples.descriptor_zero eq_refl eq_refl) as [Hdistance Hself].
  split; [exact Hdistance|exact (Hself descriptor_near_finite)].
Defined.

(** C8, as stated, fails: at distance 32767/65536 the answer is a match
    with a reported distance of 0.5, which is not below 0.5. *)
Lemma compareFaceEmbeddings_match_at_reported_threshold :
  is_match (compareFaceEmbeddings Examples.descriptor_near Examples.descriptor_zero) = true
  /\ distance (compareFaceEmbeddings Examples.descriptor_near Examples.descriptor_zero)
     = 0.5%float
  /\ is_match (compareFaceEmbeddings Examples.descriptor_near Examples.descriptor_zero)
     <> (distance (compareFaceEmbeddings Examples.descriptor_near Examples.descriptor_zero)
         <? 0.5)%float.
Proof.
  split; [vm_compute; reflexivity|]. split; [vm_compute; reflexivity|].
  vm_compute. discriminate.
Qed.

(** C10.  When one of the two arguments is not a list of exactly 128
    numbers, [compareFaceEmbeddings] returns [{match: false, distance: 1}]:
    the answer of the length test, taken before the loop and whatever the
    lists hold. *)
Theorem compareFaceEmbeddings_wrong_length (embedding1 embedding2 : list float) :
  length embedding1 <> 128 \/ length embedding2 <> 128 ->
  compareFaceEmbeddings embedding1 embedding2
  = {| is_match := false; distance := 1%float |}.
Proof.
  intros H. unfold compareFaceEmbeddings.
  destruct (Nat.eqb_spec (length embedding1) 128) as [H1|H1];
    destruct (Nat.eqb_spec (length embedding2) 128) as [H2|H2];
    try reflexivity.
  destruct H; contradiction.
Qed.

Lemma compareFaceEmbeddings_wrong_length_witness :
  (length (@nil float) <> 128 \/ length Examples.descriptor_zero <> 128)
  /\ compareFaceEmbeddings [] Examples.descriptor_zero
     = {| is_match := false; distance := 1%float |}.
Proof.
  assert (H : length (@nil float) <> 128 \/ length Examples.descriptor_zero <> 128)
    by (left; simpl; lia).
  split; [exact H|].
  exact (compareFaceEmbeddings_wrong_length [] Examples.descriptor_zero H).
Defined.

(** ** Liveness *)

Section LivenessProofs.
Import FaceCapture.

(** The landmark loop of [checkLiveness] adds up the displacements pair by
    pair when the current face has a landmark for each earlier one. *)
Lemma movement_fold_combine (prev curr : list Point) (acc : float) :
  length prev <= length curr ->
  fold_left (movement_step prev curr) (seq 0 (length prev)) (Some acc)
  = Some (fold_left
            (fun total pc =>
               let dx := (px (snd pc) - px (fst pc))%float in
               let dy := (py (snd pc) - py (fst pc))%float in
               (total + sqrt (dx * dx + dy * dy))%float)
            (combine prev curr) acc).
Proof.
  revert curr acc. induction prev as [|x a IH]; intros [|y b] acc Hlen;
    cbn [length] in Hlen; try lia; try reflexivity.
  cbn [length seq fold_left combine].
  rewrite <- seq_shift, fold_left_map_index.
  change (fun (s : option float) (i : nat) => movement_step (x :: a) (y :: b) s (S i))
    with (movement_step a b).
  change (movement_step (x :: a) (y :: b) (Some acc) 0)
    with (Some (acc + sqrt ((px y - px x) * (px y - px x)
                            + (py y - py x) * (py y - py x)))%float).
  rewrite IH by lia. reflexivity.
Qed.

Lemma avgMovement_mean (prev curr : list Point) :
  length prev <= length curr ->
  avgMovement prev curr = Some (Spec.mean_landmark_displacement prev curr).
Proof.
  intros H. unfold avgMovement, Spec.mean_landmark_displacement.
  rewrite (movement_fold_combine prev curr 0%float H). reflexivity.
Qed.

(** [checkLiveness] returns, and a sample is live exactly when it is
    accepted. *)
Lemma checkLiveness_accepted (current previous : option Detection) :
  (forall p c, previous = Some p -> current = Some c ->
     length (positions p) <= length (positions c)) ->
  exists l, checkLiveness current previous = Some l
            /\ isLive l = Spec.sample_accepted previous current.
Proof.
  intros Hlen. unfold checkLiveness, Spec.sample_accepted.
  destruct current as [c|]; [|eexists; split; reflexivity].
  destruct (width (box c) <? 100)%float; [eexists; split; reflexivity|].
  destruct (height (box c) <? 100)%float; [eexists; split; reflexivity|].
  destruct (score c <? 0.8)%float; [eexists; split; reflexivity|].
  cbn [orb negb andb].
  destruct previous as [p|]; [|eexists; split; reflexivity].
  rewrite (avgMovement_mean (positions p) (positions c)) by (apply Hlen; reflexivity).
  cbn [mbind option_bind].
  destruct (_ <? 0.1)%float; eexists; split; reflexivity.
Qed.

Lemma count3 (p : nat -> bool) :
  Spec.count p 3
  = (if p 0 then 1 else 0) + (if p 1 then 1 else 0) + (if p 2 then 1 else 0).
Proof.
  unfold Spec.count. cbn [seq List.filter].
  destruct (p 0), (p 1), (p 2); reflexivity.
Qed.

(** What the frames recorded leave in the ref: the last face among them,
    if there is one. *)
Lemma fold_processFrame (l : list (option Detection)) (r : option Detection) :
  fold_left processFrame l r
  = match last (omap id l) with
    | Some d => Some d
    | None => r
    end.
Proof.
  revert r. induction l as [|x l IH]; intros r; [reflexivity|].
  cbn [fold_left]. rewrite IH. destruct x as [d|]; cbn [processFrame].
  - change (omap id (Some d :: l)) with (d :: omap id l). rewrite last_cons.
    destruct (last (omap id l)); reflexivity.
  - reflexivity.
Qed.

Lemma detection_held_S (previous : option Detection)
    (frames : nat -> list (option Detection)) (i : nat) :
  Spec.detection_held previous frames (S i)
  = fold_left processFrame (frames i) (Spec.detection_held previous frames i).
Proof.
  rewrite fold_processFrame. unfold Spec.detection_held.
  rewrite seq_S, map_app, concat_app. cbn [map concat Nat.add].
  rewrite app_nil_r, omap_app, last_app.
  destruct (last (omap id (frames i))); reflexivity.
Qed.

Lemma liveness_loop_counts (previous : option Detection)
    (frames : nat -> list (option Detection)) (video : nat -> option Detection) :
  Spec.landmarks_present previous frames video ->
  let accepted i :=
    Spec.sample_accepted (Spec.detection_held previous frames i) (video i) in
  liveness_loop video frames previous
  = Some (Spec.count accepted 3,
          [CheckLiveness 0 (accepted 0); Sleep 200;
           CheckLiveness 1 (accepted 1); Sleep 200;
           CheckLiveness 2 (accepted 2); Sleep 200]).
Proof.
  intros Hlm accepted. subst accepted. cbv beta. rewrite count3.
  pose proof (detection_held_S previous frames 0) as H1.
  pose proof (detection_held_S previous frames 1) as H2.
  change (Spec.detection_held previous frames 0) with previous in *.
  destruct (checkLiveness_accepted (video 0) previous) as (l0 & E0 & A0);
    [intros p c Hp Hc; apply (Hlm 0 p c); [lia|exact Hp|exact Hc]|].
  destruct (checkLiveness_accepted (video 1) (Spec.detection_held previous frames 1))
    as (l1 & E1 & A1);
    [intros p c Hp Hc; apply (Hlm 1 p c); [lia|exact Hp|exact Hc]|].
  destruct (checkLiveness_accepted (video 2) (Spec.detection_held previous frames 2))
    as (l2 & E2 & A2);
    [intros p c Hp Hc; apply (Hlm 2 p c); [lia|exact Hp|exact Hc]|].
  unfold liveness_loop. cbn [seq fold_left]. unfold liveness_step.
  cbn [mbind option_bind]. rewrite E0. cbn [mbind option_bind].
  rewrite <- H1, E1. cbn [mbind option_bind].
  rewrite <- H2, E2. cbn [mbind option_bind app].
  rewrite A0, A1, A2.
  destruct (Spec.sample_accepted previous (video 0)),
           (Spec.sample_accepted _ (video 1)),
           (Spec.sample_accepted _ (video 2)); reflexivity.
Qed.

End LivenessProofs.

(** C9 (amended).  [handleCapture] takes 3 samples, each followed by a
    pause of 200 ms.  A sample is accepted when a face is detected with a
    box not below 100 x 100 px and a confidence not below 0.8 and, if the
    component holds a detection when the sample is taken, the mean
    landmark displacement from that detection is not below 0.1.  The
    detection the component holds is the last face its frame loop has
    recorded: the one from before the capture for the first sample, and
    for a later sample the face of a frame that was still being processed
    and has finished since, if there is one; it is never a sample of the
    capture itself.  The capture goes on to the descriptor if and only if
    at least 2 of the 3 samples are accepted. *)
Theorem handleCapture_liveness (mode : FaceCapture.Mode)
    (existingEmbedding : option (list float))
    (previousDetection : option Detection)
    (frames : nat -> list (option Detection)) (video : nat -> option Detection) :
  Spec.landmarks_present previousDetection frames video ->
  let accepted i :=
    Spec.sample_accepted (Spec.detection_held previousDetection frames i) (video i) in
  exists capture,
    FaceCapture.handleCapture mode existingEmbedding previousDetection frames video
    = Some capture
    /\ firstn 6 (FaceCapture.effects capture)
       = [FaceCapture.CheckLiveness 0 (accepted 0); FaceCapture.Sleep 200;
          FaceCapture.CheckLiveness 1 (accepted 1); FaceCapture.Sleep 200;
          FaceCapture.CheckLiveness 2 (accepted 2); FaceCapture.Sleep 200]
    /\ FaceCapture.livenessPass capture = Spec.count accepted 3
    /\ (In FaceCapture.GetFaceEmbedding (FaceCapture.effects capture)
        <-> 2 <= Spec.count accepted 3)
    /\ Spec.detection_held previousDetection frames 0 = previousDetection
    /\ (forall i, (forall j, j < i -> forall d, ~ In (Some d) (frames j)) ->
                  Spec.detection_held previousDetection frames i = previousDetection)
    /\ (forall i d, In (Some d) (frames i) ->
                    exists d', In (Some d') (frames i)
                               /\ Spec.detection_held previousDetection frames (S i)
                                  = Some d').
Proof.
  intros Hlm accepted.
  assert (Hheld : forall i, (forall j, j < i -> forall d, ~ In (Some d) (frames j)) ->
                            Spec.detection_held previousDetection frames i
                            = previousDetection).
  { induction i as [|i IH]; intros Hnone; [reflexivity|].
    rewrite detection_held_S, IH by (intros j Hj; apply Hnone; lia).
    rewrite fold_processFrame.
    destruct (last (omap id (frames i))) as [d|] eqn:Hlast; [|reflexivity].
    exfalso. apply last_Some_elem_of, list_elem_of_omap in Hlast as (x & Hx & Hd).
    cbn in Hd. subst x. apply list_elem_of_In in Hx.
    exact (Hnone i (Nat.lt_succ_diag_r i) d Hx). }
  assert (Hnew : forall i d, In (Some d) (frames i) ->
                   exists d', In (Some d') (frames i)
                              /\ Spec.detection_held previousDetection frames (S i)
                                 = Some d').
  { intros i d Hin. rewrite detection_held_S, fold_processFrame.
    destruct (last (omap id (frames i))) as [d'|] eqn:Hlast.
    - exists d'. split; [|reflexivity].
      apply last_Some_elem_of, list_elem_of_omap in Hlast as (x & Hx & Hd).
      cbn in Hd. subst x. apply list_elem_of_In. exact Hx.
    - exfalso. apply last_None in Hlast.
      assert (Hd : d ∈ omap id (frames i)).
      { apply list_elem_of_omap. exists (Some d). split; [|reflexivity].
        apply list_elem_of_In. exact Hin. }
      rewrite Hlast in Hd. inversion Hd. }
  unfold FaceCapture.handleCapture.
  rewrite (liveness_loop_counts previousDetection frames video Hlm).
  fold accepted. cbn [mbind option_bind].
  remember (Spec.count accepted 3) as n eqn:Hn. clear Hn.
  destruct (Nat.ltb_spec n 2) as [Hlt|Hge].
  - eexists. split; [reflexivity|]. cbn. split; [reflexivity|]. split; [reflexivity|].
    split; [|split; [reflexivity|split; [exact Hheld|exact Hnew]]].
    split; [|intros H; exfalso; lia].
    intros [H|[H|[H|[H|[H|[H|[]]]]]]]; discriminate.
  - assert (Hin : forall tail,
               In FaceCapture.GetFaceEmbedding
                 ([FaceCapture.CheckLiveness 0 (accepted 0); FaceCapture.Sleep 200;
                   FaceCapture.CheckLiveness 1 (accepted 1); FaceCapture.Sleep 200;
                   FaceCapture.CheckLiveness 2 (accepted 2); FaceCapture.Sleep 200]
                  ++ FaceCapture.GetFaceEmbedding :: tail)).
    { intros tail. do 6 right. left. reflexivity. }
    destruct (getFaceEmbedding (video 3)) as [embedding|];
      [destruct mode, existingEmbedding as [existing|];
       try destruct (is_match (compareFaceEmbeddings existing embedding))|];
      (eexists; split; [reflexivity|];
       split; [reflexivity|]; split; [reflexivity|];
       split; [split; [intros _; exact Hge|intros _; apply Hin]|];
       split; [reflexivity|split; [exact Hheld|exact Hnew]]).
Qed.

Lemma landmarks_present_late :
  Spec.landmarks_present (Some Examples.photograph) Examples.late_frame
    Examples.still_video.
Proof.
  intros i p c Hi Hp Hc. injection Hc as <-.
  destruct i as [|[|[|i]]]; [| | |lia];
    vm_compute in Hp; injection Hp as <-; apply Nat.eq_le_incl; reflexivity.
Defined.

Lemma handleCapture_liveness_witness :
  exists capture,
    FaceCapture.handleCapture FaceCapture.verify (Some Examples.descriptor_far)
      (Some Examples.photograph) Examples.late_frame Examples.still_video = Some capture
    /\ FaceCapture.livenessPass capture = 1
    /\ (In FaceCapture.GetFaceEmbedding (FaceCapture.effects capture) <-> 2 <= 1).
Proof.
  destruct (handleCapture_liveness FaceCapture.verify (Some Examples.descriptor_far)
              (Some Examples.photograph) Examples.late_frame Examples.still_video
              landmarks_present_late)
    as (capture & Hrun & _ & Hpass & Hiff & _).
  exists capture. split; [exact Hrun|]. split; [exact Hpass|exact Hiff].
Defined.

(** C9, as stated, fails: a photograph that moved once before the capture
    and then stays still passes the liveness loop when no frame is being
    processed during the capture, although only its first sample is
    displaced from the sample before it. *)
Lemma still_photograph_passes_liveness :
  (exists capture,
     FaceCapture.handleCapture FaceCapture.verify (Some Examples.descriptor_far)
       (Some Examples.photograph) Examples.no_frames Examples.still_video = Some capture
     /\ FaceCapture.livenessPass capture = 3
     /\ In FaceCapture.GetFaceEmbedding (FaceCapture.effects capture))
  /\ Spec.count
       (fun i => Spec.sample_qualifies
                   (Spec.sample_before (Some Examples.photograph) Examples.still_video i)
                   (Examples.still_video i)) 3 = 1
  /\ Spec.liveness_by_consecutive_samples (Some Examples.photograph) Examples.still_video
     = false.
Proof.
  split.
  - eexists. split; [vm_compute; reflexivity|]. split; [reflexivity|].
    do 6 right. left. reflexivity.
  - split; vm_compute; reflexivity.
Qed.

(** ** Strings *)

Section StringProofs.

Lemma append_empty (t : string) : EmptyString +:+ t = t.
Proof. reflexivity. Qed.

Lemma append_String (c : ascii) (s t : string) : String c s +:+ t = String c (s +:+ t).
Proof. reflexivity. Qed.

Lemma split_without (sep : ascii) (s : string) :
  Str.occurs sep s = false -> Str.split sep s = [s].
Proof.
  induction s as [|c s IH]; intros H; [reflexivity|].
  cbn [Str.occurs] in H. apply orb_false_iff in H as [Hc Hs].
  cbn [Str.split]. rewrite Hc, (IH Hs). reflexivity.
Qed.

Lemma split_at (sep : ascii) (s t : string) :
  Str.occurs sep s = false ->
  Str.split sep (s +:+ String sep t) = s :: Str.split sep t.
Proof.
  induction s as [|c s IH]; intros H.
  - rewrite append_empty. cbn [Str.split]. rewrite Ascii.eqb_refl. reflexivity.
  - cbn [Str.occurs] in H. apply orb_false_iff in H as [Hc Hs].
    rewrite append_String. cbn [Str.split]. rewrite Hc, (IH Hs). reflexivity.
Qed.

Lemma fromHex2_toHex2 (b : byte) : Str.fromHex2 (Str.toHex2 b) = Some b.
Proof. destruct b; reflexivity. Qed.

Lemma toHex2_without_dollar (b : byte) : Str.occurs "$" (Str.toHex2 b) = false.
Proof. destruct b; reflexivity. Qed.

Lemma occurs_append (c : ascii) (s t : string) :
  Str.occurs c (s +:+ t) = Str.occurs c s || Str.occurs c t.
Proof.
  induction s as [|d s IH]; [reflexivity|].
  rewrite append_String. cbn [Str.occurs]. rewrite IH, orb_assoc. reflexivity.
Qed.

Lemma hex_without_dollar (bytes : list byte) : Str.occurs "$" (Str.hex bytes) = false.
Proof.
  induction bytes as [|b bytes IH]; [reflexivity|].
  cbn [Str.hex fold_right]. rewrite occurs_append, toHex2_without_dollar.
  exact IH.
Qed.

Lemma hex_injective (a b : list byte) : Str.hex a = Str.hex b -> a = b.
Proof.
  revert b. induction a as [|x a IH]; intros [|y b] H; try reflexivity;
    try discriminate.
  cbn in H. injection H as H1 H2 H3.
  assert (Hxy : Str.toHex2 x = Str.toHex2 y)
    by (unfold Str.toHex2; rewrite H1, H2; reflexivity).
  apply (f_equal Str.fromHex2) in Hxy. rewrite !fromHex2_toHex2 in Hxy.
  injection Hxy as ->. f_equal. apply IH. exact H3.
Qed.

End StringProofs.

(** ** Password hashing *)

Section HashingProofs.

Variable deriveBits : string -> string -> Z -> list byte.

(** What [verifyPassword] reads in a hash that [hashPassword] wrote with a
    salt free of ["$"]. *)
Lemma split_hash (salt digest : string) :
  Str.occurs "$" salt = false -> Str.occurs "$" digest = false ->
  Str.split "$" ("$pbkdf2$100000$" +:+ salt +:+ "$" +:+ digest)
  = [EmptyString; "pbkdf2"; "100000"; salt; digest]%string.
Proof.
  intros Hs Hd.
  change ("$pbkdf2$100000$" +:+ salt +:+ "$" +:+ digest)
    with (EmptyString +:+ String "$" ("pbkdf2" +:+ String "$" ("100000" +:+
            String "$" (salt +:+ String "$" digest)))).
  rewrite !split_at by (assumption || reflexivity).
  rewrite split_without by assumption. reflexivity.
Qed.

Lemma verify_hashed (password candidate : string) (random16 : list byte) :
  Auth.verifyPassword deriveBits candidate
    (Auth.hashPassword deriveBits password None random16)
  = Some (String.eqb
            (Str.hex (deriveBits candidate (Auth.generateSalt random16) 100000))
            (Str.hex (deriveBits password (Auth.generateSalt random16) 100000))).
Proof.
  unfold Auth.verifyPassword, Auth.hashPassword.
  rewrite split_hash by apply hex_without_dollar.
  change (Str.startsWith _ "$pbkdf2$") with true. cbn iota.
  change (Str.parseInt10 "100000") with (Some 100000%Z).
  reflexivity.
Qed.

End HashingProofs.

(** C4.  For every password [p], verifying [p] against the hash that
    [hashPassword] made of it succeeds; verifying [p] followed by ["x"]
    against that hash fails, PBKDF2 giving the two passwords different
    keys under the salt of the hash. *)
Theorem verify_after_hash (deriveBits : string -> string -> Z -> list byte)
    (p : string) (random16 : list byte) :
  Auth.verifyPassword deriveBits p (Auth.hashPassword deriveBits p None random16)
  = Some true
  /\ (deriveBits (p +:+ "x") (Auth.generateSalt random16) 100000%Z
      <> deriveBits p (Auth.generateSalt random16) 100000%Z ->
      Auth.verifyPassword deriveBits (p +:+ "x")
        (Auth.hashPassword deriveBits p None random16)
      = Some false).
Proof.
  rewrite !verify_hashed. split.
  - rewrite String.eqb_refl. reflexivity.
  - intros Hkeys. f_equal. apply String.eqb_neq. intros H.
    apply Hkeys, hex_injective, H.
Qed.

Lemma verify_after_hash_witness :
  Auth.verifyPassword Examples.sample_deriveBits "Husan0716"
    (Auth.hashPassword Examples.sample_deriveBits "Husan0716" None [x0a; xff]%byte)
  = Some true
  /\ Auth.verifyPassword Examples.sample_deriveBits ("Husan0716" +:+ "x")
       (Auth.hashPassword Examples.sample_deriveBits "Husan0716" None [x0a; xff]%byte)
     = Some false.
Proof.
  destruct (verify_after_hash Examples.sample_deriveBits "Husan0716" [x0a; xff]%byte)
    as [Hsame Hother].
  split; [exact Hsame|]. apply Hother. vm_compute. discriminate.
Defined.

(** ** The login action *)

(** Case analysis on the tests of a run, one after the other. *)
Ltac split_run H :=
  repeat match type of H with
         | context [if ?c then _ else _] => destruct c eqn:?
         | context [match ?x with _ => _ end] => destruct x eqn:?
         end.

Ltac close_run H := injection H as <- <- <-.

Section LoginProofs.
Import Auth.

Variable deriveBits : string -> string -> Z -> list byte.

Lemma insert_session_inserted (db db2 : Store) (row : Session) :
  insert_session db row = Some db2 ->
  sessions db2 = sessions db ++ [row] /\ users db2 = users db
  /\ login_attempts db2 = login_attempts db.
Proof.
  unfold insert_session. destruct (existsb _ _); [discriminate|].
  intros [= <-]. repeat split.
Qed.

Lemma own_sessions_after (uid : string) (l : list Session) (s : Session) :
  session_user_id s = uid ->
  List.filter (fun x => String.eqb (session_user_id x) uid)
    (List.filter (fun x => negb (String.eqb (session_user_id x) uid)) l ++ [s])
  = [s].
Proof.
  intros Hs. rewrite List.filter_app. cbn [List.filter].
  rewrite Hs, String.eqb_refl.
  induction l as [|x l IH]; [reflexivity|].
  cbn [List.filter]. destruct (String.eqb (session_user_id x) uid) eqn:E; cbn [negb].
  - exact IH.
  - cbn [List.filter]. rewrite E. exact IH.
Qed.

Lemma issue_session_ok (env : Env) (req : Request) (b : LoginBody)
    (sanitizedLogin : string) (u : User) (db : Store) (t : list Event)
    (resp : Response) (db' : Store) (trace : list Event) :
  issue_session env req b (getClientIP req) (default EmptyString (user_agent req))
    sanitizedLogin u db t = (resp, db', trace) ->
  status resp = 200%Z ->
  sessions db'
  = List.filter (fun s => negb (String.eqb (session_user_id s) (user_id u))) (sessions db)
    ++ [Spec.issued_session env req b u]
  /\ users db' = users db
  /\ trace = t ++ [RpcRecordLoginAttempt sanitizedLogin true; DeleteSessions (user_id u);
                   InsertSession (user_id u); InsertActivityLog "login_success"]
  /\ payload resp
     = LoggedIn (token (Spec.issued_session env req b u))
         (refresh_token (Spec.issued_session env req b u)) (publicUser u)
         (expires_at (Spec.issued_session env req b u)).
Proof.
  unfold issue_session. cbv zeta. intros H Hs.
  destruct (insert_session _ _) as [db2|] eqn:Hins.
  - close_run H. apply insert_session_inserted in Hins as (Hses & Husers & _).
    cbn [sessions users insert_activity_log payload].
    rewrite Hses, Husers. cbn [sessions users delete_sessions record_login_attempt].
    repeat split. rewrite <- !app_assoc. reflexivity.
  - close_run H. discriminate Hs.
Qed.

(** A device gate that lets the login go on leaves the sessions alone and
    changes no password. *)
Lemma device_gate_continues (env : Env) (b : LoginBody)
    (clientIP userAgent sanitizedLogin : string) (u : User)
    (db db2 : Store) (t t2 : list Event) :
  device_gate env b clientIP userAgent sanitizedLogin u db t = inr (db2, t2) ->
  sessions db2 = sessions db
  /\ (exists f, users db2 = map f (users db)
                /\ forall x, user_id (f x) = user_id x
                             /\ password_hash (f x) = password_hash x)
  /\ (exists extra, t2 = t ++ extra
                    /\ List.filter is_password_upgrade extra = []
                    /\ forallb (fun e => negb (is_csrf_comparison e)) extra = true).
Proof.
  unfold device_gate. intros H.
  assert (Hid : sessions db = sessions db
                /\ (exists f, users db = map f (users db)
                              /\ forall x, user_id (f x) = user_id x
                                           /\ password_hash (f x) = password_hash x)
                /\ (exists extra, t = t ++ extra
                      /\ List.filter is_password_upgrade extra = []
                      /\ forallb (fun e => negb (is_csrf_comparison e)) extra = true)).
  { split; [reflexivity|]. split.
    - exists (fun x => x). split; [symmetry; apply map_id|]. intros x; split; reflexivity.
    - exists []. split; [symmetry; apply app_nil_r|]. split; reflexivity. }
  split_run H; try discriminate; injection H as <- <-; try exact Hid.
  all: split; [reflexivity|]; split;
    [eexists; split; [reflexivity|];
     intros x; cbn beta; destruct (String.eqb (user_id x) (user_id u)); split; reflexivity
    |exists [UpdateDeviceFingerprint (user_id u)]; split; [reflexivity|split; reflexivity]].
Qed.

Lemma device_gate_rejects (env : Env) (b : LoginBody)
    (clientIP userAgent sanitizedLogin : string) (u : User)
    (db : Store) (t : list Event) (r : Response * Store * list Event) :
  device_gate env b clientIP userAgent sanitizedLogin u db t = inl r ->
  status (fst (fst r)) = 403%Z.
Proof.
  unfold device_gate. intros H.
  split_run H; try discriminate; injection H as <-; reflexivity.
Qed.

(** The password hash a successful login leaves to the user [u]. *)
Lemma upgraded_users (u : User) (h : string) (f : User -> User) (l : list User) :
  (forall x, user_id (f x) = user_id x /\ password_hash (f x) = password_hash x) ->
  In u l ->
  (forall x, In x (map f (map (fun y => if String.eqb (user_id y) (user_id u)
                                        then set_password_hash h y else y) l)) ->
             user_id x = user_id u -> password_hash x = h)
  /\ (exists x, In x (map f (map (fun y => if String.eqb (user_id y) (user_id u)
                                           then set_password_hash h y else y) l))
                /\ user_id x = user_id u).
Proof.
  intros Hf Hu. split.
  - intros x Hx Hid. rewrite map_map in Hx. apply in_map_iff in Hx as (y & <- & _).
    destruct (Hf (if String.eqb (user_id y) (user_id u) then set_password_hash h y else y))
      as [Hfid Hfpw].
    rewrite Hfpw. rewrite Hfid in Hid.
    destruct (String.eqb_spec (user_id y) (user_id u)) as [_|Hne]; [reflexivity|].
    contradiction.
  - exists (f (set_password_hash h u)). split.
    + rewrite map_map. apply in_map_iff. exists u. split; [|exact Hu].
      rewrite String.eqb_refl. reflexivity.
    + destruct (Hf (set_password_hash h u)) as [-> _]. reflexivity.
Qed.

Lemma select_active_user_in (db : Store) (l : string) (u : User) :
  select_active_user db l = Some u -> In u (users db).
Proof. unfold select_active_user. intros H. apply find_some in H as [H _]. exact H. Qed.

(** The shape of a run that answers 200. *)
Lemma serve_login_success (env : Env) (req : Request) (db : Store)
    (resp : Response) (db' : Store) (trace : list Event) :
  serve_login deriveBits env req db = (resp, db', trace) ->
  status resp = 200%Z ->
  exists b u,
    body req = Some b
    /\ select_active_user db (Spec.submitted_login req) = Some u
    /\ verifyPassword deriveBits (Spec.submitted_password req) (password_hash u) = Some true
    /\ sessions db'
       = List.filter (fun s => negb (String.eqb (session_user_id s) (user_id u))) (sessions db)
         ++ [Spec.issued_session env req b u]
    /\ payload resp
       = LoggedIn (token (Spec.issued_session env req b u))
           (refresh_token (Spec.issued_session env req b u)) (publicUser u)
           (expires_at (Spec.issued_session env req b u))
    /\ (Str.startsWith (password_hash u) "$pbkdf2$" = false ->
        let h := hashPassword deriveBits (Spec.submitted_password req) None
                   (random_salt env) in
        List.filter is_password_upgrade trace = [UpdatePasswordHash (user_id u) h]
        /\ (forall x, In x (users db') -> user_id x = user_id u -> password_hash x = h)
        /\ (exists x, In x (users db') /\ user_id x = user_id u)).
Proof.
  unfold serve_login. cbv zeta. intros H Hs.
  destruct (is_ip_blocked _ _ _); [close_run H; discriminate Hs|].
  destruct (body req) as [b|] eqn:Hb; [|close_run H; discriminate Hs].
  destruct (validateCSRFToken _ _); cbn [negb] in H; [|close_run H; discriminate Hs].
  destruct (negb (Str.truthy (sanitizeInput (login b)))
            || negb (Str.truthy (sanitizeInput (password b))));
    [close_run H; discriminate Hs|].
  destruct (is_login_rate_limited _ _ _ _); [close_run H; discriminate Hs|].
  destruct (select_active_user db (sanitizeInput (login b))) as [u|] eqn:Hu;
    [|close_run H; discriminate Hs].
  destruct (verifyPassword deriveBits (sanitizeInput (password b)) (password_hash u))
    as [[|]|] eqn:Hv; try (close_run H; discriminate Hs).
  exists b, u. unfold Spec.submitted_login, Spec.submitted_password. rewrite Hb.
  cbn [mbind option_bind]. split; [reflexivity|]. split; [exact Hu|]. split; [exact Hv|].
  destruct (Str.startsWith (password_hash u) "$pbkdf2$") eqn:Hlegacy; cbn [negb] in H.
  - destruct (device_gate _ _ _ _ _ _ _ _) as [r|[db2 t2]] eqn:Hgate.
    + apply device_gate_rejects in Hgate. subst r. cbn [fst] in Hgate. congruence.
    + apply device_gate_continues in Hgate as (Hses & _ & _).
      apply issue_session_ok in H as (Hses' & _ & _ & Hpay); [|exact Hs].
      rewrite Hses in Hses'. split; [exact Hses'|]. split; [exact Hpay|]. discriminate.
  - destruct (device_gate _ _ _ _ _ _ _ _) as [r|[db2 t2]] eqn:Hgate.
    + apply device_gate_rejects in Hgate. subst r. cbn [fst] in Hgate. congruence.
    + apply device_gate_continues in Hgate
        as (Hses & (f & Husers & Hf) & (extra & -> & Hextra & _)).
      apply issue_session_ok in H as (Hses' & Husers' & -> & Hpay); [|exact Hs].
      rewrite Hses in Hses'. cbn [sessions update_users] in Hses'.
      split; [exact Hses'|]. split; [exact Hpay|]. intros _. cbv zeta. split.
      * rewrite !List.filter_app, Hextra. reflexivity.
      * rewrite Husers', Husers. cbn [users update_users].
        apply upgraded_users; [exact Hf|]. eapply select_active_user_in, Hu.
Qed.

End LoginProofs.

Lemma run_eta {A B C} (r : A * B * C) : r = (fst (fst r), snd (fst r), snd r).
Proof. destruct r as [[a b] c]. reflexivity. Qed.

(** C7.  A login that answers 200 has deleted the sessions of the account
    and inserted one: the account has exactly that session afterwards, its
    access expiry is the clock plus 12 hours and its refresh expiry the
    clock plus 7 days; the refresh window is longer than the access
    window, and the refresh expiry is later than the access expiry when
    the clock does not go back between its two readings. *)
Theorem login_single_session (deriveBits : string -> string -> Z -> list byte)
    (env : Auth.Env) (req : Auth.Request) (db : Auth.Store)
    (resp : Auth.Response) (db' : Auth.Store) (trace : list Auth.Event) :
  Auth.serve_login deriveBits env req db = (resp, db', trace) ->
  Auth.status resp = 200%Z ->
  exists b u session,
    Auth.body req = Some b
    /\ Auth.select_active_user db (Spec.submitted_login req) = Some u
    /\ session = Spec.issued_session env req b u
    /\ Auth.sessions db'
       = List.filter (fun s => negb (String.eqb (Auth.session_user_id s) (Auth.user_id u)))
           (Auth.sessions db) ++ [session]
    /\ List.filter (fun s => String.eqb (Auth.session_user_id s) (Auth.user_id u))
         (Auth.sessions db') = [session]
    /\ Auth.expires_at session = (Auth.date_access env + 12 * 60 * 60 * 1000)%Z
    /\ Auth.refresh_expires_at session = (Auth.date_refresh env + 7 * 24 * 60 * 60 * 1000)%Z
    /\ (12 * 60 * 60 * 1000 < 7 * 24 * 60 * 60 * 1000)%Z
    /\ ((Auth.date_access env <= Auth.date_refresh env)%Z ->
        (Auth.expires_at session < Auth.refresh_expires_at session)%Z).
Proof.
  intros Hrun Hs.
  destruct (serve_login_success deriveBits env req db resp db' trace Hrun Hs)
    as (b & u & Hb & Hu & _ & Hses & _).
  exists b, u, (Spec.issued_session env req b u).
  split; [exact Hb|]. split; [exact Hu|]. split; [reflexivity|]. split; [exact Hses|].
  split; [rewrite Hses; apply own_sessions_after; reflexivity|].
  cbn [Spec.issued_session Auth.expires_at Auth.refresh_expires_at].
  unfold Auth.plus12hours, Auth.plus7days, Auth.hours12, Auth.days7.
  repeat split; lia.
Qed.

Lemma login_single_session_witness :
  Auth.status (fst (fst (Auth.serve_login Examples.sample_deriveBits Examples.sample_env
                           Examples.good_request Examples.quiet_store))) = 200%Z
  /\ exists session,
       List.filter (fun s => String.eqb (Auth.session_user_id s) "u-bob")
         (Auth.sessions (snd (fst (Auth.serve_login Examples.sample_deriveBits
                                     Examples.sample_env Examples.good_request
                                     Examples.quiet_store))))
       = [session]
       /\ Auth.expires_at session = (1500001 + 12 * 60 * 60 * 1000)%Z
       /\ Auth.refresh_expires_at session = (1500002 + 7 * 24 * 60 * 60 * 1000)%Z
       /\ (Auth.expires_at session < Auth.refresh_expires_at session)%Z.
Proof.
  assert (Hs : Auth.status (fst (fst (Auth.serve_login Examples.sample_deriveBits
                                        Examples.sample_env Examples.good_request
                                        Examples.quiet_store))) = 200%Z)
    by (vm_compute; reflexivity).
  split; [exact Hs|].
  destruct (login_single_session _ _ _ _ _ _ _ (run_eta _) Hs)
    as (b & u & session & Hb & Hu & _ & _ & Hown & Hacc & Href & _ & Hlater).
  injection Hu as <-. exists session. split; [exact Hown|]. split; [exact Hacc|].
  split; [exact Href|]. apply Hlater. discriminate.
Defined.

Section UpgradeProofs.

Variable deriveBits : string -> string -> Z -> list byte.

Lemma isHexString_append (s t : string) :
  Spec.isHexString (s +:+ t) = Spec.isHexString s && Spec.isHexString t.
Proof.
  unfold Spec.isHexString. induction s as [|c s IH]; [reflexivity|].
  rewrite append_String. cbn [list_ascii_of_string forallb]. rewrite IH, andb_assoc.
  reflexivity.
Qed.

Lemma toHex2_isHex (b : byte) : Spec.isHexString (Str.toHex2 b) = true.
Proof. destruct b; reflexivity. Qed.

Lemma hex_isHex (bytes : list byte) : Spec.isHexString (Str.hex bytes) = true.
Proof.
  induction bytes as [|b bytes IH]; [reflexivity|].
  cbn [Str.hex fold_right]. rewrite isHexString_append, toHex2_isHex. exact IH.
Qed.

Lemma hashPassword_grammar (password : string) (random16 : list byte) :
  Spec.matches_pbkdf2_grammar (Auth.hashPassword deriveBits password None random16) = true
  /\ Str.startsWith (Auth.hashPassword deriveBits password None random16) "$pbkdf2$" = true.
Proof.
  unfold Spec.matches_pbkdf2_grammar, Auth.hashPassword. split; [|reflexivity].
  rewrite split_hash by apply hex_without_dollar.
  unfold Auth.generateSalt. rewrite !hex_isHex. reflexivity.
Qed.

Lemma verify_legacy (password storedHash : string) :
  Str.startsWith storedHash "$pbkdf2$" = false ->
  Auth.verifyPassword deriveBits password storedHash
  = Some (String.eqb password storedHash).
Proof. unfold Auth.verifyPassword. intros ->. reflexivity. Qed.

End UpgradeProofs.

(** C5 (amended).  A stored hash that does not start with [$pbkdf2$] is
    verified by comparing it with the password as it is.  A login that
    answers 200 for an account with such a hash writes the password hash
    of the account exactly once, and the value written is the hash in the
    [$pbkdf2$] format that [hashPassword] makes of the sanitized password
    of the request. *)
Theorem legacy_password_upgrade (deriveBits : string -> string -> Z -> list byte) :
  (forall password storedHash,
     Str.startsWith storedHash "$pbkdf2$" = false ->
     Auth.verifyPassword deriveBits password storedHash
     = Some (String.eqb password storedHash))
  /\ (forall env req db resp db' trace u,
        Auth.serve_login deriveBits env req db = (resp, db', trace) ->
        Auth.status resp = 200%Z ->
        Auth.select_active_user db (Spec.submitted_login req) = Some u ->
        Str.startsWith (Auth.password_hash u) "$pbkdf2$" = false ->
        let h := Auth.hashPassword deriveBits (Spec.submitted_password req) None
                   (Auth.random_salt env) in
        Auth.password_hash u = Spec.submitted_password req
        /\ List.filter Auth.is_password_upgrade trace
           = [Auth.UpdatePasswordHash (Auth.user_id u) h]
        /\ Spec.matches_pbkdf2_grammar h = true
        /\ (forall x, In x (Auth.users db') -> Auth.user_id x = Auth.user_id u ->
                      Auth.password_hash x = h)
        /\ (exists x, In x (Auth.users db') /\ Auth.user_id x = Auth.user_id u)).
Proof.
  split; [apply verify_legacy|].
  intros env req db resp db' trace u Hrun Hs Hu Hlegacy h.
  destruct (serve_login_success deriveBits env req db resp db' trace Hrun Hs)
    as (b & u' & _ & Hu' & Hv & _ & _ & Hup).
  rewrite Hu in Hu'. injection Hu' as <-.
  rewrite (verify_legacy deriveBits _ _ Hlegacy) in Hv. injection Hv as Hv.
  apply String.eqb_eq in Hv.
  destruct (Hup Hlegacy) as (Htrace & Hall & Hex).
  split; [symmetry; exact Hv|]. split; [exact Htrace|].
  split; [apply hashPassword_grammar|]. split; [exact Hall|exact Hex].
Qed.

Lemma legacy_password_upgrade_witness :
  Auth.verifyPassword Examples.sample_deriveBits "Husan0716" "Husan0716" = Some true
  /\ List.filter Auth.is_password_upgrade
       (snd (Auth.serve_login Examples.sample_deriveBits Examples.sample_env
               Examples.good_request Examples.quiet_store))
     = [Auth.UpdatePasswordHash "u-bob"
          (Auth.hashPassword Examples.sample_deriveBits "Husan0716" None [x0a; xff]%byte)].
Proof.
  destruct (legacy_password_upgrade Examples.sample_deriveBits) as [Hverify Hlogin].
  split; [exact (Hverify "Husan0716" "Husan0716" eq_refl)|].
  assert (Hs : Auth.status (fst (fst (Auth.serve_login Examples.sample_deriveBits
                                        Examples.sample_env Examples.good_request
                                        Examples.quiet_store))) = 200%Z)
    by (vm_compute; reflexivity).
  destruct (Hlogin Examples.sample_env Examples.good_request Examples.quiet_store
              _ _ _ Examples.bob (run_eta _) Hs eq_refl eq_refl)
    as (_ & Htrace & _).
  exact Htrace.
Defined.

(** C5, as stated, fails: a stored value that starts with [$pbkdf2$]
    without following the grammar is not compared with the password, and
    the password equal to it is refused. *)
Lemma prefixed_legacy_password_refused :
  Spec.matches_pbkdf2_grammar "$pbkdf2$2019" = false
  /\ String.eqb "$pbkdf2$2019" "$pbkdf2$2019" = true
  /\ Auth.verifyPassword Examples.sample_deriveBits "$pbkdf2$2019" "$pbkdf2$2019"
     = Some false.
Proof. repeat split. Qed.

Section OrderProofs.
Import Auth.

Variable deriveBits : string -> string -> Z -> list byte.

Lemma no_occurrence {A} (p : A -> bool) (l pre post : list A) (y : A) :
  forallb (fun e => negb (p e)) l = true -> p y = true -> l <> pre ++ y :: post.
Proof.
  intros Hl Hy ->. rewrite forallb_app in Hl. apply andb_true_iff in Hl as [_ Hl].
  cbn [forallb] in Hl. rewrite Hy in Hl. discriminate.
Qed.

Lemma first_occurrence {A} (p : A -> bool) (l1 rest pre post : list A) (x y : A) :
  forallb (fun e => negb (p e)) l1 = true ->
  forallb (fun e => negb (p e)) rest = true ->
  p y = true ->
  l1 ++ x :: rest = pre ++ y :: post -> pre = l1.
Proof.
  revert pre. induction l1 as [|a l1 IH]; intros [|b pre] H1 Hrest Hy Heq;
    cbn [app] in Heq.
  - reflexivity.
  - injection Heq as _ Heq. exfalso. exact (no_occurrence p rest pre post y Hrest Hy Heq).
  - injection Heq as -> _. cbn [forallb] in H1. rewrite Hy in H1. discriminate.
  - injection Heq as -> Heq. cbn [forallb] in H1. apply andb_true_iff in H1 as [_ H1].
    f_equal. exact (IH pre H1 Hrest Hy Heq).
Qed.

(** Every run starts with the lookup of the address; the body is read and
    the tokens are compared, once, before anything else. *)
Lemma serve_login_trace (env : Env) (req : Request) (db : Store)
    (resp : Response) (db' : Store) (trace : list Event) :
  serve_login deriveBits env req db = (resp, db', trace) ->
  forallb (fun e => negb (is_csrf_comparison e)) trace = true
  \/ exists c rest,
       trace = [RpcIsIpBlocked (getClientIP req); ReadBody] ++ CsrfComparison c :: rest
       /\ forallb (fun e => negb (is_csrf_comparison e)) rest = true.
Proof.
  unfold serve_login, device_gate, issue_session. cbv zeta. intros H.
  destruct (is_ip_blocked _ _ _); [close_run H; left; reflexivity|].
  destruct (body req) as [b|]; [|close_run H; left; reflexivity].
  right. exists (validateCSRFToken (x_xsrf_token req) (csrf_token b)).
  split_run H; close_run H; eexists; split; reflexivity.
Qed.

End OrderProofs.

Lemma validateCSRFToken_true (headerCSRF clientCSRF : option string) :
  Auth.validateCSRFToken headerCSRF clientCSRF = true
  <-> exists t, t <> EmptyString /\ clientCSRF = Some t /\ headerCSRF = Some t.
Proof.
  unfold Auth.validateCSRFToken, Str.truthy. split.
  - destruct clientCSRF as [c|], headerCSRF as [h|]; try discriminate.
    intros H. apply andb_true_iff in H as [H Heq]. apply andb_true_iff in H as [Hc _].
    apply String.eqb_eq in Heq as <-. exists c. split; [|split; reflexivity].
    intros ->. discriminate.
  - intros (t & Ht & -> & ->). rewrite String.eqb_refl.
    destruct (String.eqb_spec t EmptyString); [contradiction|reflexivity].
Qed.

(** C3 (amended).  The tokens of a login request match when the body and
    the header both carry the same token, which is not empty.  When they
    do not match, the request is rejected with the store as it was, and
    the one access to the store is the lookup of the blocked addresses;
    in every run that lookup is the only access to the store before the
    tokens are compared. *)
Theorem csrf_double_submit (deriveBits : string -> string -> Z -> list byte)
    (env : Auth.Env) (req : Auth.Request) (db : Auth.Store)
    (resp : Auth.Response) (db' : Auth.Store) (trace : list Auth.Event) :
  Auth.serve_login deriveBits env req db = (resp, db', trace) ->
  (Spec.csrf_tokens_match req = true
   <-> exists b t, Auth.body req = Some b /\ t <> EmptyString
                   /\ Auth.csrf_token b = Some t /\ Auth.x_xsrf_token req = Some t)
  /\ (Spec.csrf_tokens_match req = false ->
      Auth.status resp <> 200%Z /\ db' = db
      /\ List.filter Auth.is_data_access trace = [Auth.RpcIsIpBlocked (Auth.getClientIP req)])
  /\ (forall pre ok post,
        trace = pre ++ Auth.CsrfComparison ok :: post ->
        List.filter Auth.is_data_access pre = [Auth.RpcIsIpBlocked (Auth.getClientIP req)]).
Proof.
  intros Hrun. split; [|split].
  - unfold Spec.csrf_tokens_match. destruct (Auth.body req) as [b|].
    + rewrite validateCSRFToken_true. split.
      * intros (t & Ht & Hc & Hh). exists b, t. repeat split; assumption.
      * intros (b' & t & [= <-] & Ht & Hc & Hh). exists t. repeat split; assumption.
    + split; [discriminate|]. intros (b & t & Hb & _). discriminate.
  - unfold Spec.csrf_tokens_match. intros Hcsrf. revert Hrun.
    unfold Auth.serve_login. cbv zeta.
    destruct (Auth.is_ip_blocked _ _ _);
      [intros H; close_run H; repeat split; discriminate|].
    destruct (Auth.body req) as [b|];
      [|intros H; close_run H; repeat split; discriminate].
    rewrite Hcsrf. cbn [negb]. intros H; close_run H; repeat split; discriminate.
  - intros pre ok post Htrace.
    destruct (serve_login_trace deriveBits env req db resp db' trace Hrun)
      as [Hnone|(c & rest & Hshape & Hrest)].
    + exfalso.
      exact (no_occurrence Auth.is_csrf_comparison trace pre post
               (Auth.CsrfComparison ok) Hnone eq_refl Htrace).
    + rewrite Hshape in Htrace.
      rewrite (first_occurrence Auth.is_csrf_comparison
                 [Auth.RpcIsIpBlocked (Auth.getClientIP req); Auth.ReadBody]
                 rest pre post (Auth.CsrfComparison c) (Auth.CsrfComparison ok)
                 eq_refl Hrest eq_refl Htrace).
      reflexivity.
Qed.

Lemma csrf_double_submit_witness :
  Spec.csrf_tokens_match Examples.tokenless_request = false
  /\ Auth.status (fst (fst (Auth.serve_login Examples.sample_deriveBits Examples.sample_env
                              Examples.tokenless_request Examples.quiet_store))) <> 200%Z
  /\ snd (fst (Auth.serve_login Examples.sample_deriveBits Examples.sample_env
                 Examples.tokenless_request Examples.quiet_store)) = Examples.quiet_store
  /\ List.filter Auth.is_data_access
       (snd (Auth.serve_login Examples.sample_deriveBits Examples.sample_env
               Examples.tokenless_request Examples.quiet_store))
     = [Auth.RpcIsIpBlocked (Auth.getClientIP Examples.tokenless_request)].
Proof.
  split; [reflexivity|].
  destruct (csrf_double_submit Examples.sample_deriveBits Examples.sample_env
              Examples.tokenless_request Examples.quiet_store _ _ _ (run_eta _))
    as (_ & Hreject & _).
  exact (Hreject eq_refl).
Defined.

(** C3, as stated, fails: the store is read, for the blocked addresses,
    before the tokens are compared. *)
Lemma store_read_before_csrf_comparison :
  snd (Auth.serve_login Examples.sample_deriveBits Examples.sample_env
         Examples.tokenless_request Examples.quiet_store)
  = [Auth.RpcIsIpBlocked "10.0.0.1"; Auth.ReadBody] ++ [Auth.CsrfComparison false]
  /\ List.filter Auth.is_data_access [Auth.RpcIsIpBlocked "10.0.0.1"; Auth.ReadBody] <> [].
Proof. split; [vm_compute; reflexivity|discriminate]. Qed.

(** C6 (amended).  When at least 5 failed attempts of the last 15 minutes
    match the sanitized login of the request or the address of the
    caller, the request is rejected, the store is as it was and the
    credentials are not checked, whatever they are; a request whose
    address is not blocked, whose tokens match and whose login and password
    are not empty is answered 429 by the rate limit. *)
Theorem login_rate_limit (deriveBits : string -> string -> Z -> list byte)
    (env : Auth.Env) (req : Auth.Request) (db : Auth.Store)
    (resp : Auth.Response) (db' : Auth.Store) (trace : list Auth.Event) :
  Auth.serve_login deriveBits env req db = (resp, db', trace) ->
  5 <= Spec.recent_failures db (Auth.sql_now env) (Spec.submitted_login req)
         (Auth.getClientIP req) ->
  Auth.status resp <> 200%Z /\ db' = db
  /\ List.filter Auth.checks_credentials trace = []
  /\ (Spec.reaches_rate_limit env req db = true ->
      resp = Auth.respond 429
               "Juda ko'p noto'g'ri urinish. 15 daqiqadan so'ng qayta urinib ko'ring."
      /\ trace = [Auth.RpcIsIpBlocked (Auth.getClientIP req); Auth.ReadBody;
                  Auth.CsrfComparison true;
                  Auth.RpcIsLoginRateLimited (Spec.submitted_login req)
                    (Auth.getClientIP req)]).
Proof.
  unfold Spec.recent_failures, Spec.reaches_rate_limit, Spec.csrf_tokens_match,
    Spec.submitted_login, Spec.submitted_password, Auth.serve_login.
  cbv zeta. intros Hrun Hmany.
  destruct (Auth.is_ip_blocked _ _ _);
    [close_run Hrun; repeat split; discriminate|].
  destruct (Auth.body req) as [b|];
    [|close_run Hrun; repeat split; discriminate].
  cbn [mbind option_bind] in *.
  destruct (Auth.validateCSRFToken _ _); cbn [negb] in Hrun;
    [|close_run Hrun; repeat split; discriminate].
  destruct (Str.truthy (Auth.sanitizeInput (Auth.login b)));
    [|close_run Hrun; repeat split; discriminate].
  destruct (Str.truthy (Auth.sanitizeInput (Auth.password b)));
    [|close_run Hrun; repeat split; discriminate].
  cbn [negb orb] in Hrun.
  assert (Hlimited : Auth.is_login_rate_limited db (Auth.sql_now env)
                       (Auth.sanitizeInput (Auth.login b)) (Auth.getClientIP req) = true)
    by (apply Nat.leb_le; exact Hmany).
  rewrite Hlimited in Hrun. close_run Hrun. repeat split; discriminate.
Qed.

Lemma login_rate_limit_witness :
  5 <= Spec.recent_failures Examples.busy_store (Auth.sql_now Examples.sample_env)
         (Spec.submitted_login Examples.good_request)
         (Auth.getClientIP Examples.good_request)
  /\ Auth.verifyPassword Examples.sample_deriveBits
       (Spec.submitted_password Examples.good_request)
       (Auth.password_hash Examples.bob) = Some true
  /\ fst (fst (Auth.serve_login Examples.sample_deriveBits Examples.sample_env
                 Examples.good_request Examples.busy_store))
     = Auth.respond 429
         "Juda ko'p noto'g'ri urinish. 15 daqiqadan so'ng qayta urinib ko'ring.".
Proof.
  assert (Hmany : 5 <= Spec.recent_failures Examples.busy_store
                         (Auth.sql_now Examples.sample_env)
                         (Spec.submitted_login Examples.good_request)
                         (Auth.getClientIP Examples.good_request))
    by (vm_compute; lia).
  split; [exact Hmany|]. split; [reflexivity|].
  destruct (login_rate_limit Examples.sample_deriveBits Examples.sample_env
              Examples.good_request Examples.busy_store _ _ _ (run_eta _) Hmany)
    as (_ & _ & _ & Hlimit).
  destruct (Hlimit eq_refl) as [Hresp _]. exact Hresp.
Defined.

(** C6, as stated, fails: with five recent failures for the login, a
    request without the token is answered 403 by the token comparison,
    not 429 by the rate limit. *)
Lemma rate_limited_request_rejected_for_csrf :
  5 <= Spec.recent_failures Examples.busy_store (Auth.sql_now Examples.sample_env)
         (Spec.submitted_login Examples.tokenless_request)
         (Auth.getClientIP Examples.tokenless_request)
  /\ fst (fst (Auth.serve_login Examples.sample_deriveBits Examples.sample_env
                 Examples.tokenless_request Examples.busy_store))
     = Auth.respond 403 "Xavfsizlik xatosi. Sahifani yangilang."
  /\ Auth.status (fst (fst (Auth.serve_login Examples.sample_deriveBits Examples.sample_env
                              Examples.tokenless_request Examples.busy_store))) <> 429%Z.
Proof.
  split; [vm_compute; lia|]. split; [vm_compute; reflexivity|].
  vm_compute. discriminate.
Qed.

(** ** The check-in page *)

Section CheckinProofs.
Import Geolocation Checkin.

Variable calculateDistance : float -> float -> float -> float -> float.

(** [completeCheckin] with a fake or distant position: the result is
    [rejected], the attendance is as it was, the attempt is logged. *)
Lemma completeCheckin_rejects (env : Env) (lesson : Lesson) (lat lon distance : float)
    (fake : FakeCheck) (radiusMeters : float) (faceVerified : bool)
    (st : State) (db : Store) (uid : string) :
  user st = Some uid ->
  isFake fake = true \/ (distance <=? radiusMeters)%float = false ->
  exists st' log,
    completeCheckin env lesson lat lon distance fake radiusMeters faceVerified st db
    = (st', {| lessons := lessons db; attendance := attendance db;
               activity_logs := activity_logs db ++ [log] |},
       [GpsVerdict false; InsertActivityLog "checkin_rejected"; SetStep result_step])
    /\ checkResult st' ≫= result_status = Some Rejected
    /\ step st' = result_step
    /\ log_action log = "checkin_rejected"%string.
Proof.
  intros Hu Hgps. unfold completeCheckin. rewrite Hu.
  assert (Hcond : isFake fake || negb (distance <=? radiusMeters)%float = true).
  { destruct Hgps as [-> | ->]; [reflexivity|apply orb_true_r]. }
  rewrite Hcond. eexists _, _. split; [reflexivity|]. repeat split.
Qed.

(** [handleFaceFailed] writes the attendance of the pair, whatever the
    position was. *)
Lemma handleFaceFailed_writes (env : Env) (st : State) (db : Store)
    (lesson : Lesson) (info : LocationInfo) (uid : string) :
  lessonData st = Some lesson -> locationData st = Some info -> user st = Some uid ->
  exists st' db' row,
    handleFaceFailed env st db
    = (st', db', [SetStep result_step; WriteAttendance suspicious;
                  InsertActivityLog "checkin_suspicious"])
    /\ attendance db' !! (lesson_row_id lesson, uid) = Some row
    /\ att_status row = Some suspicious
    /\ distance_meters row = Some (loc_distance info)
    /\ is_fake_gps row = Some (isFake (fakeCheck info))
    /\ checkResult st' ≫= result_status = Some Suspicious.
Proof.
  intros Hl Hi Hu. unfold handleFaceFailed. rewrite Hl, Hi, Hu.
  eexists _, _, _. split; [reflexivity|].
  cbn [attendance insert_activity_log write_attendance].
  split; [apply lookup_insert_eq|]. repeat split.
Qed.

Lemma handlePinSubmit_shape (env : Env) (pinCode : string) (st st1 : State)
    (db db1 : Store) (t1 : list Event) :
  step st = pin_step ->
  handlePinSubmit calculateDistance env pinCode st db = (st1, db1, t1) ->
  (step st1 = face_step
   /\ t1 = [QueryLesson pinCode; DetectFakeGPS; GetCurrentLocation; CalculateDistance;
            SetStep face_step]
   /\ db1 = db
   /\ exists uid lesson info,
        user st1 = Some uid /\ lessonData st1 = Some lesson
        /\ locationData st1 = Some info)
  \/ (step st1 <> face_step /\ forallb (fun e => negb (gate_event e)) t1 = true).
Proof.
  intros Hstep H. unfold handlePinSubmit in H.
  split_run H; close_run H;
    try (right; split; [cbn [step with_result]; try rewrite Hstep; discriminate
                       |reflexivity]).
  left. cbn [step user lessonData locationData]. repeat split.
  eexists _, _, _. repeat split.
Qed.

(** The runs of a check-in that starts at the PIN entry. *)
Lemma checkin_shape (env : Env) (pinCode : string)
    (previousDetection : option FaceApi.Detection)
    (frames : nat -> list (option FaceApi.Detection))
    (video : nat -> option FaceApi.Detection)
    (st st' : State) (db db' : Store) (trace : list Event) :
  step st = pin_step ->
  checkin calculateDistance env pinCode previousDetection frames
    video st db = (st', db', trace) ->
  forallb (fun e => negb (gate_event e)) trace = true
  \/ exists rest,
       trace = [QueryLesson pinCode; DetectFakeGPS; GetCurrentLocation; CalculateDistance]
               ++ SetStep face_step :: rest
       /\ (rest = []
           \/ rest = [FaceOutcome false; SetStep result_step; WriteAttendance suspicious;
                      InsertActivityLog "checkin_suspicious"]
           \/ (rest = [FaceOutcome true; GpsVerdict false;
                       InsertActivityLog "checkin_rejected"; SetStep result_step]
               /\ attendance db' = attendance db
               /\ checkResult st' ≫= result_status = Some Rejected)
           \/ rest = [FaceOutcome true; GpsVerdict true; SelectAttendance;
                      WriteAttendance present; InsertActivityLog "checkin_success";
                      SetStep result_step]).
Proof.
  intros Hstep H. unfold checkin in H.
  destruct (handlePinSubmit _ _ _ _ _) as [[st1 db1] t1] eqn:Hpin.
  destruct (handlePinSubmit_shape env pinCode st st1 db db1 t1 Hstep Hpin)
    as [(Hface & -> & -> & uid & lesson & info & Hu & Hl & Hi) | [Hnot Hfree]].
  - rewrite Hface in H. right.
    destruct (FaceCapture.handleCapture _ _ _ _ _) as [capture|];
      [|close_run H; eexists; split; [reflexivity|left; reflexivity]].
    destruct (FaceCapture.callback capture) as [[embedding|]|];
      [| |close_run H; eexists; split; [reflexivity|left; reflexivity]].
    + unfold handleFaceVerified, completeCheckin in H. rewrite Hl, Hi in H.
      cbn [user checking] in H. rewrite Hu in H.
      destruct (isFake (fakeCheck info) || negb _) in H; close_run H;
        (eexists; split; [reflexivity|]).
      * right. right. left. repeat split.
      * right. right. right. reflexivity.
    + destruct (handleFaceFailed_writes env st1 db lesson info uid Hl Hi Hu)
        as (st2 & db2 & row & Hrun & _).
      rewrite Hrun in H. close_run H.
      eexists; split; [reflexivity|]. right. left. reflexivity.
  - left. destruct (step st1); try contradiction; close_run H; exact Hfree.
Qed.

End CheckinProofs.

Lemma each_event_sound {A} (R : list A -> A -> Prop) (before t : list A) :
  Spec.each_event R before t ->
  forall pre e post, t = pre ++ e :: post -> R (before ++ pre) e.
Proof.
  revert before. induction t as [|x t IH]; intros before Hall pre e post Heq.
  - destruct pre; discriminate.
  - destruct Hall as [Hx Hrest]. destruct pre as [|y pre]; cbn [app] in Heq.
    + injection Heq as -> _. rewrite app_nil_r. exact Hx.
    + injection Heq as -> Heq. specialize (IH _ Hrest pre e post Heq).
      rewrite <- app_assoc in IH. exact IH.
Qed.

Ltac each_event R :=
  match goal with
  | Ht : ?t = ?pre ++ ?e :: ?post |- _ =>
      let Hall := fresh "Hall" in
      let Hres := fresh "Hres" in
      assert (Hall : Spec.each_event R [] t)
        by (cbn [Spec.each_event app]; repeat split; intros; try discriminate;
            cbn [In]; auto 12);
      pose proof (each_event_sound R [] t Hall pre e post Ht) as Hres;
      cbn [app] in Hres; eapply Hres; reflexivity
  end.

(** C2 (amended).  In a check-in that starts at the PIN entry, the fake-GPS
    check, the position and the distance are obtained after the lesson is
    found and before the face step starts.  The verdict on them is taken
    after the face step, once the face has matched, in [completeCheckin]:
    a verdict that fails rejects the check-in and leaves the attendance as
    it was, and a record [present] is written only after a verdict that
    passed. *)
Theorem checkin_gate_order (calculateDistance : float -> float -> float -> float -> float)
    (env : Checkin.Env) (pinCode : string)
    (previousDetection : option FaceApi.Detection)
    (frames : nat -> list (option FaceApi.Detection))
    (video : nat -> option FaceApi.Detection)
    (st st' : Checkin.State) (db db' : Checkin.Store) (trace : list Checkin.Event) :
  Checkin.step st = Checkin.pin_step ->
  Checkin.checkin calculateDistance env pinCode previousDetection frames video st db
  = (st', db', trace) ->
  (forall pre post,
     trace = pre ++ Checkin.SetStep Checkin.face_step :: post ->
     pre = [Checkin.QueryLesson pinCode; Checkin.DetectFakeGPS;
            Checkin.GetCurrentLocation; Checkin.CalculateDistance])
  /\ (forall pre passed post,
        trace = pre ++ Checkin.GpsVerdict passed :: post ->
        In (Checkin.SetStep Checkin.face_step) pre /\ In (Checkin.FaceOutcome true) pre)
  /\ (forall pre post,
        trace = pre ++ Checkin.WriteAttendance Checkin.present :: post ->
        In (Checkin.GpsVerdict true) pre)
  /\ (In (Checkin.GpsVerdict false) trace ->
      Checkin.attendance db' = Checkin.attendance db
      /\ Checkin.checkResult st' ≫= Checkin.result_status = Some Checkin.Rejected).
Proof.
  intros Hstep Hrun.
  destruct (checkin_shape calculateDistance env pinCode previousDetection frames video
              st st' db db' trace Hstep Hrun) as [Hfree | (rest & -> & Hrest)].
  - assert (Habsent : forall pre y post,
              Checkin.gate_event y = true -> trace <> pre ++ y :: post)
      by (intros pre y post Hy;
          exact (no_occurrence Checkin.gate_event trace pre post y Hfree Hy)).
    split; [|split; [|split]].
    + intros pre post Ht. exfalso. eapply Habsent; [|exact Ht]; reflexivity.
    + intros pre passed post Ht. exfalso. eapply Habsent; [|exact Ht]; reflexivity.
    + intros pre post Ht. exfalso. eapply Habsent; [|exact Ht]; reflexivity.
    + intros Hin. exfalso. apply in_split in Hin as (pre & post & Ht).
      eapply Habsent; [|exact Ht]; reflexivity.
  - destruct Hrest as [-> | [-> | [(-> & Hatt & Hres) | ->]]];
      (split; [|split; [|split]];
       [intros pre post Ht;
        each_event (fun (pre : list Checkin.Event) e =>
                      e = Checkin.SetStep Checkin.face_step ->
                      pre = [Checkin.QueryLesson pinCode; Checkin.DetectFakeGPS;
                             Checkin.GetCurrentLocation; Checkin.CalculateDistance])
       |intros pre passed post Ht;
        each_event (fun (pre : list Checkin.Event) e =>
                      forall passed, e = Checkin.GpsVerdict passed ->
                      In (Checkin.SetStep Checkin.face_step) pre
                      /\ In (Checkin.FaceOutcome true) pre)
       |intros pre post Ht;
        each_event (fun (pre : list Checkin.Event) e =>
                      e = Checkin.WriteAttendance Checkin.present ->
                      In (Checkin.GpsVerdict true) pre)
       |]).
    + cbn [In app]. intuition discriminate.
    + cbn [In app]. intuition discriminate.
    + intros _. split; [exact Hatt|exact Hres].
    + cbn [In app]. intuition discriminate.
Qed.

Lemma checkin_gate_order_witness :
  Checkin.step Examples.student_at_pin = Checkin.pin_step
  /\ (forall pre post,
        snd (Checkin.checkin Examples.meters50 Examples.phone "482913" None Examples.no_frames
               Examples.student_video Examples.student_at_pin Examples.empty_register)
        = pre ++ Checkin.SetStep Checkin.face_step :: post ->
        pre = [Checkin.QueryLesson "482913"; Checkin.DetectFakeGPS;
               Checkin.GetCurrentLocation; Checkin.CalculateDistance])
  /\ (forall pre post,
        snd (Checkin.checkin Examples.meters50 Examples.phone "482913" None Examples.no_frames
               Examples.student_video Examples.student_at_pin Examples.empty_register)
        = pre ++ Checkin.WriteAttendance Checkin.present :: post ->
        In (Checkin.GpsVerdict true) pre).
Proof.
  split; [reflexivity|].
  destruct (checkin_gate_order Examples.meters50 Examples.phone "482913" None Examples.no_frames
              Examples.student_video Examples.student_at_pin _
              Examples.empty_register _ _ eq_refl (run_eta _))
    as (Hface & _ & Hpresent & _).
  split; [exact Hface|exact Hpresent].
Defined.

(** C2, as stated, fails: 200 m from a lesson with a radius of 120 m, the
    face step starts and the face is matched before the position is
    judged; the rejection comes after the face step. *)
Lemma face_step_before_gps_verdict :
  (Checkin.loc_distance <$>
     Checkin.locationData
       (fst (fst (Checkin.handlePinSubmit Examples.meters200 Examples.phone "482913"
                    Examples.student_at_pin Examples.empty_register))))
  = Some 200%float
  /\ (200 <=? Checkin.radiusOrDefault (Checkin.radius_meters Examples.classroom))%float
     = false
  /\ Checkin.step
       (fst (fst (Checkin.handlePinSubmit Examples.meters200 Examples.phone "482913"
                    Examples.student_at_pin Examples.empty_register)))
     = Checkin.face_step
  /\ snd (Checkin.checkin Examples.meters200 Examples.phone "482913" None Examples.no_frames
            Examples.student_video Examples.student_at_pin Examples.empty_register)
     = [Checkin.QueryLesson "482913"; Checkin.DetectFakeGPS; Checkin.GetCurrentLocation;
        Checkin.CalculateDistance; Checkin.SetStep Checkin.face_step;
        Checkin.FaceOutcome true; Checkin.GpsVerdict false;
        Checkin.InsertActivityLog "checkin_rejected"; Checkin.SetStep Checkin.result_step].
Proof. repeat split; vm_compute; reflexivity. Qed.

(** C1 (amended).  In a check-in whose face verification succeeds, when
    the fake-GPS check reports a fake position or the distance is not
    within the radius of the lesson, the check-in ends with the result
    [rejected], no row of attendance is created or changed, and one entry
    [checkin_rejected] is added to the activity log. *)
Theorem checkin_rejected_by_gps
    (calculateDistance : float -> float -> float -> float -> float)
    (env : Checkin.Env) (pinCode : string)
    (previousDetection : option FaceApi.Detection)
    (frames : nat -> list (option FaceApi.Detection))
    (video : nat -> option FaceApi.Detection)
    (st : Checkin.State) (db : Checkin.Store)
    (uid : string) (lesson : Checkin.Lesson) (loc : Geolocation.LocationData)
    (registered embedding : list float) (capture : FaceCapture.Capture) :
  Checkin.user st = Some uid ->
  String.length pinCode = 6 ->
  Checkin.isMobileDevice env = true ->
  Checkin.select_lesson db pinCode (Checkin.now env) = Some lesson ->
  Checkin.location env = inl loc ->
  Checkin.userFaceEmbedding st = Some registered ->
  FaceCapture.handleCapture FaceCapture.verify (Some registered) previousDetection frames video
  = Some capture ->
  FaceCapture.callback capture = Some (FaceCapture.CaptureCallback embedding) ->
  Geolocation.isFake
    (Geolocation.detectFakeGPS (Checkin.userAgent env) (Checkin.permission env)
       (Checkin.location_of_fake_check env)) = true
  \/ (calculateDistance (Geolocation.latitude loc) (Geolocation.longitude loc)
        (Checkin.lesson_latitude lesson) (Checkin.lesson_longitude lesson)
      <=? Checkin.radiusOrDefault (Checkin.radius_meters lesson))%float = false ->
  exists st' log,
    Checkin.checkin calculateDistance env pinCode previousDetection frames video st db
    = (st',
       {| Checkin.lessons := Checkin.lessons db;
          Checkin.attendance := Checkin.attendance db;
          Checkin.activity_logs := Checkin.activity_logs db ++ [log] |},
       [Checkin.QueryLesson pinCode; Checkin.DetectFakeGPS; Checkin.GetCurrentLocation;
        Checkin.CalculateDistance; Checkin.SetStep Checkin.face_step;
        Checkin.FaceOutcome true; Checkin.GpsVerdict false;
        Checkin.InsertActivityLog "checkin_rejected"; Checkin.SetStep Checkin.result_step])
    /\ Checkin.checkResult st' ≫= Checkin.result_status = Some Checkin.Rejected
    /\ Checkin.step st' = Checkin.result_step
    /\ Checkin.log_action log = "checkin_rejected"%string.
Proof.
  intros Hu Hpin Hmobile Hlesson Hloc Hface Hcapture Hcallback Hgps.
  unfold Checkin.checkin, Checkin.handlePinSubmit.
  rewrite Hu, Hpin, Hmobile, Hlesson, Hloc, Hface.
  cbn [Nat.eqb negb Checkin.step Checkin.userFaceEmbedding].
  rewrite Hcapture, Hcallback.
  unfold Checkin.handleFaceVerified. cbn [Checkin.lessonData Checkin.locationData].
  cbn [Checkin.loc_latitude Checkin.loc_longitude Checkin.loc_distance Checkin.fakeCheck].
  match goal with
  | |- context [Checkin.completeCheckin ?e ?l ?a ?b ?d ?f ?r ?v ?s ?store] =>
      destruct (completeCheckin_rejects e l a b d f r v s store uid eq_refl Hgps)
        as (st' & log & Hrun & Hres & Hstep & Hlog)
  end.
  rewrite Hrun. exists st', log. repeat split; assumption.
Qed.

Lemma checkin_rejected_by_gps_witness :
  exists st' log,
    Checkin.checkin Examples.meters200 Examples.phone "482913" None Examples.no_frames
      Examples.student_video Examples.student_at_pin Examples.empty_register
    = (st',
       {| Checkin.lessons := [Examples.classroom];
          Checkin.attendance := ∅;
          Checkin.activity_logs := [log] |},
       [Checkin.QueryLesson "482913"; Checkin.DetectFakeGPS; Checkin.GetCurrentLocation;
        Checkin.CalculateDistance; Checkin.SetStep Checkin.face_step;
        Checkin.FaceOutcome true; Checkin.GpsVerdict false;
        Checkin.InsertActivityLog "checkin_rejected"; Checkin.SetStep Checkin.result_step])
    /\ Checkin.checkResult st' ≫= Checkin.result_status = Some Checkin.Rejected.
Proof.
  destruct (checkin_rejected_by_gps Examples.meters200 Examples.phone "482913" None
              Examples.no_frames Examples.student_video Examples.student_at_pin
              Examples.empty_register
              "u-stu" Examples.classroom Examples.reading Examples.descriptor_zero
              Examples.descriptor_zero
              {| FaceCapture.status := FaceCapture.success;
                 FaceCapture.livenessPass := 3;
                 FaceCapture.effects :=
                   [FaceCapture.CheckLiveness 0 true; FaceCapture.Sleep 200;
                    FaceCapture.CheckLiveness 1 true; FaceCapture.Sleep 200;
                    FaceCapture.CheckLiveness 2 true; FaceCapture.Sleep 200;
                    FaceCapture.GetFaceEmbedding; FaceCapture.StopCamera;
                    FaceCapture.OnCapture Examples.descriptor_zero];
                 FaceCapture.callback :=
                   Some (FaceCapture.CaptureCallback Examples.descriptor_zero) |}
              eq_refl eq_refl eq_refl eq_refl eq_refl eq_refl
              ltac:(vm_compute; reflexivity) eq_refl
              ltac:(right; vm_compute; reflexivity))
    as (st' & log & Hrun & Hres & _).
  exists st', log. split; [exact Hrun|exact Hres].
Defined.

(** C1, as stated, fails.  200 m from a lesson with a radius of 120 m, a
    student without a registered face ends with the result [suspicious],
    not [rejected]; and when the face of a registered student does not
    match, the result is [suspicious] and a row of attendance is created
    for the lesson and the student. *)
Lemma gps_failure_not_always_rejected :
  (200 <=? Checkin.radiusOrDefault (Checkin.radius_meters Examples.classroom))%float
  = false
  /\ Checkin.checkResult
       (fst (fst (Checkin.checkin Examples.meters200 Examples.phone "482913" None
                    Examples.no_frames Examples.student_video Examples.student_without_face
                    Examples.empty_register))) ≫= Checkin.result_status
     = Some Checkin.Suspicious
  /\ Checkin.checkResult
       (fst (fst (Checkin.checkin Examples.meters200 Examples.phone "482913" None
                    Examples.no_frames Examples.stranger_video Examples.student_at_pin
                    Examples.empty_register))) ≫= Checkin.result_status
     = Some Checkin.Suspicious
  /\ Checkin.attendance Examples.empty_register !! ("lesson-1"%string, "u-stu"%string)
     = None
  /\ (Checkin.attendance
        (snd (fst (Checkin.checkin Examples.meters200 Examples.phone "482913" None
                     Examples.no_frames Examples.stranger_video Examples.student_at_pin
                     Examples.empty_register)))
      !! ("lesson-1"%string, "u-stu"%string)) ≫= Checkin.att_status
     = Some Checkin.suspicious
  /\ (Checkin.attendance
        (snd (fst (Checkin.checkin Examples.meters200 Examples.phone "482913" None
                     Examples.no_frames Examples.stranger_video Examples.student_at_pin
                     Examples.empty_register)))
      !! ("lesson-1"%string, "u-stu"%string)) ≫= Checkin.distance_meters
     = Some 200%float
  /\ snd (Checkin.checkin Examples.meters200 Examples.phone "482913" None Examples.no_frames
            Examples.stranger_video Examples.student_at_pin Examples.empty_register)
     = [Checkin.QueryLesson "482913"; Checkin.DetectFakeGPS; Checkin.GetCurrentLocation;
        Checkin.CalculateDistance; Checkin.SetStep Checkin.face_step;
        Checkin.FaceOutcome false; Checkin.SetStep Checkin.result_step;
        Checkin.WriteAttendance Checkin.suspicious;
        Checkin.InsertActivityLog "checkin_suspicious"].
Proof. repeat split; vm_compute; reflexivity. Qed.

(** * Further properties of the code *)

(** ** The sessions a login leaves, and the other actions *)

Section SessionProofs.
Import Auth AuthActions.

Variable deriveBits : string -> string -> Z -> list byte.

Lemma user_of_map (g : User -> User) (l : list User) (id : string) :
  (forall x, user_id (g x) = user_id x) ->
  find (fun u => String.eqb (user_id u) id) (map g l)
  = option_map g (find (fun u => String.eqb (user_id u) id) l).
Proof.
  intros Hg. induction l as [|x l IH]; [reflexivity|].
  cbn [map find]. rewrite Hg. destruct (String.eqb (user_id x) id); [reflexivity|exact IH].
Qed.

Lemma find_by_unique_id (l : list User) (u : User) :
  List.NoDup (map user_id l) -> In u l ->
  find (fun x => String.eqb (user_id x) (user_id u)) l = Some u.
Proof.
  induction l as [|x l IH]; intros Hnd Hin; [destruct Hin|].
  cbn [map] in Hnd. apply List.NoDup_cons_iff in Hnd as [Hx Hnd].
  cbn [find]. destruct Hin as [->|Hin].
  - rewrite String.eqb_refl. reflexivity.
  - destruct (String.eqb_spec (user_id x) (user_id u)) as [E|_]; [|apply IH; assumption].
    exfalso. apply Hx. rewrite E. apply in_map, Hin.
Qed.

(** A login writes no rule of the blacklist, and what it writes to a user
    is the password hash or the device. *)
Lemma serve_login_frame (env : Env) (req : Request) (db : Store)
    (resp : Response) (db' : Store) (trace : list Event) :
  serve_login deriveBits env req db = (resp, db', trace) ->
  ip_rules db' = ip_rules db
  /\ exists g, users db' = map g (users db)
               /\ forall x, publicUser (g x) = publicUser x.
Proof.
  unfold serve_login, device_gate, issue_session, insert_session. cbv zeta. intros H.
  split_run H; try discriminate; close_run H;
    (split; [reflexivity|]);
    cbn [users update_users record_login_attempt insert_activity_log delete_sessions];
    rewrite ?List.map_map;
    first [ exists (fun x => x); split; [symmetry; apply List.map_id|reflexivity]
          | eexists; split;
            [reflexivity
            |intros x; cbn beta; repeat destruct (String.eqb _ _); reflexivity] ].
Qed.

Lemma serve_login_fresh_token (env : Env) (req : Request) (db : Store)
    (resp : Response) (db' : Store) (trace : list Event) :
  serve_login deriveBits env req db = (resp, db', trace) ->
  status resp = 200%Z ->
  exists rest s,
    sessions db' = rest ++ [s]
    /\ existsb (fun x => String.eqb (token x) (token s)) rest = false.
Proof.
  unfold serve_login, device_gate, issue_session, insert_session. cbv zeta. intros H Hs.
  split_run H; try discriminate; close_run H; try discriminate Hs;
    cbn [sessions insert_activity_log]; eexists _, _; (split; [reflexivity|]);
    cbn [token]; eassumption.
Qed.

Lemma hex_truthy (bytes : list byte) : bytes <> [] -> Str.truthy (Str.hex bytes) = true.
Proof. destruct bytes as [|b bytes]; [contradiction|reflexivity]. Qed.

Lemma filter_absent {A} (p q : A -> bool) (l : list A) :
  existsb p l = false -> List.filter (fun x => p x && q x) l = [].
Proof.
  induction l as [|x l IH]; [reflexivity|]. cbn [existsb List.filter].
  intros H. apply orb_false_iff in H as [-> H]. exact (IH H).
Qed.

Lemma find_absent {A} (p q : A -> bool) (l : list A) (y : A) :
  existsb p l = false ->
  find (fun x => p x && q x) (l ++ [y]) = if p y && q y then Some y else None.
Proof.
  induction l as [|x l IH]; [reflexivity|]. cbn [existsb app find].
  intros H. apply orb_false_iff in H as [-> H]. exact (IH H).
Qed.

(** What a login that answers 200 leaves of its session and of its user. *)
Lemma serve_login_session (env : Env) (req : Request) (db : Store)
    (resp : Response) (db' : Store) (trace : list Event)
    (tok rt : string) (pu : PublicUser) (exp : Z) :
  List.NoDup (map user_id (users db)) ->
  serve_login deriveBits env req db = (resp, db', trace) ->
  status resp = 200%Z ->
  payload resp = LoggedIn tok rt pu exp ->
  exists rest s u,
    sessions db' = rest ++ [s]
    /\ existsb (fun x => String.eqb (token x) tok) rest = false
    /\ token s = tok /\ expires_at s = exp /\ refresh_token s = rt
    /\ tok = generateToken (random_token env)
    /\ exp = plus12hours (date_access env)
    /\ user_of db' (session_user_id s) = Some u /\ publicUser u = pu.
Proof.
  intros Hnd H Hs Hpay.
  destruct (serve_login_fresh_token _ _ _ _ _ _ H Hs) as (rest & s & Hses & Hfresh).
  destruct (serve_login_frame _ _ _ _ _ _ H) as (_ & g & Husers & Hg).
  destruct (serve_login_success deriveBits _ _ _ _ _ _ H Hs)
    as (b & u & _ & Hu & _ & Hses' & Hpay' & _).
  rewrite Hses in Hses'. apply app_inj_tail in Hses' as [_ ->].
  rewrite Hpay in Hpay'. injection Hpay' as -> -> -> ->.
  exists rest, (Spec.issued_session env req b u), (g u).
  split; [exact Hses|]. split; [exact Hfresh|]. repeat (split; [reflexivity|]).
  split; [|apply Hg].
  unfold user_of. rewrite Husers, user_of_map by (intros x; exact (f_equal pub_id (Hg x))).
  change (session_user_id (Spec.issued_session env req b u)) with (user_id u).
  rewrite (find_by_unique_id _ _ Hnd (select_active_user_in _ _ _ Hu)). reflexivity.
Qed.

End SessionProofs.

(** X1.  A login that answers 200 hands out a token that [validate] accepts
    for the user of the login until the expiry of the answer, twelve
    hours after the clock of the login, and refuses afterwards; the SQL
    functions give the role of that user to the token while it lasts. *)
Theorem login_then_validate (deriveBits : string -> string -> Z -> list byte)
    (env : Auth.Env) (req : Auth.Request) (db : Auth.Store)
    (resp : Auth.Response) (db' : Auth.Store) (trace : list Auth.Event)
    (tok rt : string) (pu : Auth.PublicUser) (exp : Z)
    (clock : AuthActions.Clock) (req' : Auth.Request) (b' : AuthActions.Body) :
  List.NoDup (map Auth.user_id (Auth.users db)) ->
  Auth.random_token env <> [] ->
  Auth.serve_login deriveBits env req db = (resp, db', trace) ->
  Auth.status resp = 200%Z ->
  Auth.payload resp = Auth.LoggedIn tok rt pu exp ->
  AuthActions.body_token b' = Some tok ->
  Auth.is_ip_blocked db' (AuthActions.now_sql clock) (Auth.getClientIP req') = false ->
  exp = Auth.plus12hours (Auth.date_access env)
  /\ AuthActions.serve clock AuthActions.validate req' (Some b') db'
     = (AuthActions.answer 200
          (if (AuthActions.date_now clock <=? exp)%Z
           then AuthActions.Valid pu exp else AuthActions.Invalid),
        db')
  /\ AuthActions.get_user_role_from_token db' (AuthActions.now_sql clock) (Some tok)
     = (if (AuthActions.now_sql clock <? exp)%Z then Some (Auth.pub_role pu) else None).
Proof.
  intros Hnd Hrandom H Hs Hpay Hb Hip.
  destruct (serve_login_session deriveBits _ _ _ _ _ _ _ _ _ _ Hnd H Hs Hpay)
    as (rest & s & u & Hses & Hfresh & Htok & Hexp & _ & Hgen & Hplus & Hu & Hpu).
  split; [exact Hplus|]. split.
  - unfold AuthActions.serve. rewrite Hip.
    unfold AuthActions.serve_validate, AuthActions.field.
    cbn [mbind option_bind]. rewrite Hb. cbn [mbind option_bind].
    assert (Htruthy : Str.truthy tok = true) by (rewrite Hgen; apply hex_truthy, Hrandom).
    rewrite Htruthy, Hses, List.filter_app, (filter_absent _ _ _ Hfresh).
    cbn [List.filter app]. rewrite Htok, String.eqb_refl, Hexp. cbn [andb].
    destruct (AuthActions.date_now clock <=? exp)%Z; cbn [AuthActions.maybeSingle];
      [|reflexivity].
    rewrite Hu, Hexp, Hpu. reflexivity.
  - unfold AuthActions.get_user_role_from_token, AuthActions.live_session.
    cbn [mbind option_bind]. rewrite Hses, (find_absent _ _ _ _ Hfresh).
    rewrite Htok, String.eqb_refl, Hexp. cbn [andb].
    destruct (AuthActions.now_sql clock <? exp)%Z; [|reflexivity].
    cbn [mbind option_bind]. rewrite Hu. cbn [mbind option_bind]. rewrite <- Hpu. reflexivity.
Qed.

Lemma login_then_validate_witness :
  AuthActions.serve Examples.sample_clock AuthActions.validate Examples.good_request
    (Some (Examples.token_body "0102"))
    (snd (fst (Auth.serve_login Examples.sample_deriveBits Examples.sample_env
                 Examples.good_request Examples.quiet_store)))
  = (AuthActions.answer 200
       (AuthActions.Valid (Auth.publicUser Examples.bob) (1500001 + 12 * 60 * 60 * 1000)),
     snd (fst (Auth.serve_login Examples.sample_deriveBits Examples.sample_env
                 Examples.good_request Examples.quiet_store))).
Proof.
  destruct (login_then_validate Examples.sample_deriveBits Examples.sample_env
              Examples.good_request Examples.quiet_store _ _ _
              "0102" "0304" (Auth.publicUser Examples.bob) (1500001 + 12 * 60 * 60 * 1000)
              Examples.sample_clock Examples.good_request (Examples.token_body "0102")
              ltac:(repeat constructor; intros [])
              ltac:(discriminate) (run_eta _)
              ltac:(vm_compute; reflexivity) ltac:(vm_compute; reflexivity)
              eq_refl ltac:(vm_compute; reflexivity))
    as (_ & Hvalid & _).
  exact Hvalid.
Defined.

Section TokenProofs.
Import Auth AuthActions.

Lemma absent_token (l : list Session) (t : string) :
  ~ In t (map token l) -> existsb (fun s => String.eqb (token s) t) l = false.
Proof.
  induction l as [|x l IH]; [reflexivity|]. cbn [map existsb]. intros H.
  destruct (String.eqb_spec (token x) t) as [E|_].
  - exfalso. apply H. left. exact E.
  - apply IH. intros Hin. apply H. right. exact Hin.
Qed.

(** The column [token] is unique: a token selects the session that has it. *)
Lemma unique_token_filter (l : list Session) (x : Session) (t : string)
    (q : Session -> bool) :
  List.NoDup (map token l) -> In x l -> token x = t ->
  List.filter (fun s => String.eqb (token s) t && q s) l = if q x then [x] else [].
Proof.
  intros Hnd Hin Ht. subst t. induction l as [|y l IH]; [destruct Hin|].
  cbn [map] in Hnd. apply List.NoDup_cons_iff in Hnd as [Hy Hnd].
  cbn [List.filter]. destruct Hin as [->|Hin].
  - rewrite String.eqb_refl. cbn [andb].
    rewrite (filter_absent _ q _ (absent_token _ _ Hy)).
    destruct (q x); reflexivity.
  - destruct (String.eqb_spec (token y) (token x)) as [E|_].
    + exfalso. apply Hy. rewrite E. apply in_map, Hin.
    + cbn [andb]. apply IH; assumption.
Qed.

Lemma find_none_absent {A} (p q : A -> bool) (l : list A) :
  existsb p l = false -> find (fun x => p x && q x) l = None.
Proof.
  induction l as [|x l IH]; [reflexivity|]. cbn [existsb find].
  intros H. apply orb_false_iff in H as [-> H]. exact (IH H).
Qed.

Lemma filter_true {A} (p : A -> bool) (l : list A) :
  List.filter p l = List.filter (fun x => p x && true) l.
Proof. apply List.filter_ext. intros x. rewrite andb_true_r. reflexivity. Qed.

(** Whether a token selects a session of a table with unique tokens. *)
Lemma token_selects (l : list Session) (t : string) :
  List.NoDup (map token l) ->
  (existsb (fun s => String.eqb (token s) t) l = false
   /\ List.filter (fun s => String.eqb (token s) t) l = [])
  \/ exists x, In x l /\ token x = t
               /\ List.filter (fun s => String.eqb (token s) t) l = [x].
Proof.
  intros Hnd. destruct (existsb (fun s => String.eqb (token s) t) l) eqn:E.
  - right. apply existsb_exists in E as (x & Hin & Hx). apply String.eqb_eq in Hx.
    exists x. split; [exact Hin|]. split; [exact Hx|].
    rewrite filter_true. exact (unique_token_filter l x t (fun _ => true) Hnd Hin Hx).
  - left. split; [reflexivity|]. rewrite filter_true. apply filter_absent, E.
Qed.

Lemma deleted_absent (l : list Session) (t : string) :
  existsb (fun s => String.eqb (token s) t)
    (List.filter (fun s => negb (String.eqb (token s) t)) l) = false.
Proof.
  induction l as [|x l IH]; [reflexivity|]. cbn [List.filter].
  destruct (String.eqb (token x) t) eqn:E; cbn [negb]; [exact IH|].
  cbn [existsb]. rewrite E. exact IH.
Qed.

(** A token no session has is accepted by nothing. *)
Lemma unknown_token (db : Store) (t : string) (b : Body) (clock : Clock) (req : Request) :
  existsb (fun s => String.eqb (token s) t) (sessions db) = false ->
  body_token b = Some t ->
  serve clock validate req (Some b) db
  = (if is_ip_blocked db (now_sql clock) (getClientIP req)
     then ip_refused else answer 200 Invalid, db)
  /\ get_user_role_from_token db (now_sql clock) (Some t) = None
  /\ get_user_id_from_token db (now_sql clock) (Some t) = None.
Proof.
  intros Habsent Hb. split; [|split].
  - unfold serve. destruct (is_ip_blocked _ _ _); [reflexivity|].
    unfold serve_validate, field. cbn [mbind option_bind]. rewrite Hb.
    cbn [mbind option_bind]. destruct (Str.truthy t); [|reflexivity].
    rewrite (filter_absent _ _ _ Habsent). reflexivity.
  - unfold get_user_role_from_token, live_session. cbn [mbind option_bind].
    rewrite (find_none_absent _ _ _ Habsent). reflexivity.
  - unfold get_user_id_from_token, live_session. cbn [mbind option_bind].
    rewrite (find_none_absent _ _ _ Habsent). reflexivity.
Qed.

End TokenProofs.

(** X2.  A logout that is answered 200 ends the session of the token it
    names, the tokens of the table being unique: [validate] does not
    accept the token afterwards, at any time and from any address, and
    the SQL functions give it neither a role nor a user, so that it opens
    none of the actions of an administrator. *)
Theorem logout_revokes_token (clock : AuthActions.Clock) (req : Auth.Request)
    (b : AuthActions.Body) (db : Auth.Store) (ans : AuthActions.Answer)
    (db' : Auth.Store) (tok : string) :
  List.NoDup (map Auth.token (Auth.sessions db)) ->
  AuthActions.body_token b = Some tok ->
  tok <> EmptyString ->
  AuthActions.serve clock AuthActions.logout req (Some b) db = (ans, db') ->
  AuthActions.code ans = 200%Z ->
  forall (clock' : AuthActions.Clock) (req' : Auth.Request),
    AuthActions.serve clock' AuthActions.validate req' (Some b) db'
    = (if Auth.is_ip_blocked db' (AuthActions.now_sql clock') (Auth.getClientIP req')
       then AuthActions.ip_refused else AuthActions.answer 200 AuthActions.Invalid, db')
    /\ AuthActions.get_user_role_from_token db' (AuthActions.now_sql clock') (Some tok)
       = None
    /\ AuthActions.get_user_id_from_token db' (AuthActions.now_sql clock') (Some tok)
       = None.
Proof.
  intros Hnd Hb Htok H Hcode clock' req'. apply unknown_token; [|exact Hb].
  unfold AuthActions.serve in H.
  destruct (Auth.is_ip_blocked _ _ _); [injection H as <- <-; discriminate Hcode|].
  unfold AuthActions.serve_logout, AuthActions.field in H.
  cbn [mbind option_bind] in H. rewrite Hb in H. cbn [mbind option_bind] in H.
  assert (Htruthy : Str.truthy tok = true).
  { unfold Str.truthy. destruct (String.eqb_spec tok EmptyString); [contradiction|reflexivity]. }
  rewrite Htruthy in H.
  destruct (token_selects _ tok Hnd) as [[Habsent Hnone]|(x & _ & _ & Hone)].
  - rewrite Hnone in H. injection H as <- <-. exact Habsent.
  - rewrite Hone in H. injection H as <- <-. apply deleted_absent.
Qed.

Lemma logout_revokes_token_witness :
  AuthActions.serve Examples.sample_clock AuthActions.validate Examples.good_request
    (Some (Examples.token_body "aa"))
    (snd (AuthActions.serve Examples.early_clock AuthActions.logout Examples.good_request
            (Some (Examples.token_body "aa")) Examples.quiet_store))
  = (AuthActions.answer 200 AuthActions.Invalid,
     snd (AuthActions.serve Examples.early_clock AuthActions.logout Examples.good_request
            (Some (Examples.token_body "aa")) Examples.quiet_store))
  /\ AuthActions.serve Examples.early_clock AuthActions.validate Examples.good_request
       (Some (Examples.token_body "aa")) Examples.quiet_store
     = (AuthActions.answer 200
          (AuthActions.Valid (Auth.publicUser Examples.bob) 500000), Examples.quiet_store).
Proof.
  split; [|vm_compute; reflexivity].
  destruct (logout_revokes_token Examples.early_clock Examples.good_request
              (Examples.token_body "aa") Examples.quiet_store _ _ "aa"
              ltac:(repeat constructor; intros [])
              eq_refl ltac:(discriminate)
              (surjective_pairing _) ltac:(vm_compute; reflexivity)
              Examples.sample_clock Examples.good_request) as (Hvalidate & _).
  exact Hvalidate.
Defined.

Section RefreshProofs.
Import Auth AuthActions.

Lemma distinct_NoDup (l : list string) : distinct l = true -> List.NoDup l.
Proof.
  induction l as [|x l IH]; intros H; [constructor|].
  cbn [distinct] in H. apply andb_true_iff in H as [Hx Hl].
  constructor; [|exact (IH Hl)].
  intros Hin. apply negb_true_iff in Hx.
  assert (E : existsb (String.eqb x) l = true)
    by (apply existsb_exists; exists x; split; [exact Hin|apply String.eqb_refl]).
  congruence.
Qed.

Lemma unique_token_inj (l : list Session) (x y : Session) :
  List.NoDup (map token l) -> In x l -> In y l -> token x = token y -> x = y.
Proof.
  intros Hnd. induction l as [|z l IH]; intros Hx Hy E; [destruct Hx|].
  cbn [map] in Hnd. apply List.NoDup_cons_iff in Hnd as [Hz Hnd].
  destruct Hx as [->|Hx], Hy as [->|Hy].
  - reflexivity.
  - exfalso. apply Hz. rewrite E. apply in_map, Hy.
  - exfalso. apply Hz. rewrite <- E. apply in_map, Hx.
  - apply IH; assumption.
Qed.

(** What a refresh does to the sessions: the rows of the refresh token get
    the new access token and its expiry, and nothing else is written. *)
Lemma serve_refresh_sessions (clock : Clock) (req : Request) (b : option Body)
    (db : Store) :
  users (snd (serve clock refresh req b db)) = users db
  /\ ip_rules (snd (serve clock refresh req b db)) = ip_rules db
  /\ exists upd,
       sessions (snd (serve clock refresh req b db)) = map upd (sessions db)
       /\ forall x, refresh_token (upd x) = refresh_token x
                    /\ refresh_expires_at (upd x) = refresh_expires_at x
                    /\ session_user_id (upd x) = session_user_id x.
Proof.
  assert (Hid : exists upd : Session -> Session,
             sessions db = map upd (sessions db)
             /\ forall x, refresh_token (upd x) = refresh_token x
                          /\ refresh_expires_at (upd x) = refresh_expires_at x
                          /\ session_user_id (upd x) = session_user_id x).
  { exists (fun x => x). split; [symmetry; apply List.map_id|]. repeat split. }
  unfold serve, serve_refresh, update_by_refresh_token.
  repeat match goal with
         | |- context [if ?c then _ else _] => destruct c
         | |- context [match ?x with _ => _ end] => destruct x
         end;
    cbn [snd users ip_rules sessions with_sessions];
    (split; [reflexivity|]); (split; [reflexivity|]); try exact Hid.
  all: eexists; split; [reflexivity|];
    intros x; cbn beta; destruct (String.eqb _ _); repeat split.
Qed.

Lemma updated_old_token_absent (l : list Session) (s : Session) (r newToken : string)
    (e : Z) :
  List.NoDup (map token l) -> In s l -> refresh_token s = r -> token s <> newToken ->
  existsb (fun x => String.eqb (token x) (token s))
    (map (fun x => if String.eqb (refresh_token x) r
                   then set_access_token newToken e x else x) l) = false.
Proof.
  intros Hnd Hs Hr Hne.
  apply not_true_is_false. intros H. apply existsb_exists in H as (y & Hy & E).
  apply String.eqb_eq in E. apply in_map_iff in Hy as (x & <- & Hx).
  destruct (String.eqb_spec (refresh_token x) r) as [_|Hxr].
  - cbn [token set_access_token] in E. congruence.
  - apply Hxr. rewrite (unique_token_inj l x s Hnd Hx Hs E). exact Hr.
Qed.

End RefreshProofs.

(** X3.  A refresh that is answered 200 found one session with the refresh
    token, in its refresh window, and gave it a new access token:
    [validate] accepts the new token for the user of the session until
    twelve hours after the clock of the refresh, and does not accept the
    access token the session had before, when the two differ. *)
Theorem refresh_replaces_access_token (clock : AuthActions.Clock) (req : Auth.Request)
    (b : AuthActions.Body) (db : Auth.Store) (ans : AuthActions.Answer)
    (db' : Auth.Store) (r : string) :
  List.NoDup (map Auth.token (Auth.sessions db)) ->
  AuthActions.random32 clock <> [] ->
  AuthActions.body_refresh_token b = Some r ->
  AuthActions.serve clock AuthActions.refresh req (Some b) db = (ans, db') ->
  AuthActions.code ans = 200%Z ->
  let newToken := Auth.generateToken (AuthActions.random32 clock) in
  let expiresAt := Auth.plus12hours (AuthActions.date_issue clock) in
  exists s user,
    In s (Auth.sessions db) /\ Auth.refresh_token s = r
    /\ (AuthActions.date_now clock <= Auth.refresh_expires_at s)%Z
    /\ AuthActions.user_of db (Auth.session_user_id s) = Some user
    /\ AuthActions.reply ans = AuthActions.Refreshed newToken expiresAt
    /\ (forall (clock' : AuthActions.Clock) (req' : Auth.Request) (b' : AuthActions.Body),
          AuthActions.body_token b' = Some newToken ->
          AuthActions.serve clock' AuthActions.validate req' (Some b') db'
          = (if Auth.is_ip_blocked db' (AuthActions.now_sql clock') (Auth.getClientIP req')
             then AuthActions.ip_refused
             else AuthActions.answer 200
                    (if (AuthActions.date_now clock' <=? expiresAt)%Z
                     then AuthActions.Valid (Auth.publicUser user) expiresAt
                     else AuthActions.Invalid),
             db'))
    /\ (Auth.token s <> newToken ->
        forall (clock' : AuthActions.Clock) (req' : Auth.Request) (b' : AuthActions.Body),
          AuthActions.body_token b' = Some (Auth.token s) ->
          AuthActions.serve clock' AuthActions.validate req' (Some b') db'
          = (if Auth.is_ip_blocked db' (AuthActions.now_sql clock') (Auth.getClientIP req')
             then AuthActions.ip_refused
             else AuthActions.answer 200 AuthActions.Invalid,
             db')).
Proof.
  intros Hnd Hrandom Hb H Hcode newToken expiresAt.
  unfold AuthActions.serve in H.
  destruct (Auth.is_ip_blocked _ _ _); [injection H as <- <-; discriminate Hcode|].
  unfold AuthActions.serve_refresh, AuthActions.field in H.
  cbn [mbind option_bind] in H. rewrite Hb in H. cbn [mbind option_bind] in H.
  destruct (Str.truthy r); [|injection H as <- <-; discriminate Hcode].
  destruct (AuthActions.maybeSingle _) as [s|] eqn:Hsel;
    [|injection H as <- <-; discriminate Hcode].
  assert (Hs : In s (Auth.sessions db)
               /\ (String.eqb (Auth.refresh_token s) r
                   && (AuthActions.date_now clock <=? Auth.refresh_expires_at s)%Z) = true).
  { unfold AuthActions.maybeSingle in Hsel.
    destruct (List.filter _ _) as [|x [|y rest]] eqn:Hrows; try discriminate.
    injection Hsel as ->.
    apply (proj1 (List.filter_In
                    (fun x => String.eqb (Auth.refresh_token x) r
                              && (AuthActions.date_now clock <=? Auth.refresh_expires_at x)%Z)
                    s (Auth.sessions db))).
    rewrite Hrows. left. reflexivity. }
  destruct Hs as [Hin Hs]. apply andb_true_iff in Hs as [Hr Hwindow].
  apply String.eqb_eq in Hr. apply Z.leb_le in Hwindow.
  unfold AuthActions.update_by_refresh_token in H. fold newToken expiresAt in H.
  destruct (AuthActions.distinct _) eqn:Hdistinct;
    [|injection H as <- <-; discriminate Hcode].
  apply distinct_NoDup in Hdistinct.
  unfold AuthActions.user_of in H at 1. cbn [Auth.users AuthActions.with_sessions] in H.
  destruct (find _ (Auth.users db)) as [user|] eqn:Huser;
    [|injection H as <- <-; discriminate Hcode].
  injection H as <- <-. exists s, user.
  split; [exact Hin|]. split; [exact Hr|]. split; [exact Hwindow|].
  split; [exact Huser|]. split; [reflexivity|]. split.
  - intros clock' req' b' Hb'. unfold AuthActions.serve.
    destruct (Auth.is_ip_blocked _ _ _); [reflexivity|].
    unfold AuthActions.serve_validate, AuthActions.field.
    cbn [mbind option_bind]. rewrite Hb'. cbn [mbind option_bind].
    assert (Htruthy : Str.truthy newToken = true) by (apply hex_truthy, Hrandom).
    rewrite Htruthy.
    cbn [Auth.sessions AuthActions.with_sessions].
    rewrite (unique_token_filter _ (AuthActions.set_access_token newToken expiresAt s)
               newToken _ Hdistinct); [| |reflexivity].
    + cbn [Auth.expires_at AuthActions.set_access_token].
      destruct (AuthActions.date_now clock' <=? expiresAt)%Z; [|reflexivity].
      cbn [AuthActions.maybeSingle Auth.session_user_id AuthActions.set_access_token].
      unfold AuthActions.user_of. cbn [Auth.users AuthActions.with_sessions].
      rewrite Huser. reflexivity.
    + apply in_map_iff. exists s. split; [|exact Hin].
      rewrite Hr, String.eqb_refl. reflexivity.
  - intros Hold clock' req' b' Hb'.
    apply (unknown_token _ (Auth.token s) b' clock' req'); [|exact Hb'].
    cbn [Auth.sessions AuthActions.with_sessions].
    apply updated_old_token_absent; assumption.
Qed.

Lemma refresh_replaces_access_token_witness :
  AuthActions.serve Examples.sample_clock AuthActions.validate Examples.good_request
    (Some (Examples.token_body "0708"))
    (snd (AuthActions.serve Examples.early_clock AuthActions.refresh Examples.good_request
            (Some (Examples.refresh_body "bb")) Examples.quiet_store))
  = (AuthActions.answer 200
       (AuthActions.Valid (Auth.publicUser Examples.bob) (400002 + 12 * 60 * 60 * 1000)),
     snd (AuthActions.serve Examples.early_clock AuthActions.refresh Examples.good_request
            (Some (Examples.refresh_body "bb")) Examples.quiet_store))
  /\ AuthActions.serve Examples.sample_clock AuthActions.validate Examples.good_request
       (Some (Examples.token_body "aa"))
       (snd (AuthActions.serve Examples.early_clock AuthActions.refresh
               Examples.good_request (Some (Examples.refresh_body "bb"))
               Examples.quiet_store))
     = (AuthActions.answer 200 AuthActions.Invalid,
        snd (AuthActions.serve Examples.early_clock AuthActions.refresh
               Examples.good_request (Some (Examples.refresh_body "bb"))
               Examples.quiet_store)).
Proof.
  destruct (refresh_replaces_access_token Examples.early_clock Examples.good_request
              (Examples.refresh_body "bb") Examples.quiet_store _ _ "bb"
              ltac:(repeat constructor; intros [])
              ltac:(discriminate) eq_refl
              (surjective_pairing _) ltac:(vm_compute; reflexivity))
    as (s & user & Hs & _ & _ & Huser & _ & Hnew & Hold).
  destruct Hs as [<-|[]]. injection Huser as <-.
  split.
  - exact (Hnew Examples.sample_clock Examples.good_request (Examples.token_body "0708")
             eq_refl).
  - exact (Hold ltac:(discriminate) Examples.sample_clock Examples.good_request
             (Examples.token_body "aa") eq_refl).
Defined.

(** X4.  A refresh writes no refresh token and no refresh expiry: whatever it
    answers, the sessions keep both, and a refresh token is refused at any
    time that is later than the refresh expiry of the sessions that had it
    before, with the store as it was. *)
Theorem refresh_keeps_refresh_window (clock : AuthActions.Clock) (req : Auth.Request)
    (b : option AuthActions.Body) (db : Auth.Store) :
  let db' := snd (AuthActions.serve clock AuthActions.refresh req b db) in
  map Auth.refresh_token (Auth.sessions db') = map Auth.refresh_token (Auth.sessions db)
  /\ map Auth.refresh_expires_at (Auth.sessions db')
     = map Auth.refresh_expires_at (Auth.sessions db)
  /\ forall (clock' : AuthActions.Clock) (req' : Auth.Request) (b' : AuthActions.Body)
            (r : string),
       AuthActions.body_refresh_token b' = Some r ->
       (forall s, In s (Auth.sessions db) -> Auth.refresh_token s = r ->
                  (Auth.refresh_expires_at s < AuthActions.date_now clock')%Z) ->
       AuthActions.code (fst (AuthActions.serve clock' AuthActions.refresh req' (Some b') db'))
       <> 200%Z
       /\ snd (AuthActions.serve clock' AuthActions.refresh req' (Some b') db') = db'.
Proof.
  intros db'.
  destruct (serve_refresh_sessions clock req b db) as (_ & _ & upd & Hses & Hupd).
  fold db' in Hses. split; [|split].
  - rewrite Hses, List.map_map. apply List.map_ext. intros x. apply Hupd.
  - rewrite Hses, List.map_map. apply List.map_ext. intros x. apply Hupd.
  - intros clock' req' b' r Hb' Hlate. unfold AuthActions.serve.
    destruct (Auth.is_ip_blocked _ _ _); [split; [discriminate|reflexivity]|].
    unfold AuthActions.serve_refresh, AuthActions.field.
    cbn [mbind option_bind]. rewrite Hb'. cbn [mbind option_bind].
    destruct (Str.truthy r); [|split; [discriminate|reflexivity]].
    assert (Hnone : List.filter
                      (fun s => String.eqb (Auth.refresh_token s) r
                                && (AuthActions.date_now clock' <=? Auth.refresh_expires_at s)%Z)
                      (Auth.sessions db') = []).
    { rewrite Hses. clear Hses. induction (Auth.sessions db) as [|x l IH]; [reflexivity|].
      cbn [map List.filter]. destruct (Hupd x) as (-> & -> & _).
      destruct (String.eqb_spec (Auth.refresh_token x) r) as [E|_]; cbn [andb].
      - destruct (Z.leb_spec (AuthActions.date_now clock') (Auth.refresh_expires_at x))
          as [Hle|_].
        + specialize (Hlate x (or_introl eq_refl) E). lia.
        + apply IH. intros s Hs. apply Hlate. right. exact Hs.
      - apply IH. intros s Hs. apply Hlate. right. exact Hs. }
    rewrite Hnone. split; [discriminate|reflexivity].
Qed.

(** ** The blacklist of addresses *)

Section BlacklistProofs.
Import Auth AuthActions.

Lemma delete_is_ip_blocked (db : Store) (ip : string) (t : Z) (check : string) :
  is_ip_blocked (delete_blacklist db ip) t check
  = if String.eqb check ip then false else is_ip_blocked db t check.
Proof.
  unfold is_ip_blocked, delete_blacklist. cbn [ip_rules with_ip_rules].
  induction (ip_rules db) as [|r l IH].
  - destruct (String.eqb check ip); reflexivity.
  - cbn [List.filter existsb].
    destruct (String.eqb_spec (rule_ip_address r) ip) as [Hr|Hr];
      destruct (isBlacklist (rule_type r)) eqn:Hb; cbn [andb negb existsb];
      rewrite ?Hb, IH;
      destruct (String.eqb_spec check ip) as [Hc|Hc];
      destruct (String.eqb_spec (rule_ip_address r) check) as [E|E];
      cbn [andb orb]; try reflexivity; congruence.
Qed.

Lemma upsert_is_ip_blocked (db : Store) (ip : string) (e : option Z) (t : Z)
    (check : string) :
  is_ip_blocked (upsert_blacklist db ip e) t check
  = if String.eqb check ip
    then match e with None => true | Some x => (t <? x)%Z end
    else is_ip_blocked db t check.
Proof.
  unfold is_ip_blocked, upsert_blacklist. cbn [ip_rules with_ip_rules].
  set (v := match e with None => true | Some x => (t <? x)%Z end).
  set (hit := fun r => String.eqb (rule_ip_address r) ip && isBlacklist (rule_type r)).
  set (P := fun r => String.eqb (rule_ip_address r) check && isBlacklist (rule_type r)
                     && match rule_expires_at r with
                        | None => true
                        | Some x => (t <? x)%Z
                        end).
  set (row := {| rule_ip_address := ip; rule_type := blacklist; rule_expires_at := e |}).
  assert (Hrow : P row = String.eqb ip check && v)
    by (unfold P, row; cbn [rule_ip_address rule_type rule_expires_at isBlacklist];
        rewrite andb_true_r; reflexivity).
  destruct (String.eqb_spec check ip) as [->|Hne].
  - assert (Hmiss : forall l, existsb hit l = false -> existsb P l = false).
    { induction l as [|r l IH]; [reflexivity|]. cbn [existsb]. intros H.
      apply orb_false_iff in H as [Hr Hl]. rewrite (IH Hl), orb_false_r.
      unfold P. fold (hit r). rewrite Hr. reflexivity. }
    assert (Hmap : forall l, existsb P (map (fun r => if hit r then row else r) l)
                             = existsb hit l && v).
    { induction l as [|r l IH]; [reflexivity|]. cbn [map existsb]. rewrite IH.
      destruct (hit r) eqn:Hr; cbn [orb andb].
      - rewrite Hrow, String.eqb_refl. cbn [andb].
        destruct v; [reflexivity|apply andb_false_r].
      - unfold P at 1. fold (hit r). rewrite Hr. reflexivity. }
    destruct (existsb hit (ip_rules db)) eqn:Hex.
    + rewrite Hmap, Hex. reflexivity.
    + rewrite existsb_app, (Hmiss _ Hex). cbn [existsb orb].
      rewrite Hrow, String.eqb_refl, orb_false_r. reflexivity.
  - assert (Hrow' : P row = false).
    { rewrite Hrow. destruct (String.eqb_spec ip check); [congruence|reflexivity]. }
    assert (Hmap : forall l, existsb P (map (fun r => if hit r then row else r) l)
                             = existsb P l).
    { induction l as [|r l IH]; [reflexivity|]. cbn [map existsb].
      rewrite IH. destruct (hit r) eqn:Hr; [|reflexivity].
      rewrite Hrow'. f_equal. unfold P. unfold hit in Hr.
      apply andb_true_iff in Hr as [Hr _]. apply String.eqb_eq in Hr.
      destruct (String.eqb_spec (rule_ip_address r) check); [congruence|reflexivity]. }
    destruct (existsb hit (ip_rules db)).
    + apply Hmap.
    + rewrite existsb_app. cbn [existsb]. rewrite Hrow', !orb_false_r. reflexivity.
Qed.

Lemma admin_has_session (db : Store) (now : Z) (t : option string) :
  get_user_role_from_token db now t = Some admin ->
  exists s u, live_session db now t = Some s
              /\ user_of db (session_user_id s) = Some u /\ role u = admin
              /\ (now < expires_at s)%Z.
Proof.
  unfold get_user_role_from_token. intros H.
  destruct (live_session db now t) as [s|] eqn:Hs; [|discriminate].
  cbn [mbind option_bind] in H.
  destruct (user_of db (session_user_id s)) as [u|] eqn:Hu; [|discriminate].
  cbn [mbind option_bind] in H. injection H as H.
  exists s, u. repeat (split; [reflexivity || assumption|]).
  unfold live_session in Hs. destruct t as [t|]; [|discriminate].
  cbn [mbind option_bind] in Hs. apply find_some in Hs as [_ Hs].
  apply andb_true_iff in Hs as [_ Hs]. apply Z.ltb_lt, Hs.
Qed.

End BlacklistProofs.

(** X5.  A [block-ip] that is answered 200 leaves one rule for the address it
    names, with the expiry of the request: the address is blocked until
    that expiry, or for good without one, whatever rule it had before,
    and no other address is affected.  While the address is blocked, a
    [login], [logout], [refresh], [validate], [hash-password], [block-ip]
    or [unblock-ip] requested from it, the lifting of the block by an
    administrator included, is answered 403 and writes nothing.  (The two
    actions that list rows for an administrator, and the answer to an
    unknown action, are not among the actions modelled here.) *)
Theorem block_ip_refuses_address (deriveBits : string -> string -> Z -> list byte)
    (clock : AuthActions.Clock) (req : Auth.Request) (b : AuthActions.Body)
    (db : Auth.Store) (ans : AuthActions.Answer) (db' : Auth.Store) :
  AuthActions.serve clock AuthActions.block_ip req (Some b) db = (ans, db') ->
  AuthActions.code ans = 200%Z ->
  exists e,
    AuthActions.block_expiry clock b = Some e
    /\ (forall (t : Z) (ip : string),
          Auth.is_ip_blocked db' t ip
          = if String.eqb ip (AuthActions.targetIP b)
            then match e with None => true | Some x => (t <? x)%Z end
            else Auth.is_ip_blocked db t ip)
    /\ (forall (clock' : AuthActions.Clock) (action : AuthActions.Action)
               (req' : Auth.Request) (json : option AuthActions.Body),
          Auth.getClientIP req' = AuthActions.targetIP b ->
          match e with None => True | Some x => (AuthActions.now_sql clock' < x)%Z end ->
          AuthActions.serve clock' action req' json db' = (AuthActions.ip_refused, db'))
    /\ (forall (env' : Auth.Env) (req' : Auth.Request),
          Auth.getClientIP req' = AuthActions.targetIP b ->
          match e with None => True | Some x => (Auth.sql_now env' < x)%Z end ->
          Auth.serve_login deriveBits env' req' db'
          = (Auth.respond 403 "Bu IP manzildan kirish bloklangan", db',
             [Auth.RpcIsIpBlocked (AuthActions.targetIP b)]))
    /\ (forall (random16 : list byte) (req' : Auth.Request)
               (json : option AuthActions.Body) (now : Z),
          Auth.getClientIP req' = AuthActions.targetIP b ->
          match e with None => True | Some x => (now < x)%Z end ->
          AuthActions.serve_hash_password deriveBits random16 req' json now db'
          = (AuthActions.ip_refused, db')).
Proof.
  intros H Hcode. unfold AuthActions.serve in H.
  destruct (Auth.is_ip_blocked _ _ _); [injection H as <- <-; discriminate Hcode|].
  unfold AuthActions.serve_ip_rule in H.
  destruct (AuthActions.get_user_role_from_token _ _ _) as [[| |]|];
    try (injection H as <- <-; discriminate Hcode).
  destruct (AuthActions.block_expiry clock b) as [e|];
    [|injection H as <- <-; discriminate Hcode].
  injection H as <- <-. exists e. split; [reflexivity|].
  assert (Hblocked : forall (t : Z) (ip : string),
             Auth.is_ip_blocked
               (Auth.insert_activity_log
                  (AuthActions.upsert_blacklist db (AuthActions.targetIP b) e)
                  {| Auth.log_user_id :=
                       default EmptyString
                         (AuthActions.get_user_id_from_token db (AuthActions.now_sql clock)
                            (AuthActions.body_token b));
                     Auth.log_action := "ip_blocked"; Auth.log_reason := None;
                     Auth.log_ip_address := Some (Auth.getClientIP req) |}) t ip
             = if String.eqb ip (AuthActions.targetIP b)
               then match e with None => true | Some x => (t <? x)%Z end
               else Auth.is_ip_blocked db t ip).
  { intros t ip. rewrite <- upsert_is_ip_blocked. reflexivity. }
  assert (Hnow : forall t : Z,
             match e with None => True | Some x => (t < x)%Z end ->
             match e with None => true | Some x => (t <? x)%Z end = true).
  { intros t. destruct e as [x|]; [|reflexivity]. intros Ht. apply Z.ltb_lt, Ht. }
  split; [exact Hblocked|]. split; [|split].
  - intros clock' action req' json Hip Ht. unfold AuthActions.serve.
    rewrite Hblocked, Hip, String.eqb_refl, (Hnow _ Ht). reflexivity.
  - intros env' req' Hip Ht. unfold Auth.serve_login. cbv zeta.
    rewrite Hblocked, Hip, String.eqb_refl, (Hnow _ Ht). reflexivity.
  - intros random16 req' json now Hip Ht. unfold AuthActions.serve_hash_password.
    rewrite Hblocked, Hip, String.eqb_refl, (Hnow _ Ht). reflexivity.
Qed.

Lemma block_ip_refuses_address_witness :
  AuthActions.serve Examples.early_clock AuthActions.unblock_ip Examples.good_request
    (Some (Examples.address_body "cc" "10.0.0.1" None))
    (snd (AuthActions.serve Examples.early_clock AuthActions.block_ip Examples.good_request
            (Some (Examples.address_body "cc" "10.0.0.1" None)) Examples.guarded_store))
  = (AuthActions.ip_refused,
     snd (AuthActions.serve Examples.early_clock AuthActions.block_ip Examples.good_request
            (Some (Examples.address_body "cc" "10.0.0.1" None)) Examples.guarded_store)).
Proof.
  destruct (block_ip_refuses_address Examples.sample_deriveBits Examples.early_clock
              Examples.good_request (Examples.address_body "cc" "10.0.0.1" None)
              Examples.guarded_store _ _ (surjective_pairing _)
              ltac:(vm_compute; reflexivity))
    as (e & He & _ & Hserve & _).
  injection He as <-.
  exact (Hserve Examples.early_clock AuthActions.unblock_ip Examples.good_request
           (Some (Examples.address_body "cc" "10.0.0.1" None)) eq_refl I).
Defined.

(** X6.  An [unblock-ip] that is answered 200 lifts the block of the address
    it names, at every time, and changes the block of no other address. *)
Theorem unblock_ip_lifts_block (clock : AuthActions.Clock) (req : Auth.Request)
    (b : AuthActions.Body) (db : Auth.Store) (ans : AuthActions.Answer)
    (db' : Auth.Store) :
  AuthActions.serve clock AuthActions.unblock_ip req (Some b) db = (ans, db') ->
  AuthActions.code ans = 200%Z ->
  forall (t : Z) (ip : string),
    Auth.is_ip_blocked db' t ip
    = if String.eqb ip (AuthActions.targetIP b) then false
      else Auth.is_ip_blocked db t ip.
Proof.
  intros H Hcode t ip. unfold AuthActions.serve in H.
  destruct (Auth.is_ip_blocked _ _ _); [injection H as <- <-; discriminate Hcode|].
  unfold AuthActions.serve_ip_rule in H.
  destruct (AuthActions.get_user_role_from_token _ _ _) as [[| |]|];
    try (injection H as <- <-; discriminate Hcode).
  injection H as <- <-. rewrite <- delete_is_ip_blocked. reflexivity.
Qed.

Lemma unblock_ip_lifts_block_witness :
  Auth.is_ip_blocked Examples.guarded_store 1800000 "10.0.0.9" = true
  /\ Auth.is_ip_blocked
       (snd (AuthActions.serve Examples.early_clock AuthActions.unblock_ip
               Examples.good_request (Some (Examples.address_body "cc" "10.0.0.9" None))
               Examples.guarded_store))
       1800000 "10.0.0.9"
     = false.
Proof.
  split; [reflexivity|].
  exact (unblock_ip_lifts_block Examples.early_clock Examples.good_request
           (Examples.address_body "cc" "10.0.0.9" None) Examples.guarded_store _ _
           (surjective_pairing _) ltac:(vm_compute; reflexivity) 1800000%Z "10.0.0.9").
Defined.

(** X7.  None of the actions writes a rule of the blacklist, except [block-ip]
    and [unblock-ip] requested from an address that is not blocked with
    the token of a session that has not expired and belongs to an
    administrator. *)
Theorem blacklist_written_by_admin_only (clock : AuthActions.Clock)
    (action : AuthActions.Action) (req : Auth.Request)
    (json : option AuthActions.Body) (db : Auth.Store) :
  Auth.ip_rules (snd (AuthActions.serve clock action req json db)) <> Auth.ip_rules db ->
  (action = AuthActions.block_ip \/ action = AuthActions.unblock_ip)
  /\ Auth.is_ip_blocked db (AuthActions.now_sql clock) (Auth.getClientIP req) = false
  /\ exists b s u,
       json = Some b
       /\ AuthActions.live_session db (AuthActions.now_sql clock) (AuthActions.body_token b)
          = Some s
       /\ (AuthActions.now_sql clock < Auth.expires_at s)%Z
       /\ AuthActions.user_of db (Auth.session_user_id s) = Some u
       /\ Auth.role u = Auth.admin.
Proof.
  unfold AuthActions.serve. intros H.
  destruct (Auth.is_ip_blocked _ _ _); [contradiction H; reflexivity|].
  assert (Hrule : forall block,
             Auth.ip_rules
               (snd (AuthActions.serve_ip_rule block clock (Auth.getClientIP req) json db))
             <> Auth.ip_rules db ->
             exists b s u,
               json = Some b
               /\ AuthActions.live_session db (AuthActions.now_sql clock)
                    (AuthActions.body_token b) = Some s
               /\ (AuthActions.now_sql clock < Auth.expires_at s)%Z
               /\ AuthActions.user_of db (Auth.session_user_id s) = Some u
               /\ Auth.role u = Auth.admin).
  { intros block Hb. unfold AuthActions.serve_ip_rule in Hb.
    destruct json as [b|]; [|contradiction Hb; reflexivity].
    destruct (AuthActions.get_user_role_from_token _ _ _) as [[| |]|] eqn:Hrole;
      try (contradiction Hb; reflexivity).
    apply admin_has_session in Hrole as (s & u & Hs & Hu & Hadmin & Hlive).
    exists b, s, u. repeat (split; [reflexivity || assumption|]). exact Hadmin. }
  destruct action.
  - contradiction H. unfold AuthActions.serve_logout.
    repeat match goal with
           | |- context [match ?x with _ => _ end] => destruct x
           end; reflexivity.
  - contradiction H. unfold AuthActions.serve_refresh, AuthActions.update_by_refresh_token.
    repeat match goal with
           | |- context [if ?c then _ else _] => destruct c
           | |- context [match ?x with _ => _ end] => destruct x
           end; reflexivity.
  - contradiction H. unfold AuthActions.serve_validate.
    repeat match goal with
           | |- context [match ?x with _ => _ end] => destruct x
           end; reflexivity.
  - split; [left; reflexivity|]. split; [reflexivity|]. apply (Hrule true), H.
  - split; [right; reflexivity|]. split; [reflexivity|]. apply (Hrule false), H.
Qed.

Lemma blacklist_written_by_admin_only_witness :
  exists s u,
    AuthActions.live_session Examples.guarded_store 400000 (Some "cc"%string) = Some s
    /\ AuthActions.user_of Examples.guarded_store (Auth.session_user_id s) = Some u
    /\ Auth.role u = Auth.admin.
Proof.
  destruct (blacklist_written_by_admin_only Examples.early_clock AuthActions.unblock_ip
              Examples.good_request (Some (Examples.address_body "cc" "10.0.0.9" None))
              Examples.guarded_store ltac:(vm_compute; discriminate))
    as (_ & _ & b & s & u & Hb & Hs & _ & Hu & Hadmin).
  injection Hb as <-. exists s, u. repeat split; assumption.
Defined.

(** ** Failed logins *)

Section AttemptProofs.
Import Auth.

Variable deriveBits : string -> string -> Z -> list byte.

(** The attempts a login leaves: those there were, or those after the
    recording of this one; a login answered 401 has recorded a failure. *)
Lemma serve_login_attempts (env : Env) (req : Request) (db : Store)
    (resp : Response) (db' : Store) (trace : list Event) :
  serve_login deriveBits env req db = (resp, db', trace) ->
  (status resp = 401%Z ->
   resp = respond 401 "Login yoki parol noto'g'ri"
   /\ users db' = users db /\ sessions db' = sessions db
   /\ login_attempts db'
      = login_attempts
          (record_login_attempt db (sql_now env) (Spec.submitted_login req)
             (getClientIP req) (default EmptyString (user_agent req)) false))
  /\ (login_attempts db' = login_attempts db
      \/ exists ok,
           login_attempts db'
           = login_attempts
               (record_login_attempt db (sql_now env) (Spec.submitted_login req)
                  (getClientIP req) (default EmptyString (user_agent req)) ok)).
Proof.
  unfold serve_login, device_gate, issue_session, insert_session, Spec.submitted_login.
  cbv zeta. intros H.
  destruct (is_ip_blocked _ _ _); [close_run H; split; [discriminate|left; reflexivity]|].
  destruct (body req) as [b|]; [|close_run H; split; [discriminate|left; reflexivity]].
  cbn [mbind option_bind].
  split_run H; try discriminate; close_run H;
    (split; [try discriminate; intros _; repeat split
            |first [left; reflexivity | right; eexists; reflexivity]]).
Qed.

(** The failures counted at [now] that the pruning at an earlier time
    leaves are all of them. *)
Lemma recorded_failures (db : Store) (t now : Z) (l ip ua check_login check_ip : string)
    (ok : bool) :
  (t <= now)%Z ->
  Spec.recent_failures (record_login_attempt db t l ip ua ok) now check_login check_ip
  = (Spec.recent_failures db now check_login check_ip
     + if counts_against now check_login check_ip
            {| attempt_login := l; attempt_ip_address := Some ip;
               attempt_user_agent := Some ua; attempt_success := ok;
               attempt_created_at := t |}
       then 1 else 0)%nat.
Proof.
  intros Ht. unfold Spec.recent_failures, record_login_attempt. cbn [login_attempts].
  set (row := {| attempt_login := l; attempt_ip_address := Some ip;
                 attempt_user_agent := Some ua; attempt_success := ok;
                 attempt_created_at := t |}).
  assert (Hkept : forall rows,
             List.filter (counts_against now check_login check_ip)
               (List.filter (fun a => negb (attempt_created_at a <? t - hours24)%Z) rows)
             = List.filter (counts_against now check_login check_ip) rows).
  { induction rows as [|a rows IH]; [reflexivity|]. cbn [List.filter].
    destruct (attempt_created_at a <? t - hours24)%Z eqn:Hold; cbn [negb].
    - destruct (counts_against now check_login check_ip a) eqn:Hc; [|exact IH].
      exfalso. unfold counts_against in Hc. apply andb_true_iff in Hc as [_ Hc].
      apply Z.ltb_lt in Hc, Hold. unfold minutes15, hours24 in *. lia.
    - cbn [List.filter]. rewrite IH. reflexivity. }
  rewrite Hkept, List.filter_app, length_app. cbn [List.filter].
  destruct (counts_against now check_login check_ip row); reflexivity.
Qed.

Lemma serve_logins_failures (rs : list (Env * Request)) (db : Store) (now : Z)
    (l ip : string) :
  List.Forall (fun r => Spec.submitted_login (snd r) = l
                        /\ (now - minutes15 < sql_now (fst r) <= now)%Z) rs ->
  List.Forall (fun resp => status resp = 401%Z) (fst (Runs.serve_logins deriveBits rs db)) ->
  Spec.recent_failures (snd (Runs.serve_logins deriveBits rs db)) now l ip
  = (Spec.recent_failures db now l ip + length rs)%nat.
Proof.
  revert db. induction rs as [|[e r] rs IH]; intros db Hrs Hresps.
  - cbn. lia.
  - cbn [Runs.serve_logins] in *.
    destruct (serve_login deriveBits e r db) as [[resp db1] tr] eqn:Hrun.
    specialize (IH db1).
    destruct (Runs.serve_logins deriveBits rs db1) as [resps db2].
    cbn [fst snd] in *.
    apply List.Forall_cons_iff in Hrs as [[Hl Ht] Hrs].
    apply List.Forall_cons_iff in Hresps as [Hresp Hresps].
    cbn [fst snd] in Hl, Ht.
    rewrite (IH Hrs Hresps). cbn [length].
    destruct (serve_login_attempts _ _ _ _ _ _ Hrun) as [Hfailed _].
    destruct (Hfailed Hresp) as (_ & _ & _ & Hattempts).
    assert (Hcount : Spec.recent_failures db1 now l ip
                     = (Spec.recent_failures db now l ip + 1)%nat).
    { unfold Spec.recent_failures at 1. rewrite Hattempts.
      fold (Spec.recent_failures
              (record_login_attempt db (sql_now e) (Spec.submitted_login r)
                 (getClientIP r) (default EmptyString (user_agent r)) false) now l ip).
      rewrite recorded_failures by lia.
      unfold counts_against. cbn [attempt_login attempt_success attempt_created_at].
      rewrite Hl, String.eqb_refl.
      replace (now - minutes15 <? sql_now e)%Z with true
        by (symmetry; apply Z.ltb_lt; lia).
      reflexivity. }
    rewrite Hcount. lia.
Qed.

End AttemptProofs.

(** X8.  Five logins answered 401 for the same login within 15 minutes lock
    that login: the next request for it that comes as far as the rate
    limit is answered 429 with the store as it was, before its
    credentials are looked at, whatever the password and the address. *)
Theorem five_failures_lock_the_login (deriveBits : string -> string -> Z -> list byte)
    (rs : list (Auth.Env * Auth.Request)) (db : Auth.Store)
    (env : Auth.Env) (req : Auth.Request) :
  5 <= length rs ->
  List.Forall
    (fun r => Spec.submitted_login (snd r) = Spec.submitted_login req
              /\ (Auth.sql_now env - Auth.minutes15 < Auth.sql_now (fst r)
                  <= Auth.sql_now env)%Z) rs ->
  List.Forall (fun resp => Auth.status resp = 401%Z)
    (fst (Runs.serve_logins deriveBits rs db)) ->
  Spec.reaches_rate_limit env req (snd (Runs.serve_logins deriveBits rs db)) = true ->
  Auth.serve_login deriveBits env req (snd (Runs.serve_logins deriveBits rs db))
  = (Auth.respond 429
       "Juda ko'p noto'g'ri urinish. 15 daqiqadan so'ng qayta urinib ko'ring.",
     snd (Runs.serve_logins deriveBits rs db),
     [Auth.RpcIsIpBlocked (Auth.getClientIP req); Auth.ReadBody;
      Auth.CsrfComparison true;
      Auth.RpcIsLoginRateLimited (Spec.submitted_login req) (Auth.getClientIP req)]).
Proof.
  intros Hfive Hrs Hresps Hreach.
  pose proof (serve_logins_failures deriveBits rs db (Auth.sql_now env)
                (Spec.submitted_login req) (Auth.getClientIP req) Hrs Hresps) as Hcount.
  set (db' := snd (Runs.serve_logins deriveBits rs db)) in *.
  assert (Hlimited : Auth.is_login_rate_limited db' (Auth.sql_now env)
                       (Spec.submitted_login req) (Auth.getClientIP req) = true).
  { apply Nat.leb_le. unfold Spec.recent_failures in Hcount. rewrite Hcount. lia. }
  unfold Spec.reaches_rate_limit, Spec.csrf_tokens_match in Hreach.
  unfold Spec.submitted_login, Spec.submitted_password in *.
  unfold Auth.serve_login. cbv zeta.
  destruct (Auth.is_ip_blocked _ _ _); [discriminate Hreach|].
  destruct (Auth.body req) as [b|]; [|discriminate Hreach].
  cbn [mbind option_bind negb andb] in *.
  destruct (Auth.validateCSRFToken _ _); [|discriminate Hreach].
  destruct (Str.truthy (Auth.sanitizeInput (Auth.login b))); [|discriminate Hreach].
  destruct (Str.truthy (Auth.sanitizeInput (Auth.password b))); [|discriminate Hreach].
  cbn [negb orb]. rewrite Hlimited. reflexivity.
Qed.

Lemma five_failures_lock_the_login_witness :
  Auth.status
    (fst (fst (Auth.serve_login Examples.sample_deriveBits Examples.sample_env
                 Examples.good_request
                 (snd (Runs.serve_logins Examples.sample_deriveBits
                         (repeat (Examples.sample_env, Examples.mistaken_request) 5)
                         Examples.quiet_store)))))
  = 429%Z
  /\ Auth.status
       (fst (fst (Auth.serve_login Examples.sample_deriveBits Examples.sample_env
                    Examples.good_request Examples.quiet_store)))
     = 200%Z.
Proof.
  split; [|vm_compute; reflexivity].
  rewrite (five_failures_lock_the_login Examples.sample_deriveBits
             (repeat (Examples.sample_env, Examples.mistaken_request) 5)
             Examples.quiet_store Examples.sample_env Examples.good_request
             ltac:(cbn; lia)
             ltac:(repeat constructor; cbn; unfold Auth.minutes15; lia)
             ltac:(repeat constructor)
             ltac:(vm_compute; reflexivity)).
  reflexivity.
Defined.

(** X9.  A login answered 401 tells nothing of its cause: the answer is the
    same for a login that does not exist and for a wrong password.  It
    writes no user and no session, and it leaves its failed attempt as the
    last row of the attempts, after the rows of the last 24 hours. *)
Theorem failed_login_is_recorded (deriveBits : string -> string -> Z -> list byte)
    (env : Auth.Env) (req : Auth.Request) (db : Auth.Store)
    (resp : Auth.Response) (db' : Auth.Store) (trace : list Auth.Event) :
  Auth.serve_login deriveBits env req db = (resp, db', trace) ->
  Auth.status resp = 401%Z ->
  resp = Auth.respond 401 "Login yoki parol noto'g'ri"
  /\ Auth.users db' = Auth.users db
  /\ Auth.sessions db' = Auth.sessions db
  /\ Auth.ip_rules db' = Auth.ip_rules db
  /\ Auth.login_attempts db'
     = List.filter
         (fun a => negb (Auth.attempt_created_at a <? Auth.sql_now env - Auth.hours24)%Z)
         (Auth.login_attempts db)
       ++ [{| Auth.attempt_login := Spec.submitted_login req;
              Auth.attempt_ip_address := Some (Auth.getClientIP req);
              Auth.attempt_user_agent := Some (default EmptyString (Auth.user_agent req));
              Auth.attempt_success := false;
              Auth.attempt_created_at := Auth.sql_now env |}].
Proof.
  intros H Hs.
  destruct (serve_login_attempts deriveBits _ _ _ _ _ _ H) as [Hfailed _].
  destruct (Hfailed Hs) as (Hresp & Husers & Hses & Hattempts).
  destruct (serve_login_frame deriveBits _ _ _ _ _ _ H) as [Hrules _].
  repeat (split; [assumption|]).
  rewrite Hattempts. unfold Auth.record_login_attempt. cbn [Auth.login_attempts].
  rewrite List.filter_app. cbn [List.filter Auth.attempt_created_at].
  replace (Auth.sql_now env <? Auth.sql_now env - Auth.hours24)%Z with false
    by (symmetry; apply Z.ltb_ge; unfold Auth.hours24; lia).
  reflexivity.
Qed.

Lemma failed_login_is_recorded_witness :
  Auth.login_attempts
    (snd (fst (Auth.serve_login Examples.sample_deriveBits Examples.sample_env
                 Examples.mistaken_request Examples.quiet_store)))
  = [{| Auth.attempt_login := "bob";
        Auth.attempt_ip_address := Some "10.0.0.1"%string;
        Auth.attempt_user_agent := Some "Mozilla/5.0"%string;
        Auth.attempt_success := false;
        Auth.attempt_created_at := 1500000 |}].
Proof.
  destruct (failed_login_is_recorded Examples.sample_deriveBits Examples.sample_env
              Examples.mistaken_request Examples.quiet_store _ _ _ (run_eta _)
              ltac:(vm_compute; reflexivity))
    as (_ & _ & _ & _ & Hattempts).
  exact Hattempts.
Defined.

(** ** The device of a student *)

Section DeviceProofs.
Import Auth.

Variable deriveBits : string -> string -> Z -> list byte.


(** A student whose account is bound to a device is refused from another
    one, whatever the password is. *)
Lemma bound_student_refused (env : Env) (req : Request) (db : Store)
    (resp : Response) (db' : Store) (trace : list Event) (u : User) (d : string) :
  select_active_user db (Spec.submitted_login req) = Some u ->
  role u = student ->
  device_fingerprint u = Some d -> d <> EmptyString ->
  (b ← body req; fingerprint b) <> Some d ->
  serve_login deriveBits env req db = (resp, db', trace) ->
  status resp <> 200%Z /\ sessions db' = sessions db.
Proof.
  unfold Spec.submitted_login, serve_login. cbv zeta. intros Hu Hrole Hd Hne Hfp H.
  destruct (is_ip_blocked _ _ _); [close_run H; split; [discriminate|reflexivity]|].
  destruct (body req) as [b|]; [|close_run H; split; [discriminate|reflexivity]].
  cbn [mbind option_bind] in Hu, Hfp.
  destruct (negb (validateCSRFToken _ _));
    [close_run H; split; [discriminate|reflexivity]|].
  destruct (negb _ || negb _); [close_run H; split; [discriminate|reflexivity]|].
  destruct (is_login_rate_limited _ _ _ _);
    [close_run H; split; [discriminate|reflexivity]|].
  rewrite Hu in H.
  destruct (verifyPassword _ _ _) as [[|]|];
    try (close_run H; split; [discriminate|reflexivity]).
  assert (Htruthy : Str.truthy d = true).
  { unfold Str.truthy. destruct (String.eqb_spec d EmptyString); [contradiction|reflexivity]. }
  assert (Hother : bool_decide (Some d = fingerprint b) = false).
  { apply bool_decide_eq_false_2. intros E. apply Hfp. symmetry. exact E. }
  unfold device_gate in H. rewrite Hrole, Hd, Htruthy, Hother in H.
  cbn [isStudent andb negb] in H.
  destruct (negb (Str.startsWith _ _)); close_run H; split; (discriminate || reflexivity).
Qed.


End DeviceProofs.

(** X10.  A student whose account is bound to a device cannot log in with
    another fingerprint, or with none: whatever the password is, the
    answer is not 200 and no session is deleted or created. *)
Theorem bound_student_kept_out (deriveBits : string -> string -> Z -> list byte)
    (env : Auth.Env) (req : Auth.Request) (db : Auth.Store)
    (resp : Auth.Response) (db' : Auth.Store) (trace : list Auth.Event)
    (u : Auth.User) (d : string) :
  Auth.select_active_user db (Spec.submitted_login req) = Some u ->
  Auth.role u = Auth.student ->
  Auth.device_fingerprint u = Some d -> d <> EmptyString ->
  (b ← Auth.body req; Auth.fingerprint b) <> Some d ->
  Auth.serve_login deriveBits env req db = (resp, db', trace) ->
  Auth.status resp <> 200%Z /\ Auth.sessions db' = Auth.sessions db.
Proof. apply bound_student_refused. Qed.

Lemma bound_student_kept_out_witness :
  Auth.status
    (fst (fst (Auth.serve_login Examples.sample_deriveBits Examples.sample_env
                 (Examples.login_request "carol" "secret" "fp-1")
                 Examples.school_store))) <> 200%Z
  /\ Auth.status
       (fst (fst (Auth.serve_login Examples.sample_deriveBits Examples.sample_env
                    (Examples.login_request "carol" "secret" "fp-home")
                    Examples.school_store))) = 200%Z.
Proof.
  split; [|vm_compute; reflexivity].
  apply (bound_student_kept_out Examples.sample_deriveBits Examples.sample_env
           (Examples.login_request "carol" "secret" "fp-1") Examples.school_store
           _ _ _ Examples.carol "fp-home" eq_refl eq_refl eq_refl
           ltac:(discriminate) ltac:(discriminate) (run_eta _)).
Defined.



(** ** The PIN of a lesson *)

Section PinProofs.
Import ClientAuth PinField.

Lemma string_length_append (s t : string) :
  String.length (s +:+ t) = String.length s + String.length t.
Proof.
  induction s as [|c s IH]; [reflexivity|].
  rewrite append_String. cbn [String.length]. rewrite IH. reflexivity.
Qed.

Lemma digits_append (s t : string) :
  forallb isDigit (list_ascii_of_string (s +:+ t))
  = forallb isDigit (list_ascii_of_string s) && forallb isDigit (list_ascii_of_string t).
Proof.
  induction s as [|c s IH]; [reflexivity|].
  rewrite append_String. cbn [list_ascii_of_string forallb]. rewrite IH, andb_assoc.
  reflexivity.
Qed.

Lemma digitChar_isDigit (d : Z) : (0 <= d < 10)%Z -> isDigit (digitChar d) = true.
Proof.
  intros Hd.
  assert (H : (d = 0 \/ d = 1 \/ d = 2 \/ d = 3 \/ d = 4 \/ d = 5 \/ d = 6 \/ d = 7
               \/ d = 8 \/ d = 9)%Z) by lia.
  repeat destruct H as [->|H]; try reflexivity. subst d. reflexivity.
Qed.

Lemma digitChar_value (d : Z) : (0 <= d < 10)%Z -> Str.digitValue (digitChar d) = Some d.
Proof.
  intros Hd.
  assert (H : (d = 0 \/ d = 1 \/ d = 2 \/ d = 3 \/ d = 4 \/ d = 5 \/ d = 6 \/ d = 7
               \/ d = 8 \/ d = 9)%Z) by lia.
  repeat destruct H as [->|H]; try reflexivity. subst d. reflexivity.
Qed.

Lemma toDigits_digits (fuel : nat) (n : Z) (acc : string) :
  (0 <= n)%Z ->
  forallb isDigit (list_ascii_of_string acc) = true ->
  forallb isDigit (list_ascii_of_string (toDigits fuel n acc)) = true.
Proof.
  revert n acc. induction fuel as [|fuel IH]; intros n acc Hn Hacc; [exact Hacc|].
  cbn [toDigits].
  assert (Hacc' : forallb isDigit
                    (list_ascii_of_string (String (digitChar (n mod 10)) acc)) = true).
  { cbn [list_ascii_of_string forallb]. rewrite Hacc, digitChar_isDigit; [reflexivity|].
    apply Z.mod_pos_bound. lia. }
  destruct (n <? 10)%Z; [exact Hacc'|].
  apply IH; [apply Z.div_pos; lia|exact Hacc'].
Qed.

Lemma toDigits_length (fuel k : nat) (n : Z) (acc : string) :
  (0 <= n < 10 ^ Z.of_nat (S k))%Z ->
  String.length (toDigits fuel n acc) <= S k + String.length acc.
Proof.
  revert k n acc. induction fuel as [|fuel IH]; intros k n acc Hn; [cbn; lia|].
  cbn [toDigits]. destruct (Z.ltb_spec n 10) as [_|Hbig]; [cbn [String.length]; lia|].
  destruct k as [|k]; [change (10 ^ Z.of_nat 1)%Z with 10%Z in Hn; lia|].
  specialize (IH k (n / 10)%Z (String (digitChar (n mod 10)) acc)).
  cbn [String.length] in IH.
  assert (Hdiv : (0 <= n / 10 < 10 ^ Z.of_nat (S k))%Z).
  { split; [apply Z.div_pos; lia|]. apply Z.div_lt_upper_bound; [lia|].
    replace (10 * 10 ^ Z.of_nat (S k))%Z with (10 ^ Z.of_nat (S (S k)))%Z; [lia|].
    rewrite (Nat2Z.inj_succ (S k)), Z.pow_succ_r by lia. reflexivity. }
  specialize (IH Hdiv). lia.
Qed.

Lemma repeatChar_length (c : ascii) (n : nat) : String.length (repeatChar c n) = n.
Proof. induction n as [|n IH]; [reflexivity|]. cbn. rewrite IH. reflexivity. Qed.

Lemma repeatChar_digits (c : ascii) (n : nat) :
  isDigit c = true -> forallb isDigit (list_ascii_of_string (repeatChar c n)) = true.
Proof.
  intros Hc. induction n as [|n IH]; [reflexivity|].
  cbn [repeatChar list_ascii_of_string forallb]. rewrite Hc, IH. reflexivity.
Qed.

Lemma removeNonDigits_digits (s : string) :
  forallb isDigit (list_ascii_of_string (removeNonDigits s)) = true.
Proof.
  induction s as [|c s IH]; [reflexivity|]. cbn [removeNonDigits].
  destruct (isDigit c) eqn:Hc; [|exact IH].
  cbn [list_ascii_of_string forallb]. rewrite Hc, IH. reflexivity.
Qed.

Lemma removeNonDigits_id (s : string) :
  forallb isDigit (list_ascii_of_string s) = true -> removeNonDigits s = s.
Proof.
  induction s as [|c s IH]; [reflexivity|]. cbn [list_ascii_of_string forallb].
  intros H. apply andb_true_iff in H as [Hc Hs]. cbn [removeNonDigits].
  rewrite Hc, (IH Hs). reflexivity.
Qed.

Lemma slice0_spec (n : nat) (s : string) :
  String.length (slice0 n s) = Nat.min n (String.length s)
  /\ (forallb isDigit (list_ascii_of_string s) = true ->
      forallb isDigit (list_ascii_of_string (slice0 n s)) = true)
  /\ (String.length s <= n -> slice0 n s = s).
Proof.
  revert s. induction n as [|n IH]; intros s.
  - split; [reflexivity|]. split; [reflexivity|].
    destruct s; [reflexivity|cbn; lia].
  - destruct s as [|c s]; [repeat split|].
    destruct (IH s) as (Hlen & Hdigits & Hid). cbn [slice0 String.length].
    split; [rewrite Hlen; reflexivity|]. split.
    + cbn [list_ascii_of_string forallb]. intros H.
      apply andb_true_iff in H as [-> Hs]. exact (Hdigits Hs).
    + intros Hle. rewrite Hid by lia. reflexivity.
Qed.

(** A PIN is six decimal digits. *)
Lemma generatePIN_digits (b0 b1 b2 : byte) :
  String.length (generatePIN b0 b1 b2) = 6
  /\ forallb isDigit (list_ascii_of_string (generatePIN b0 b1 b2)) = true.
Proof.
  unfold generatePIN. cbv zeta.
  set (num := (Z.lor _ _ mod 1000000)%Z).
  assert (Hnum : (0 <= num < 10 ^ Z.of_nat 6)%Z) by (apply Z.mod_pos_bound; reflexivity).
  pose proof (toDigits_length (S (Z.to_nat (Z.log2 num))) 5 num EmptyString Hnum) as Hlen.
  fold (toString num) in Hlen. cbn [String.length] in Hlen.
  unfold padStart. split.
  - rewrite string_length_append, repeatChar_length. lia.
  - rewrite digits_append, repeatChar_digits by reflexivity.
    apply toDigits_digits; [lia|reflexivity].
Qed.

Lemma handlePinSubmit_pin (calculateDistance : float -> float -> float -> float -> float)
    (env : Checkin.Env) (pinCode : string) (st : Checkin.State) (db : Checkin.Store) :
  Checkin.pin (fst (fst (Checkin.handlePinSubmit calculateDistance env pinCode st db)))
  = Checkin.pin st.
Proof.
  unfold Checkin.handlePinSubmit.
  repeat match goal with
         | |- context [if ?c then _ else _] => destruct c
         | |- context [match ?x with _ => _ end] => destruct x
         end; reflexivity.
Qed.

End PinProofs.

(** X12.  [generatePIN] gives six decimal digits, whatever the random bytes
    are; the PIN field takes such a PIN as it is and submits it. *)
Theorem generatePIN_six_digits (calculateDistance : float -> float -> float -> float -> float)
    (b0 b1 b2 : byte) (env : Checkin.Env) (st : Checkin.State) (db : Checkin.Store) :
  String.length (ClientAuth.generatePIN b0 b1 b2) = 6
  /\ forallb PinField.isDigit (list_ascii_of_string (ClientAuth.generatePIN b0 b1 b2))
     = true
  /\ PinField.handlePinChange calculateDistance env (ClientAuth.generatePIN b0 b1 b2) st db
     = Checkin.handlePinSubmit calculateDistance env (ClientAuth.generatePIN b0 b1 b2)
         (PinField.setPin (ClientAuth.generatePIN b0 b1 b2) st) db.
Proof.
  destruct (generatePIN_digits b0 b1 b2) as [Hlen Hdigits].
  split; [exact Hlen|]. split; [exact Hdigits|].
  unfold PinField.handlePinChange. cbv zeta.
  rewrite (removeNonDigits_id _ Hdigits).
  destruct (slice0_spec 6 (ClientAuth.generatePIN b0 b1 b2)) as (_ & _ & Hid).
  rewrite Hid by lia. rewrite Hlen. reflexivity.
Qed.

(** X13.  The PIN field keeps the decimal digits of what is typed, six of them
    at most.  With fewer than six digits nothing is submitted: the store
    is not read; with six, they are submitted as the PIN. *)
Theorem handlePinChange_keeps_digits
    (calculateDistance : float -> float -> float -> float -> float)
    (env : Checkin.Env) (value : string) (st : Checkin.State) (db : Checkin.Store) :
  let cleaned := PinField.slice0 6 (PinField.removeNonDigits value) in
  let run := PinField.handlePinChange calculateDistance env value st db in
  Checkin.pin (fst (fst run)) = cleaned
  /\ String.length cleaned = Nat.min 6 (String.length (PinField.removeNonDigits value))
  /\ forallb PinField.isDigit (list_ascii_of_string cleaned) = true
  /\ run = (if (6 <=? String.length (PinField.removeNonDigits value))%nat
            then Checkin.handlePinSubmit calculateDistance env cleaned
                   (PinField.setPin cleaned st) db
            else (PinField.setPin cleaned st, db, [])).
Proof.
  intros cleaned run.
  destruct (slice0_spec 6 (PinField.removeNonDigits value)) as (Hlen & Hdigits & _).
  fold cleaned in Hlen, Hdigits.
  assert (Hrun : run = (if (6 <=? String.length (PinField.removeNonDigits value))%nat
                        then Checkin.handlePinSubmit calculateDistance env cleaned
                               (PinField.setPin cleaned st) db
                        else (PinField.setPin cleaned st, db, []))).
  { unfold run, PinField.handlePinChange. cbv zeta. fold cleaned. rewrite Hlen.
    destruct (Nat.leb_spec 6 (String.length (PinField.removeNonDigits value)))
      as [Hle|Hlt].
    - rewrite Nat.min_l by exact Hle. reflexivity.
    - rewrite Nat.min_r by lia.
      destruct (Nat.eqb_spec (String.length (PinField.removeNonDigits value)) 6);
        [lia|reflexivity]. }
  split; [|split; [exact Hlen|split; [apply Hdigits, removeNonDigits_digits|exact Hrun]]].
  rewrite Hrun. destruct (6 <=? _)%nat; [|reflexivity].
  rewrite handlePinSubmit_pin. reflexivity.
Qed.

(** ** The device binding of the browser *)

Section BindingProofs.
Import ClientAuth.

Lemma fp_key_inj (a b : string) : fp_key a = fp_key b -> a = b.
Proof. unfold fp_key. intros H. cbv in H. congruence. Qed.

Lemma registered_key_inj (a b : string) : registered_key a = registered_key b -> a = b.
Proof. unfold registered_key. intros H. cbv in H. congruence. Qed.

Lemma fp_key_registered_key (a b : string) : fp_key a <> registered_key b.
Proof. unfold fp_key, registered_key. intros H. cbv in H. discriminate H. Qed.

Lemma register_fp (now : Z) (cur uid : string) (ls : Storage) :
  register now cur uid ls !! fp_key uid = Some cur.
Proof.
  unfold register, Storage in *.
  rewrite lookup_insert_ne by (intros E; symmetry in E; exact (fp_key_registered_key _ _ E)).
  apply lookup_insert_eq.
Qed.

Lemma register_registered (now : Z) (cur uid : string) (ls : Storage) :
  register now cur uid ls !! registered_key uid = Some (toString now).
Proof. unfold register, Storage in *. apply lookup_insert_eq. Qed.

Lemma register_other (now : Z) (cur uid other : string) (ls : Storage) :
  uid <> other ->
  register now cur uid ls !! fp_key other = ls !! fp_key other
  /\ register now cur uid ls !! registered_key other = ls !! registered_key other.
Proof.
  intros Hne. unfold register, Storage in *. split.
  - rewrite lookup_insert_ne by (intros E; symmetry in E; exact (fp_key_registered_key _ _ E)).
    apply lookup_insert_ne. intros E. apply Hne, fp_key_inj, E.
  - rewrite lookup_insert_ne by (intros E; apply Hne, registered_key_inj, E).
    apply lookup_insert_ne. apply fp_key_registered_key.
Qed.

End BindingProofs.

(** X14.  What [enforceDeviceBinding] answers and what it leaves in the storage.
    For an administrator and for a student the answer says whether the
    storage binds the user to this device afterwards, and a refusal
    writes nothing.  A teacher is always let in; in strict mode the
    storage binds the teacher to this device afterwards, whatever it held.
    Any other case is let in and nothing is written. *)
Theorem enforceDeviceBinding_decides (now : Z) (currentFingerprint userId userRole : string)
    (strictMode : bool) (ls : ClientAuth.Storage) :
  let run := ClientAuth.enforceDeviceBinding now currentFingerprint userId userRole
               strictMode ls in
  let ok := fst (fst run) in
  let ls' := snd (fst run) in
  (userRole = "admin"%string \/ userRole = "student"%string ->
   ok = ClientAuth.isDeviceRegistered currentFingerprint userId ls'
   /\ (ok = false -> ls' = ls /\ snd run <> []))
  /\ (userRole = "teacher"%string ->
      ok = true
      /\ (strictMode = true ->
          ClientAuth.isDeviceRegistered currentFingerprint userId ls' = true)
      /\ (strictMode = false -> ls' = ls))
  /\ (userRole <> "admin"%string -> userRole <> "student"%string ->
      userRole <> "teacher"%string -> ok = true /\ ls' = ls).
Proof.
  cbv zeta. unfold ClientAuth.isDeviceRegistered.
  assert (Hreg : forall l, bool_decide
                   (ClientAuth.register now currentFingerprint userId l
                    !! ClientAuth.fp_key userId = Some currentFingerprint) = true)
    by (intros l; apply bool_decide_eq_true_2, register_fp).
  split; [|split].
  - intros [-> | ->]; cbn [String.eqb Ascii.eqb Bool.eqb andb negb];
      unfold ClientAuth.enforceDeviceBinding, ClientAuth.checkAdminDeviceBinding;
      cbn [String.eqb Ascii.eqb Bool.eqb andb negb];
      destruct (ClientAuth.missing _);
      cbn [fst snd]; rewrite ?Hreg; try (split; [reflexivity|discriminate]);
      destruct (bool_decide (ls !! ClientAuth.fp_key userId = Some currentFingerprint))
        eqn:Hsame; cbn [negb fst snd]; rewrite ?Hsame;
      (split; [reflexivity|]); try discriminate;
      intros _; (split; [reflexivity|discriminate]).
  - intros ->. unfold ClientAuth.enforceDeviceBinding, ClientAuth.checkTeacherDeviceBinding.
    cbn [String.eqb Ascii.eqb Bool.eqb andb negb].
    destruct strictMode; cbn [andb negb fst snd].
    + destruct (ClientAuth.missing _); cbn [fst snd]; rewrite ?Hreg;
        [repeat split; discriminate|].
      destruct (bool_decide (ls !! ClientAuth.fp_key userId = Some currentFingerprint))
        eqn:Hsame; cbn [negb fst snd]; rewrite ?Hreg, ?Hsame; repeat split; discriminate.
    + repeat split. discriminate.
  - intros Ha Hs Ht. unfold ClientAuth.enforceDeviceBinding.
    destruct (String.eqb_spec userRole "admin"); [contradiction|].
    destruct (String.eqb_spec userRole "teacher"); [contradiction|].
    destruct (String.eqb_spec userRole "student"); [contradiction|].
    split; reflexivity.
Qed.

(** X15.  The first device binds an administrator or a student: once a call
    from a device with a fingerprint has found no binding in the storage,
    a call from a device with another fingerprint is refused and writes
    nothing, and after [resetDeviceBinding] that other device is let in
    and bound. *)
Theorem second_device_refused (t1 t2 t3 : Z) (f1 f2 userId userRole : string)
    (strictMode : bool) (ls : ClientAuth.Storage) :
  userRole = "admin"%string \/ userRole = "student"%string ->
  ClientAuth.missing (ls !! ClientAuth.fp_key userId) = true ->
  f1 <> EmptyString -> f2 <> f1 ->
  let ls1 := ClientAuth.register t1 f1 userId ls in
  ClientAuth.enforceDeviceBinding t1 f1 userId userRole strictMode ls = (true, ls1, [])
  /\ fst (ClientAuth.enforceDeviceBinding t2 f2 userId userRole strictMode ls1)
     = (false, ls1)
  /\ ClientAuth.enforceDeviceBinding t3 f2 userId userRole strictMode
       (ClientAuth.resetDeviceBinding userId ls1)
     = (true, ClientAuth.register t3 f2 userId (ClientAuth.resetDeviceBinding userId ls1),
        []).
Proof.
  intros Hrole Hmissing Hf1 Hf2 ls1.
  assert (Hbound : ClientAuth.missing (ls1 !! ClientAuth.fp_key userId) = false).
  { unfold ls1. rewrite register_fp. unfold ClientAuth.missing, Str.truthy.
    destruct (String.eqb_spec f1 EmptyString); [contradiction|reflexivity]. }
  assert (Hother : bool_decide (ls1 !! ClientAuth.fp_key userId = Some f2) = false).
  { apply bool_decide_eq_false_2. unfold ls1. rewrite register_fp. congruence. }
  assert (Hreset : ClientAuth.missing
                     (ClientAuth.resetDeviceBinding userId ls1 !! ClientAuth.fp_key userId)
                   = true).
  { unfold ClientAuth.resetDeviceBinding, ClientAuth.Storage in *.
    rewrite lookup_delete_ne by (intros E; symmetry in E; exact (fp_key_registered_key _ _ E)).
    rewrite lookup_delete_eq. reflexivity. }
  destruct Hrole as [-> | ->];
    unfold ClientAuth.enforceDeviceBinding, ClientAuth.checkAdminDeviceBinding;
    cbn [String.eqb Ascii.eqb Bool.eqb andb negb];
    rewrite Hmissing, Hbound, Hother, Hreset; repeat split.
Qed.

Lemma second_device_refused_witness :
  fst (ClientAuth.enforceDeviceBinding 1700000000200 "fp-2" "u-stu" "student" false
         (ClientAuth.register 1700000000100 "fp-1" "u-stu" Examples.fresh_browser))
  = (false, ClientAuth.register 1700000000100 "fp-1" "u-stu" Examples.fresh_browser).
Proof.
  destruct (second_device_refused 1700000000100 1700000000200 1700000000300
              "fp-1" "fp-2" "u-stu" "student" false Examples.fresh_browser
              (or_intror eq_refl) ltac:(vm_compute; reflexivity)
              ltac:(discriminate) ltac:(discriminate))
    as (_ & Hsecond & _).
  exact Hsecond.
Defined.

Section DeviceInfoProofs.
Import ClientAuth.

Lemma toDigits_value (fuel : nat) (n : Z) (acc : string) :
  (0 <= n < 10 ^ Z.of_nat (S fuel))%Z ->
  Str.digitsPrefix (toDigits (S fuel) n acc) None = Str.digitsPrefix acc (Some n).
Proof.
  revert n acc. induction fuel as [|fuel IH]; intros n acc Hn.
  - change (10 ^ Z.of_nat 1)%Z with 10%Z in Hn. cbn [toDigits].
    destruct (Z.ltb_spec n 10) as [_|Hbig]; [|lia].
    cbn [Str.digitsPrefix]. rewrite digitChar_value by (apply Z.mod_pos_bound; lia).
    cbn [default]. rewrite Z.mod_small by lia. reflexivity.
  - remember (S fuel) as fuel' eqn:Hfuel. cbn [toDigits].
    destruct (Z.ltb_spec n 10) as [Hsmall|Hbig].
    + cbn [Str.digitsPrefix]. rewrite digitChar_value by (apply Z.mod_pos_bound; lia).
      cbn [default]. rewrite Z.mod_small by lia. reflexivity.
    + subst fuel'. rewrite IH.
      * cbn [Str.digitsPrefix]. rewrite digitChar_value by (apply Z.mod_pos_bound; lia).
        cbn [default]. f_equal. f_equal. unfold id. pose proof (Z.div_mod n 10 ltac:(lia)). lia.
      * split; [apply Z.div_pos; lia|]. apply Z.div_lt_upper_bound; [lia|].
        replace (10 * 10 ^ Z.of_nat (S fuel))%Z with (10 ^ Z.of_nat (S (S fuel)))%Z; [lia|].
        rewrite (Nat2Z.inj_succ (S fuel)), Z.pow_succ_r by lia. reflexivity.
Qed.

Lemma toString_value (n : Z) : (0 <= n)%Z -> Str.digitsPrefix (toString n) None = Some n.
Proof.
  intros Hn. unfold toString. rewrite toDigits_value; [reflexivity|].
  split; [exact Hn|].
  destruct (Z.eq_dec n 0%Z) as [->|Hpos]; [reflexivity|].
  pose proof (Z.log2_spec n ltac:(lia)) as [_ Hlog].
  pose proof (Z.log2_nonneg n) as Hnonneg.
  rewrite Nat2Z.inj_succ, Z2Nat.id by exact Hnonneg.
  eapply Z.lt_le_trans; [exact Hlog|].
  apply Z.pow_le_mono_l. lia.
Qed.

Lemma toDigits_longer (fuel : nat) (n : Z) (acc : string) :
  String.length acc <= String.length (toDigits fuel n acc).
Proof.
  revert n acc. induction fuel as [|fuel IH]; intros n acc; [reflexivity|].
  cbn [toDigits]. destruct (n <? 10)%Z; [cbn [String.length]; lia|].
  specialize (IH (n / 10)%Z (String (digitChar (n mod 10)) acc)).
  cbn [String.length] in IH. lia.
Qed.

Lemma toString_truthy (n : Z) : Str.truthy (toString n) = true.
Proof.
  unfold toString. cbn [toDigits].
  destruct (n <? 10)%Z; [reflexivity|].
  pose proof (toDigits_longer (Z.to_nat (Z.log2 n)) (n / 10)
                (String (digitChar (n mod 10)) EmptyString)) as Hlen.
  destruct (toDigits _ _ _); [cbn in Hlen; lia|reflexivity].
Qed.

Lemma isDigit_cases (c : ascii) :
  PinField.isDigit c = true ->
  c = "0"%char \/ c = "1"%char \/ c = "2"%char \/ c = "3"%char \/ c = "4"%char
  \/ c = "5"%char \/ c = "6"%char \/ c = "7"%char \/ c = "8"%char \/ c = "9"%char.
Proof.
  destruct c as [[] [] [] [] [] [] [] []]; intros H;
    try (vm_compute in H; discriminate H); tauto.
Qed.

(** [parseInt] reads a string of decimal digits as a decimal number. *)
Lemma parseInt_digits (s : string) :
  forallb PinField.isDigit (list_ascii_of_string s) = true ->
  parseInt s = Str.digitsPrefix s None.
Proof.
  destruct s as [|c rest]; [reflexivity|].
  cbn [list_ascii_of_string forallb]. intros H. apply andb_true_iff in H as [Hc Hrest].
  apply isDigit_cases in Hc.
  repeat destruct Hc as [->|Hc]; try subst c; try reflexivity.
  destruct rest as [|c2 rest]; [reflexivity|].
  cbn [list_ascii_of_string forallb] in Hrest. apply andb_true_iff in Hrest as [Hc2 _].
  apply isDigit_cases in Hc2.
  repeat destruct Hc2 as [->|Hc2]; try subst c2; reflexivity.
Qed.

Lemma toString_digits (n : Z) :
  (0 <= n)%Z -> forallb PinField.isDigit (list_ascii_of_string (toString n)) = true.
Proof. intros Hn. apply toDigits_digits; [exact Hn|reflexivity]. Qed.

(** The storage a call of [enforceDeviceBinding] leaves. *)
Lemma enforceDeviceBinding_storage (now : Z) (cur uid userRole : string)
    (strictMode : bool) (ls : Storage) :
  snd (fst (enforceDeviceBinding now cur uid userRole strictMode ls)) = ls
  \/ snd (fst (enforceDeviceBinding now cur uid userRole strictMode ls))
     = register now cur uid ls.
Proof.
  unfold enforceDeviceBinding, checkAdminDeviceBinding, checkTeacherDeviceBinding.
  repeat match goal with
         | |- context [if ?c then _ else _] => destruct c
         end; cbn [fst snd]; auto.
Qed.

End DeviceInfoProofs.

(** X16.  The first binding of a student is what [getDeviceInfo] reports: the
    fingerprint of the device, and the time of the binding read back from
    the decimal string it was stored as. *)
Theorem first_binding_is_reported (now : Z) (currentFingerprint userId : string)
    (strictMode : bool) (ls : ClientAuth.Storage) :
  (0 <= now)%Z ->
  ClientAuth.missing (ls !! ClientAuth.fp_key userId) = true ->
  ClientAuth.getDeviceInfo userId
    (snd (fst (ClientAuth.enforceDeviceBinding now currentFingerprint userId "student"
                 strictMode ls)))
  = {| ClientAuth.info_fingerprint := Some currentFingerprint;
       ClientAuth.registeredAt := Some (Some now) |}.
Proof.
  intros Hnow Hmissing. unfold ClientAuth.enforceDeviceBinding.
  cbn [String.eqb Ascii.eqb Bool.eqb andb negb]. rewrite Hmissing. cbn [fst snd].
  unfold ClientAuth.getDeviceInfo. rewrite register_fp, register_registered.
  unfold ClientAuth.missing. rewrite toString_truthy. cbn [negb].
  change (default EmptyString (Some (ClientAuth.toString now)))
    with (ClientAuth.toString now).
  rewrite parseInt_digits by (apply toString_digits, Hnow).
  rewrite toString_value by exact Hnow. reflexivity.
Qed.

Lemma first_binding_is_reported_witness :
  ClientAuth.getDeviceInfo "u-stu"
    (snd (fst (ClientAuth.enforceDeviceBinding 1700000000100 "fp-1" "u-stu" "student"
                 false Examples.fresh_browser)))
  = {| ClientAuth.info_fingerprint := Some "fp-1"%string;
       ClientAuth.registeredAt := Some (Some 1700000000100%Z) |}.
Proof.
  apply (first_binding_is_reported 1700000000100 "fp-1" "u-stu" false
           Examples.fresh_browser ltac:(lia) ltac:(vm_compute; reflexivity)).
Defined.

(** X17.  The binding of a user is that user's own: neither a call of
    [enforceDeviceBinding] nor [resetDeviceBinding] for one user changes
    what the storage holds for another. *)
Theorem device_binding_per_user (now : Z) (currentFingerprint userId userRole : string)
    (strictMode : bool) (other fingerprint : string) (ls : ClientAuth.Storage) :
  userId <> other ->
  let ls' := snd (fst (ClientAuth.enforceDeviceBinding now currentFingerprint userId
                         userRole strictMode ls)) in
  ClientAuth.getDeviceInfo other ls' = ClientAuth.getDeviceInfo other ls
  /\ ClientAuth.isDeviceRegistered fingerprint other ls'
     = ClientAuth.isDeviceRegistered fingerprint other ls
  /\ ClientAuth.getDeviceInfo other (ClientAuth.resetDeviceBinding userId ls)
     = ClientAuth.getDeviceInfo other ls
  /\ ClientAuth.isDeviceRegistered fingerprint other
       (ClientAuth.resetDeviceBinding userId ls)
     = ClientAuth.isDeviceRegistered fingerprint other ls.
Proof.
  intros Hne ls'.
  assert (Hkeys : ls' !! ClientAuth.fp_key other = ls !! ClientAuth.fp_key other
                  /\ ls' !! ClientAuth.registered_key other
                     = ls !! ClientAuth.registered_key other).
  { unfold ls'.
    destruct (enforceDeviceBinding_storage now currentFingerprint userId userRole
                strictMode ls) as [-> | ->]; [split; reflexivity|].
    apply register_other, Hne. }
  assert (Hreset : ClientAuth.resetDeviceBinding userId ls !! ClientAuth.fp_key other
                   = ls !! ClientAuth.fp_key other
                   /\ ClientAuth.resetDeviceBinding userId ls
                      !! ClientAuth.registered_key other
                      = ls !! ClientAuth.registered_key other).
  { unfold ClientAuth.resetDeviceBinding, ClientAuth.Storage in *. split.
    - rewrite lookup_delete_ne
        by (intros E; symmetry in E; exact (fp_key_registered_key _ _ E)).
      apply lookup_delete_ne. intros E. apply Hne, fp_key_inj, E.
    - rewrite lookup_delete_ne by (intros E; apply Hne, registered_key_inj, E).
      apply lookup_delete_ne. apply fp_key_registered_key. }
  destruct Hkeys as [Hfp Hregistered], Hreset as [Hfp' Hregistered'].
  unfold ClientAuth.getDeviceInfo, ClientAuth.isDeviceRegistered.
  rewrite Hfp, Hregistered, Hfp', Hregistered'. repeat split.
Qed.

Lemma device_binding_per_user_witness :
  ClientAuth.getDeviceInfo "u-stu"
    (snd (fst (ClientAuth.enforceDeviceBinding 1700000000200 "fp-9" "u-other" "student"
                 false
                 (ClientAuth.register 1700000000100 "fp-1" "u-stu"
                    Examples.fresh_browser))))
  = ClientAuth.getDeviceInfo "u-stu"
      (ClientAuth.register 1700000000100 "fp-1" "u-stu" Examples.fresh_browser).
Proof.
  apply (device_binding_per_user 1700000000200 "fp-9" "u-other" "student" false
           "u-stu" "fp-1"
           (ClientAuth.register 1700000000100 "fp-1" "u-stu" Examples.fresh_browser)
           ltac:(discriminate)).
Defined.

(** ** The callbacks of the capture component *)

Section CaptureProofs.
Import FaceApi FaceCapture.

Lemma liveness_loop_effects (video : nat -> option Detection)
    (frames : nat -> list (option Detection))
    (previousDetection : option Detection) (pass : nat) (eff : list Effect) :
  liveness_loop video frames previousDetection = Some (pass, eff) ->
  exists l0 l1 l2,
    eff = [CheckLiveness 0 l0; Sleep 200; CheckLiveness 1 l1; Sleep 200;
           CheckLiveness 2 l2; Sleep 200]
    /\ pass = ((if l0 then 1 else 0) + (if l1 then 1 else 0) + (if l2 then 1 else 0))%nat.
Proof.
  unfold liveness_loop. cbn [seq fold_left]. unfold liveness_step.
  cbn [mbind option_bind].
  destruct (checkLiveness (video 0) _) as [r0|]; [|discriminate].
  cbn [mbind option_bind].
  destruct (checkLiveness (video 1) _) as [r1|]; [|discriminate].
  cbn [mbind option_bind].
  destruct (checkLiveness (video 2) _) as [r2|]; [|discriminate].
  cbn [mbind option_bind]. intros [= <- <-].
  exists (isLive r0), (isLive r1), (isLive r2). split; [reflexivity|].
  destruct (isLive r0), (isLive r1), (isLive r2); reflexivity.
Qed.

(** How a capture ends, by its callback. *)
Lemma handleCapture_callback (mode : Mode) (existingEmbedding : option (list float))
    (previousDetection : option Detection) (frames : nat -> list (option Detection))
    (video : nat -> option Detection)
    (capture : Capture) :
  handleCapture mode existingEmbedding previousDetection frames video = Some capture ->
  match callback capture with
  | Some (CaptureCallback e) =>
      2 <= livenessPass capture
      /\ getFaceEmbedding (video 3) = Some e
      /\ status capture = success
      /\ In (OnCapture e) (effects capture)
      /\ In StopCamera (effects capture)
      /\ (forall x, mode = verify -> existingEmbedding = Some x ->
                    is_match (compareFaceEmbeddings x e) = true)
  | Some VerificationFailedCallback =>
      2 <= livenessPass capture
      /\ status capture = error
      /\ In OnVerificationFailed (effects capture)
      /\ In StopCamera (effects capture)
      /\ mode = verify
      /\ exists x e, existingEmbedding = Some x /\ getFaceEmbedding (video 3) = Some e
                     /\ is_match (compareFaceEmbeddings x e) = false
  | None =>
      status capture = ready
      /\ ~ In StopCamera (effects capture)
      /\ (forall e, ~ In (OnCapture e) (effects capture))
      /\ ~ In OnVerificationFailed (effects capture)
      /\ (livenessPass capture < 2 \/ getFaceEmbedding (video 3) = None)
  end.
Proof.
  unfold handleCapture. intros H.
  destruct (liveness_loop video frames previousDetection) as [[pass eff]|] eqn:Hloop;
    [|discriminate].
  cbn [mbind option_bind] in H.
  destruct (liveness_loop_effects _ _ _ _ _ Hloop) as (l0 & l1 & l2 & -> & _).
  assert (Hquiet : forall tail, (forall e, In e tail -> e = GetFaceEmbedding) ->
             ~ In StopCamera
                 ([CheckLiveness 0 l0; Sleep 200; CheckLiveness 1 l1; Sleep 200;
                   CheckLiveness 2 l2; Sleep 200] ++ tail)
             /\ (forall e, ~ In (OnCapture e)
                             ([CheckLiveness 0 l0; Sleep 200; CheckLiveness 1 l1; Sleep 200;
                               CheckLiveness 2 l2; Sleep 200] ++ tail))
             /\ ~ In OnVerificationFailed
                   ([CheckLiveness 0 l0; Sleep 200; CheckLiveness 1 l1; Sleep 200;
                     CheckLiveness 2 l2; Sleep 200] ++ tail)).
  { intros tail Htail. repeat split; [|intros e|]; intros Hin;
      cbn [app In] in Hin;
      repeat destruct Hin as [Hin|Hin]; try discriminate Hin;
      specialize (Htail _ Hin); discriminate Htail. }
  destruct (Nat.ltb_spec pass 2) as [Hfew|Hmany].
  - injection H as <-. cbn [callback status effects livenessPass].
    destruct (Hquiet [] ltac:(intros e [])) as (Hstop & Hcap & Hfail).
    rewrite app_nil_r in Hstop, Hcap, Hfail.
    split; [reflexivity|]. split; [exact Hstop|]. split; [exact Hcap|].
    split; [exact Hfail|]. left. exact Hfew.
  - destruct (getFaceEmbedding (video 3)) as [embedding|] eqn:Hemb.
    + destruct mode, existingEmbedding as [x|];
        try (injection H as <-; cbn [callback status effects livenessPass];
             split; [exact Hmany|]; split; [reflexivity|]; split; [reflexivity|];
             split; [cbn; tauto|];
             split; [cbn; tauto|];
             intros y Hm Hy; discriminate).
      destruct (is_match (compareFaceEmbeddings x embedding)) eqn:Hmatch;
        injection H as <-; cbn [callback status effects livenessPass].
      * split; [exact Hmany|]. split; [reflexivity|]. split; [reflexivity|].
        split; [cbn; tauto|].
        split; [cbn; tauto|].
        intros y _ [= <-]. exact Hmatch.
      * split; [exact Hmany|]. split; [reflexivity|].
        split; [cbn; tauto|].
        split; [cbn; tauto|].
        split; [reflexivity|]. exists x, embedding. repeat split. exact Hmatch.
    + injection H as <-. cbn [callback status effects livenessPass].
      destruct (Hquiet [GetFaceEmbedding]
                  ltac:(intros e [<-|[]]; reflexivity)) as (Hstop & Hcap & Hfail).
      split; [reflexivity|]. split; [exact Hstop|]. split; [exact Hcap|].
      split; [exact Hfail|]. right. reflexivity.
Qed.

End CaptureProofs.

(** X18.  The capture component calls [onCapture] only with the descriptor it
    read from the camera after at least 2 of the 3 liveness samples
    passed, and in mode [verify] with a registered descriptor only when the
    two match; it calls [onVerificationFailed] only in that mode, for a
    descriptor that does not match.  The camera is stopped exactly when one
    of the two is called, and a registered descriptor that does not have
    128 numbers is matched by no face. *)
Theorem handleCapture_callbacks (mode : FaceCapture.Mode)
    (existingEmbedding : option (list float))
    (previousDetection : option FaceApi.Detection)
    (frames : nat -> list (option FaceApi.Detection))
    (video : nat -> option FaceApi.Detection) (capture : FaceCapture.Capture) :
  FaceCapture.handleCapture mode existingEmbedding
    previousDetection frames video = Some capture ->
  (forall e, FaceCapture.callback capture = Some (FaceCapture.CaptureCallback e) ->
             2 <= FaceCapture.livenessPass capture
             /\ FaceApi.getFaceEmbedding (video 3) = Some e
             /\ In (FaceCapture.OnCapture e) (FaceCapture.effects capture)
             /\ forall x, mode = FaceCapture.verify -> existingEmbedding = Some x ->
                          FaceApi.is_match (FaceApi.compareFaceEmbeddings x e) = true
                          /\ length x = 128)
  /\ (FaceCapture.callback capture = Some FaceCapture.VerificationFailedCallback ->
      2 <= FaceCapture.livenessPass capture
      /\ In FaceCapture.OnVerificationFailed (FaceCapture.effects capture)
      /\ mode = FaceCapture.verify
      /\ exists x e, existingEmbedding = Some x
                     /\ FaceApi.getFaceEmbedding (video 3) = Some e
                     /\ FaceApi.is_match (FaceApi.compareFaceEmbeddings x e) = false)
  /\ (In FaceCapture.StopCamera (FaceCapture.effects capture)
      <-> FaceCapture.callback capture <> None)
  /\ (FaceCapture.callback capture = None ->
      (forall e, ~ In (FaceCapture.OnCapture e) (FaceCapture.effects capture))
      /\ ~ In FaceCapture.OnVerificationFailed (FaceCapture.effects capture)).
Proof.
  intros H. apply handleCapture_callback in H.
  destruct (FaceCapture.callback capture) as [[e|]|].
  - destruct H as (Hpass & Hemb & _ & Hcap & Hstop & Hmatch).
    split; [|split; [discriminate|split; [split; [discriminate|intros _; exact Hstop]
                                         |discriminate]]].
    intros e' [= <-]. split; [exact Hpass|]. split; [exact Hemb|]. split; [exact Hcap|].
    intros x Hmode Hx. specialize (Hmatch x Hmode Hx). split; [exact Hmatch|].
    unfold FaceApi.compareFaceEmbeddings in Hmatch.
    destruct (Nat.eqb_spec (length x) 128) as [Hlen|_]; [exact Hlen|].
    cbn [negb orb FaceApi.is_match] in Hmatch. discriminate Hmatch.
  - destruct H as (Hpass & _ & Hfail & Hstop & Hmode & Hwhy).
    split; [discriminate|]. split; [intros _; repeat split; assumption|].
    split; [split; [discriminate|intros _; exact Hstop]|discriminate].
  - destruct H as (_ & Hstop & Hcap & Hfail & _).
    split; [discriminate|]. split; [discriminate|].
    split; [split; [intros Hin; contradiction|intros Hne; contradiction Hne; reflexivity]|].
    intros _. split; assumption.
Qed.

Lemma handleCapture_callbacks_witness :
  exists capture,
    FaceCapture.handleCapture FaceCapture.verify (Some Examples.descriptor_zero) None
      Examples.no_frames Examples.stranger_video = Some capture
    /\ FaceCapture.callback capture = Some FaceCapture.VerificationFailedCallback
    /\ In FaceCapture.StopCamera (FaceCapture.effects capture).
Proof.
  destruct (FaceCapture.handleCapture FaceCapture.verify (Some Examples.descriptor_zero)
              None Examples.no_frames Examples.stranger_video) as [capture|] eqn:Hrun;
    [|vm_compute in Hrun; discriminate Hrun].
  exists capture.
  assert (Hcallback : FaceCapture.callback capture
                      = Some FaceCapture.VerificationFailedCallback)
    by (vm_compute in Hrun; injection Hrun as <-; reflexivity).
  split; [reflexivity|]. split; [exact Hcallback|].
  destruct (handleCapture_callbacks FaceCapture.verify (Some Examples.descriptor_zero)
              None Examples.no_frames Examples.stranger_video capture Hrun) as (_ & _ & Hstop & _).
  apply Hstop. rewrite Hcallback. discriminate.
Defined.

(** ** What a check-in writes *)

Section CheckinStoreProofs.
Import Geolocation Checkin.

Variable calculateDistance : float -> float -> float -> float -> float.

(** The runs of a check-in, by what they write: nothing but at most one
    row of the activity log, or the row of the student for the lesson of
    the PIN, after the capture called back. *)
Lemma checkin_cases (env : Env) (pinCode : string)
    (previousDetection : option FaceApi.Detection)
    (frames : nat -> list (option FaceApi.Detection))
    (video : nat -> option FaceApi.Detection)
    (st st' : State) (db db' : Store) (trace : list Event) :
  step st = pin_step ->
  checkin calculateDistance env pinCode previousDetection frames
    video st db = (st', db', trace) ->
  (lessons db' = lessons db /\ attendance db' = attendance db
   /\ (exists extra, activity_logs db' = activity_logs db ++ extra /\ length extra <= 1)
   /\ ~ In (WriteAttendance present) trace)
  \/ exists uid lesson loc registered capture data log,
       user st = Some uid /\ String.length pinCode = 6 /\ isMobileDevice env = true
       /\ select_lesson db pinCode (now env) = Some lesson
       /\ location env = inl loc
       /\ userFaceEmbedding st = Some registered
       /\ FaceCapture.handleCapture FaceCapture.verify (Some registered)
            previousDetection frames video = Some capture
       /\ db' = insert_activity_log
                  (write_attendance db (lesson_row_id lesson) uid data) log
       /\ data_check_in_time data = now env
       /\ data_distance_meters data
          = calculateDistance (latitude loc) (longitude loc)
              (lesson_latitude lesson) (lesson_longitude lesson)
       /\ ((FaceCapture.callback capture = Some FaceCapture.VerificationFailedCallback
            /\ data_status data = suspicious
            /\ ~ In (WriteAttendance present) trace)
           \/ (exists e,
                 FaceCapture.callback capture = Some (FaceCapture.CaptureCallback e)
                 /\ data_status data = present
                 /\ data_is_fake_gps data = false
                 /\ isFake (detectFakeGPS (userAgent env) (permission env)
                              (location_of_fake_check env)) = false
                 /\ (data_distance_meters data
                     <=? radiusOrDefault (radius_meters lesson))%float = true
                 /\ checkResult st' ≫= result_status = Some Present)).
Proof.
  assert (Hquiet : forall (d : Store) (t : list Event),
             (d = db \/ exists log, d = insert_activity_log db log) ->
             ~ In (WriteAttendance present) t ->
             lessons d = lessons db /\ attendance d = attendance db
             /\ (exists extra, activity_logs d = activity_logs db ++ extra
                               /\ length extra <= 1)
             /\ ~ In (WriteAttendance present) t).
  { intros d t [->|[log ->]] Ht.
    - repeat split; [|exact Ht]. exists []. rewrite app_nil_r. split; [reflexivity|cbn; lia].
    - repeat split; [|exact Ht]. exists [log]. split; [reflexivity|cbn; lia]. }
  unfold checkin, handlePinSubmit. intros Hstep H.
  destruct (user st) as [uid|] eqn:Hu;
    [|cbv beta iota zeta in H; rewrite Hstep in H; close_run H; left; apply Hquiet;
      [left; reflexivity|intros []]].
  destruct (Nat.eqb_spec (String.length pinCode) 6) as [Hlen|_]; cbn [negb] in H;
    [|cbv beta iota zeta in H; rewrite Hstep in H; close_run H; left; apply Hquiet;
      [left; reflexivity|intros []]].
  destruct (isMobileDevice env) eqn:Hmobile; cbn [negb] in H;
    [|cbn [step with_result] in H; close_run H; left; apply Hquiet;
      [left; reflexivity|cbn; intuition discriminate]].
  destruct (select_lesson db pinCode (now env)) as [lesson|] eqn:Hlesson;
    [|cbn [step with_result] in H; close_run H; left; apply Hquiet;
      [left; reflexivity|cbn; intuition discriminate]].
  destruct (location env) as [loc|err] eqn:Hloc;
    [|cbn [step with_result] in H; close_run H; left; apply Hquiet;
      [left; reflexivity|cbn; intuition discriminate]].
  destruct (userFaceEmbedding st) as [registered|] eqn:Hface;
    [|cbn [step] in H; close_run H; left; apply Hquiet;
      [right; eexists; reflexivity|cbn; intuition discriminate]].
  cbn [step userFaceEmbedding] in H.
  destruct (FaceCapture.handleCapture _ _ _ _ _) as [capture|] eqn:Hcapture;
    [|close_run H; left; apply Hquiet; [left; reflexivity|cbn; intuition discriminate]].
  destruct (FaceCapture.callback capture) as [[e|]|] eqn:Hcallback;
    [| |close_run H; left; apply Hquiet; [left; reflexivity|cbn; intuition discriminate]].
  - unfold handleFaceVerified, completeCheckin in H.
    cbn [lessonData locationData user checking loc_latitude loc_longitude loc_distance
         fakeCheck] in H.
    destruct (isFake _) eqn:Hfake; cbn [orb] in H;
      [close_run H; left; apply Hquiet;
       [right; eexists; reflexivity|cbn; intuition discriminate]|].
    destruct (_ <=? _)%float eqn:Hnear; cbn [negb] in H;
      [|close_run H; left; apply Hquiet;
        [right; eexists; reflexivity|cbn; intuition discriminate]].
    close_run H. right. exists uid, lesson, loc, registered, capture.
    eexists _, _. split; [reflexivity|]. split; [exact Hlen|].
    repeat (split; [reflexivity || assumption|]). right. exists e.
    cbn [data_status data_is_fake_gps data_distance_meters checkResult].
    split; [exact Hcallback|]. repeat (split; [reflexivity || assumption|]). reflexivity.
  - unfold handleFaceFailed in H.
    cbn [lessonData locationData user loc_latitude loc_longitude loc_distance
         fakeCheck] in H.
    close_run H. right. exists uid, lesson, loc, registered, capture.
    eexists _, _. split; [reflexivity|]. split; [exact Hlen|].
    repeat (split; [reflexivity || assumption|]). left. split; [exact Hcallback|]. split; [reflexivity|].
    cbn. intuition discriminate.
Qed.

End CheckinStoreProofs.



(** X20.  A check-in that starts at the PIN entry writes no lesson, adds one
    row to the activity log at most, and changes the attendance of no other pair than the student
    who is logged in and the lesson the PIN selects; of that row it keeps
    [marked_by]. *)
Theorem checkin_writes_own_row
    (calculateDistance : float -> float -> float -> float -> float)
    (env : Checkin.Env) (pinCode : string)
    (previousDetection : option FaceApi.Detection)
    (frames : nat -> list (option FaceApi.Detection))
    (video : nat -> option FaceApi.Detection)
    (st : Checkin.State) (db : Checkin.Store) :
  Checkin.step st = Checkin.pin_step ->
  let db' := snd (fst (Checkin.checkin calculateDistance env pinCode previousDetection frames
                         video st db)) in
  Checkin.lessons db' = Checkin.lessons db
  /\ (exists extra, Checkin.activity_logs db' = Checkin.activity_logs db ++ extra
                    /\ length extra <= 1)
  /\ forall k,
       Checkin.attendance db' !! k <> Checkin.attendance db !! k ->
       exists uid lesson,
         k = (Checkin.lesson_row_id lesson, uid)
         /\ Checkin.user st = Some uid
         /\ Checkin.select_lesson db pinCode (Checkin.now env) = Some lesson
         /\ Checkin.attendance db' !! k ≫= Checkin.marked_by
            = Checkin.attendance db !! k ≫= Checkin.marked_by.
Proof.
  intros Hstep db'.
  pose proof (checkin_cases calculateDistance env pinCode previousDetection frames video st _ db
                _ _ Hstep (run_eta _)) as Hcases.
  fold db' in Hcases.
  destruct Hcases
    as [(Hlessons & Hatt & Hlogs & _)
       |(uid & lesson & loc & registered & capture & data & log & Hu & _ & _
         & Hlesson & _ & _ & _ & Hdb & _)].
  - split; [exact Hlessons|]. split; [exact Hlogs|].
    intros k Hk. rewrite Hatt in Hk. contradiction.
  - rewrite Hdb. cbn [Checkin.lessons Checkin.attendance Checkin.activity_logs
                      Checkin.insert_activity_log Checkin.write_attendance].
    split; [reflexivity|]. split; [exists [log]; split; [reflexivity|cbn; lia]|].
    intros k Hk. destruct (decide (k = (Checkin.lesson_row_id lesson, uid))) as [->|Hne].
    + exists uid, lesson. repeat (split; [reflexivity || assumption|]).
      rewrite lookup_insert_eq. reflexivity.
    + rewrite lookup_insert_ne in Hk by congruence. contradiction.
Qed.

Lemma checkin_writes_own_row_witness :
  Checkin.lessons
    (snd (fst (Checkin.checkin Examples.meters200 Examples.phone "482913" None
                 Examples.no_frames Examples.stranger_video Examples.student_at_pin
                 Examples.empty_register)))
  = [Examples.classroom].
Proof.
  destruct (checkin_writes_own_row Examples.meters200 Examples.phone "482913" None
              Examples.no_frames Examples.stranger_video Examples.student_at_pin
              Examples.empty_register
              eq_refl) as (Hlessons & _).
  exact Hlessons.
Defined.

(** ** The lesson a check-in is for *)

Section OpenLessonProofs.
Import Checkin.

Variable calculateDistance : float -> float -> float -> float -> float.

Lemma select_lesson_matches (db : Store) (pinCode : string) (t : Z) (l : Lesson) :
  select_lesson db pinCode t = Some l ->
  In l (lessons db) /\ matches_pin pinCode t l = true.
Proof.
  unfold select_lesson. intros H.
  destruct (List.filter _ _) as [|x [|y rest]] eqn:Hrows; try discriminate.
  injection H as ->.
  apply (proj1 (List.filter_In (matches_pin pinCode t) l (lessons db))).
  rewrite Hrows. left. reflexivity.
Qed.

(** The PIN step that ends at the face step has found the lesson of the
    PIN in the store, and has written nothing. *)
Lemma handlePinSubmit_face (env : Env) (pinCode : string) (st st1 : State)
    (db db1 : Store) (t1 : list Event) :
  step st = pin_step ->
  handlePinSubmit calculateDistance env pinCode st db = (st1, db1, t1) ->
  step st1 = face_step ->
  db1 = db
  /\ exists uid lesson info,
       user st1 = Some uid /\ lessonData st1 = Some lesson
       /\ locationData st1 = Some info
       /\ select_lesson db pinCode (now env) = Some lesson.
Proof.
  intros Hstep H Hface. unfold handlePinSubmit in H.
  destruct (user st) as [uid|] eqn:Hu; [|close_run H; congruence].
  destruct (negb _); [close_run H; congruence|].
  destruct (negb _); [close_run H; discriminate Hface|].
  destruct (select_lesson db pinCode (now env)) as [lesson|] eqn:Hlesson;
    [|close_run H; discriminate Hface].
  destruct (location env) as [loc|err]; [|close_run H; discriminate Hface].
  destruct (userFaceEmbedding st); close_run H; [|discriminate Hface].
  split; [reflexivity|]. eexists _, _, _. cbn [user lessonData locationData].
  repeat split.
Qed.

(** The callbacks write the attendance of the lesson of the state and of
    its user, and of nobody else; they leave the lessons as they are. *)
Lemma capture_step_writes (env2 : Env)
    (previousDetection : option FaceApi.Detection)
    (frames : nat -> list (option FaceApi.Detection))
    (video : nat -> option FaceApi.Detection) (st : State) (db : Store)
    (uid : string) (lesson : Lesson) :
  user st = Some uid -> lessonData st = Some lesson ->
  let db' := snd (fst (capture_step env2 previousDetection frames
                         video st db)) in
  lessons db' = lessons db
  /\ forall k, k <> (lesson_row_id lesson, uid) ->
               attendance db' !! k = attendance db !! k.
Proof.
  intros Hu Hl. unfold capture_step, handleFaceVerified, handleFaceFailed, completeCheckin.
  rewrite Hl.
  destruct (FaceCapture.handleCapture _ _ _ _ _) as [capture|];
    [|split; reflexivity].
  destruct (FaceCapture.callback capture) as [[e|]|]; [| |split; reflexivity];
    destruct (locationData st) as [info|]; try (split; reflexivity);
    cbn [user checking]; rewrite Hu.
  - destruct (_ || _); cbn [snd fst lessons attendance insert_activity_log write_attendance];
      (split; [reflexivity|]); intros k Hk; [reflexivity|].
    apply lookup_insert_ne. congruence.
  - cbn [snd fst lessons attendance insert_activity_log write_attendance].
    split; [reflexivity|]. intros k Hk. apply lookup_insert_ne. congruence.
Qed.

(** A write to the lessons before the callback is a write to the lessons
    after it. *)
Lemma capture_step_update_lesson (env2 : Env)
    (previousDetection : option FaceApi.Detection)
    (frames : nat -> list (option FaceApi.Detection))
    (video : nat -> option FaceApi.Detection) (st : State) (db : Store)
    (id : string) (f : Lesson -> Lesson) :
  capture_step env2 previousDetection frames video st
    (TeacherLessons.update_lesson db id f)
  = let '(st', db', t) :=
      capture_step env2 previousDetection frames video st db in
    (st', TeacherLessons.update_lesson db' id f, t).
Proof.
  unfold capture_step, handleFaceVerified, handleFaceFailed, completeCheckin.
  destruct (FaceCapture.handleCapture _ _ _ _ _) as [capture|]; [|reflexivity].
  destruct (FaceCapture.callback capture) as [[e|]|]; [| |reflexivity];
    destruct (lessonData st) as [lesson|]; try reflexivity;
    destruct (locationData st) as [info|]; try reflexivity;
    cbn [user checking]; destruct (user st) as [uid|]; try reflexivity.
  destruct (_ || _); reflexivity.
Qed.

Lemma checkin_apart_update_lesson (env : Env) (pinCode : string)
    (previousDetection : option FaceApi.Detection)
    (frames : nat -> list (option FaceApi.Detection))
    (video : nat -> option FaceApi.Detection)
    (env2 : Env) (others : Store -> Store) (st : State) (db : Store)
    (id : string) (f : Lesson -> Lesson) :
  checkin_apart calculateDistance env pinCode previousDetection frames video env2
    (fun d => TeacherLessons.update_lesson (others d) id f) st db
  = let '(st', db', t) :=
      checkin_apart calculateDistance env pinCode previousDetection frames video env2
        others st db in
    (st', TeacherLessons.update_lesson db' id f, t).
Proof.
  unfold checkin_apart.
  destruct (handlePinSubmit _ _ _ _ _) as [[st1 db1] t1].
  destruct (step st1); try reflexivity.
  rewrite capture_step_update_lesson.
  destruct (capture_step _ _ _ _ _ _) as [[st2 db2] t2]. reflexivity.
Qed.

(** A check-in writes no attendance of a lesson that its PIN does not open
    when it is submitted, whatever the others write before the callback. *)
Lemma closed_lesson_unchanged (env : Env) (pinCode : string)
    (previousDetection : option FaceApi.Detection)
    (frames : nat -> list (option FaceApi.Detection))
    (video : nat -> option FaceApi.Detection)
    (env2 : Env) (others : Store -> Store) (st : State) (db : Store)
    (id uid : string) :
  step st = pin_step ->
  (forall l, In l (lessons db) -> lesson_row_id l = id ->
             matches_pin pinCode (now env) l = false) ->
  attendance (snd (fst (checkin_apart calculateDistance env pinCode previousDetection
                          frames video env2 others st db))) !! (id, uid)
  = attendance (others (snd (fst (handlePinSubmit calculateDistance env pinCode st db))))
    !! (id, uid).
Proof.
  intros Hstep Hclosed. unfold checkin_apart.
  destruct (handlePinSubmit _ _ _ _ _) as [[st1 db1] t1] eqn:Hpin.
  cbn [fst snd].
  destruct (step st1) eqn:Hface; try reflexivity.
  destruct (handlePinSubmit_face env pinCode st st1 db db1 t1 Hstep Hpin Hface)
    as (_ & uid' & lesson & info & Hu & Hl & _ & Hlesson).
  apply select_lesson_matches in Hlesson as [Hin Hmatch].
  pose proof (capture_step_writes env2 previousDetection frames video st1 (others db1)
                uid' lesson Hu Hl) as [_ Hrest].
  destruct (capture_step _ _ _ _ _ _) as [[st2 db2] t2]. cbn [fst snd] in *.
  apply Hrest. intros [= E _].
  rewrite (Hclosed lesson Hin (eq_sym E)) in Hmatch. discriminate Hmatch.
Qed.

(** The check-in with nothing in between is the one of the two handlers
    with no other client and the same browser. *)
Lemma checkin_apart_together (env : Env) (pinCode : string)
    (previousDetection : option FaceApi.Detection)
    (frames : nat -> list (option FaceApi.Detection))
    (video : nat -> option FaceApi.Detection) (st : State) (db : Store) :
  checkin_apart calculateDistance env pinCode previousDetection frames video env
    (fun d => d) st db
  = checkin calculateDistance env pinCode previousDetection frames video st db.
Proof.
  unfold checkin_apart, checkin, capture_step.
  destruct (handlePinSubmit _ _ _ _ _) as [[st1 db1] t1].
  destruct (step st1); try reflexivity.
  destruct (FaceCapture.handleCapture _ _ _ _ _) as [capture|];
    [|rewrite app_nil_r; reflexivity].
  destruct (FaceCapture.callback capture) as [[e|]|];
    [| |rewrite app_nil_r; reflexivity].
  - destruct (handleFaceVerified _ _ _) as [[st2 db2] t2]. reflexivity.
  - destruct (handleFaceFailed _ _ _) as [[st2 db2] t2]. reflexivity.
Qed.

End OpenLessonProofs.

(** X21.  A check-in whose PIN is submitted after the teacher has ended a
    lesson writes no attendance of that lesson, whatever the PIN and
    whatever the others write before its callback; likewise, after the
    teacher has made a new PIN, a check-in submitted with another PIN.  A
    check-in that is already past its PIN step is not stopped: the
    callbacks do not read the lesson again, so when the teacher ends the
    lesson, or makes a new PIN, between the PIN step and the callback, the
    check-in ends as it would have, and the teacher's write comes on top. *)
Theorem checkin_after_lesson_end
    (calculateDistance : float -> float -> float -> float -> float)
    (env : Checkin.Env) (pinCode : string)
    (previousDetection : option FaceApi.Detection)
    (frames : nat -> list (option FaceApi.Detection))
    (video : nat -> option FaceApi.Detection)
    (env2 : Checkin.Env) (others : Checkin.Store -> Checkin.Store)
    (st : Checkin.State) (db : Checkin.Store)
    (id uid : string) (b0 b1 b2 : byte) (t seconds : Z) :
  Checkin.step st = Checkin.pin_step ->
  let run between store :=
    Checkin.checkin_apart calculateDistance env pinCode previousDetection frames video
      env2 between st store in
  let after_pin store :=
    snd (fst (Checkin.handlePinSubmit calculateDistance env pinCode st store)) in
  (let ended := TeacherLessons.endLesson (Some id) db in
   Checkin.attendance (snd (fst (run others ended))) !! (id, uid)
   = Checkin.attendance (others (after_pin ended)) !! (id, uid))
  /\ (pinCode <> ClientAuth.generatePIN b0 b1 b2 ->
      let renewed := TeacherLessons.regeneratePIN b0 b1 b2 t seconds (Some id) db in
      Checkin.attendance (snd (fst (run others renewed))) !! (id, uid)
      = Checkin.attendance (others (after_pin renewed)) !! (id, uid))
  /\ (forall activeLesson,
        run (fun d => TeacherLessons.endLesson activeLesson (others d)) db
        = (fst (fst (run others db)),
           TeacherLessons.endLesson activeLesson (snd (fst (run others db))),
           snd (run others db)))
  /\ (forall activeLesson,
        run (fun d => TeacherLessons.regeneratePIN b0 b1 b2 t seconds activeLesson
                        (others d)) db
        = (fst (fst (run others db)),
           TeacherLessons.regeneratePIN b0 b1 b2 t seconds activeLesson
             (snd (fst (run others db))),
           snd (run others db))).
Proof.
  intros Hstep run after_pin. subst run after_pin. cbv beta zeta.
  split; [|split; [intros Hpin|split; intros [a|]]].
  - apply closed_lesson_unchanged; [exact Hstep|].
    intros l Hin Hid. cbn [TeacherLessons.endLesson TeacherLessons.update_lesson
                          Checkin.lessons] in Hin.
    apply in_map_iff in Hin as (l0 & <- & _).
    destruct (String.eqb_spec (Checkin.lesson_row_id l0) id) as [_|Hne];
      [|contradiction].
    unfold Checkin.matches_pin. cbn [Checkin.is_active TeacherLessons.set_inactive].
    rewrite (bool_decide_eq_false_2 (Some false = Some true)) by discriminate.
    rewrite andb_false_r. reflexivity.
  - apply closed_lesson_unchanged; [exact Hstep|].
    intros l Hin Hid. cbn [TeacherLessons.regeneratePIN TeacherLessons.update_lesson
                          Checkin.lessons] in Hin.
    apply in_map_iff in Hin as (l0 & <- & _).
    destruct (String.eqb_spec (Checkin.lesson_row_id l0) id) as [_|Hne];
      [|contradiction].
    unfold Checkin.matches_pin. cbn [Checkin.pin_code TeacherLessons.set_pin].
    rewrite bool_decide_eq_false_2 by congruence. reflexivity.
  - cbn [TeacherLessons.endLesson]. rewrite checkin_apart_update_lesson.
    destruct (Checkin.checkin_apart _ _ _ _ _ _ _ _ _ _) as [[st' db'] tr]. reflexivity.
  - cbn [TeacherLessons.endLesson].
    destruct (Checkin.checkin_apart _ _ _ _ _ _ _ _ _ _) as [[st' db'] tr]. reflexivity.
  - cbn [TeacherLessons.regeneratePIN]. rewrite checkin_apart_update_lesson.
    destruct (Checkin.checkin_apart _ _ _ _ _ _ _ _ _ _) as [[st' db'] tr]. reflexivity.
  - cbn [TeacherLessons.regeneratePIN].
    destruct (Checkin.checkin_apart _ _ _ _ _ _ _ _ _ _) as [[st' db'] tr]. reflexivity.
Qed.

Lemma checkin_after_lesson_end_witness :
  Checkin.attendance
    (snd (fst (Checkin.checkin_apart Examples.meters50 Examples.phone "482913" None
                 Examples.no_frames Examples.student_video Examples.phone (fun d => d)
                 Examples.student_at_pin
                 (TeacherLessons.endLesson (Some "lesson-1"%string)
                    Examples.empty_register))))
  !! ("lesson-1"%string, "u-stu"%string) = None
  /\ Checkin.attendance
       (snd (fst (Checkin.checkin_apart Examples.meters50 Examples.phone "482913" None
                    Examples.no_frames Examples.student_video Examples.phone
                    (TeacherLessons.endLesson (Some "lesson-1"%string))
                    Examples.student_at_pin Examples.empty_register)))
     !! ("lesson-1"%string, "u-stu"%string) <> None.
Proof.
  split; [|vm_compute; discriminate].
  destruct (checkin_after_lesson_end Examples.meters50 Examples.phone "482913" None
              Examples.no_frames Examples.student_video Examples.phone (fun d => d)
              Examples.student_at_pin Examples.empty_register
              "lesson-1" "u-stu" x00 x00 x00 0 60 eq_refl) as [Hended _].
  cbv beta zeta in Hended. rewrite Hended. vm_compute. reflexivity.
Defined.

(** X22.  A login answered 200 followed by the logout of its token, as the
    client does when the browser is not allowed for the role, leaves the
    user without any session: the login deleted the sessions there were
    and the logout deletes the one the login made. *)
Theorem login_then_logout_leaves_no_session
    (deriveBits : string -> string -> Z -> list byte)
    (env : Auth.Env) (req : Auth.Request) (db : Auth.Store)
    (resp : Auth.Response) (db' : Auth.Store) (trace : list Auth.Event)
    (tok rt : string) (pu : Auth.PublicUser) (exp : Z)
    (clock : AuthActions.Clock) (req' : Auth.Request) (b' : AuthActions.Body) :
  List.NoDup (map Auth.user_id (Auth.users db)) ->
  Auth.random_token env <> [] ->
  Auth.serve_login deriveBits env req db = (resp, db', trace) ->
  Auth.status resp = 200%Z ->
  Auth.payload resp = Auth.LoggedIn tok rt pu exp ->
  AuthActions.body_token b' = Some tok ->
  Auth.is_ip_blocked db' (AuthActions.now_sql clock) (Auth.getClientIP req') = false ->
  let db2 := snd (AuthActions.serve clock AuthActions.logout req' (Some b') db') in
  fst (AuthActions.serve clock AuthActions.logout req' (Some b') db')
  = AuthActions.answer 200 AuthActions.Succeeded
  /\ List.filter (fun s => String.eqb (Auth.session_user_id s) (Auth.pub_id pu))
       (Auth.sessions db2) = []
  /\ Auth.users db2 = Auth.users db'.
Proof.
  intros Hnd Hrandom H Hs Hpay Hb Hip db2.
  destruct (serve_login_session deriveBits _ _ _ _ _ _ _ _ _ _ Hnd H Hs Hpay)
    as (rest & s & u & Hses & Hfresh & Htok & _ & _ & Hgen & _ & _ & _).
  destruct (serve_login_success deriveBits _ _ _ _ _ _ H Hs)
    as (b & u0 & _ & _ & _ & Hses' & Hpay' & _).
  rewrite Hses in Hses'. apply app_inj_tail in Hses' as [Hrest Hs0].
  rewrite Hpay in Hpay'. injection Hpay' as _ _ Hpu _.
  assert (Hrun : AuthActions.serve clock AuthActions.logout req' (Some b') db'
                 = (AuthActions.answer 200 AuthActions.Succeeded,
                    Auth.insert_activity_log
                      (AuthActions.delete_session_by_token db' tok)
                      {| Auth.log_user_id := Auth.session_user_id s;
                         Auth.log_action := "logout"; Auth.log_reason := None;
                         Auth.log_ip_address := Some (Auth.getClientIP req') |})).
  { unfold AuthActions.serve. rewrite Hip.
    unfold AuthActions.serve_logout, AuthActions.field.
    cbn [mbind option_bind]. rewrite Hb. cbn [mbind option_bind].
    assert (Htruthy : Str.truthy tok = true) by (rewrite Hgen; apply hex_truthy, Hrandom).
    rewrite Htruthy, Hses, List.filter_app.
    rewrite (filter_true (fun x => String.eqb (Auth.token x) tok) rest).
    rewrite (filter_absent _ _ _ Hfresh).
    cbn [List.filter app]. rewrite Htok, String.eqb_refl. reflexivity. }
  unfold db2. rewrite Hrun. cbn [fst snd]. split; [reflexivity|].
  split; [|reflexivity].
  cbn [Auth.sessions Auth.insert_activity_log AuthActions.delete_session_by_token
       AuthActions.with_sessions].
  rewrite Hses, List.filter_app. cbn [List.filter].
  rewrite Htok, String.eqb_refl. cbn [negb]. rewrite app_nil_r.
  rewrite Hrest, Hpu. cbn [Auth.pub_id Auth.publicUser].
  clear - db u0 tok. induction (Auth.sessions db) as [|x l IH]; [reflexivity|].
  cbn [List.filter].
  destruct (String.eqb (Auth.session_user_id x) (Auth.user_id u0)) eqn:E; cbn [negb].
  - exact IH.
  - cbn [List.filter].
    destruct (negb (String.eqb (Auth.token x) tok)); [|exact IH].
    cbn [List.filter]. rewrite E. exact IH.
Qed.

Lemma login_then_logout_leaves_no_session_witness :
  List.filter (fun s => String.eqb (Auth.session_user_id s) "u-bob")
    (Auth.sessions
       (snd (AuthActions.serve Examples.sample_clock AuthActions.logout
               Examples.good_request (Some (Examples.token_body "0102"))
               (snd (fst (Auth.serve_login Examples.sample_deriveBits Examples.sample_env
                            Examples.good_request Examples.quiet_store))))))
  = [].
Proof.
  destruct (login_then_logout_leaves_no_session Examples.sample_deriveBits
              Examples.sample_env Examples.good_request Examples.quiet_store _ _ _
              "0102" "0304" (Auth.publicUser Examples.bob) (1500001 + 12 * 60 * 60 * 1000)
              Examples.sample_clock Examples.good_request (Examples.token_body "0102")
              ltac:(repeat constructor; intros [])
              ltac:(discriminate) (run_eta _)
              ltac:(vm_compute; reflexivity) ltac:(vm_compute; reflexivity)
              eq_refl ltac:(vm_compute; reflexivity))
    as (_ & Hnone & _).
  exact Hnone.
Defined.

(** ** What [sanitizeInput] does to a password *)

(** X23.  [sanitizeInput] gives a string without angle brackets, no longer than
    its input, and leaves a string alone that has no angle bracket and no
    white space around it. *)
Theorem sanitizeInput_removes_angles (input : option string) :
  Str.occurs "<" (Auth.sanitizeInput input) = false
  /\ Str.occurs ">" (Auth.sanitizeInput input) = false
  /\ forall s, input = Some s ->
                String.length (Auth.sanitizeInput input) <= String.length s
                /\ (Str.occurs "<" s = false -> Str.occurs ">" s = false ->
                    Auth.sanitizeInput input = Str.trim s).
Proof.
  assert (Hangles : forall s, Str.occurs "<" (Str.removeAngles s) = false
                              /\ Str.occurs ">" (Str.removeAngles s) = false
                              /\ String.length (Str.removeAngles s) <= String.length s).
  { induction s as [|c s (IH1 & IH2 & IH3)]; [repeat split; cbn; lia|].
    cbn [Str.removeAngles].
    destruct (Ascii.eqb c "<") eqn:E1; cbn [orb];
      [repeat split; try assumption; cbn [String.length]; lia|].
    destruct (Ascii.eqb c ">") eqn:E2;
      [repeat split; try assumption; cbn [String.length]; lia|].
    cbn [Str.occurs String.length]. rewrite E1, E2, IH1, IH2. repeat split. lia. }
  assert (Hstart : forall s, String.length (Str.trimStart s) <= String.length s).
  { induction s as [|c s IH]; [reflexivity|]. cbn [Str.trimStart].
    destruct (Str.isWhitespace c); cbn [String.length]; lia. }
  assert (Hend : forall s, String.length (Str.trimEnd s) <= String.length s).
  { induction s as [|c s IH]; [reflexivity|]. cbn [Str.trimEnd].
    destruct (Str.trimEnd s); [destruct (Str.isWhitespace c)|];
      cbn [String.length] in *; lia. }
  assert (Hid : forall s, Str.occurs "<" s = false -> Str.occurs ">" s = false ->
                          Str.removeAngles s = s).
  { induction s as [|c s IH]; [reflexivity|]. cbn [Str.occurs Str.removeAngles].
    intros H1 H2. apply orb_false_iff in H1 as [E1 H1], H2 as [E2 H2].
    rewrite E1, E2, (IH H1 H2). reflexivity. }
  assert (Hkept : forall (c : ascii) s, Str.occurs c s = false ->
                                        Str.occurs c (Str.trim s) = false).
  { intros c s. unfold Str.trim. intros H.
    assert (H1 : Str.occurs c (Str.trimStart s) = false).
    { induction s as [|d s IH]; [reflexivity|]. cbn [Str.trimStart].
      destruct (Str.isWhitespace d); [|exact H].
      cbn [Str.occurs] in H. apply orb_false_iff in H as [_ H]. exact (IH H). }
    revert H1. generalize (Str.trimStart s). clear. intros t.
    induction t as [|d t IH]; [reflexivity|]. cbn [Str.occurs Str.trimEnd].
    intros H. apply orb_false_iff in H as [E H]. specialize (IH H).
    destruct (Str.trimEnd t); [destruct (Str.isWhitespace d); [reflexivity|]|];
      cbn [Str.occurs] in *; rewrite E; [reflexivity|exact IH]. }
  destruct input as [s|]; cbn [Auth.sanitizeInput].
  - destruct (Hangles (Str.trim s)) as (H1 & H2 & H3).
    split; [exact H1|]. split; [exact H2|]. intros s' [= <-]. split.
    + unfold Str.trim in *. pose proof (Hstart s). pose proof (Hend (Str.trimStart s)).
      lia.
    + intros Hlt Hgt. apply Hid; apply Hkept; assumption.
  - repeat split; discriminate.
Qed.

(** X24.  A password with an angle bracket, or with white space around it, that
    the action [hash-password] hashed as it was typed does not open the
    account: the login sanitizes what is typed before it verifies it, and
    the answer is not 200, PBKDF2 giving the typed and the sanitized
    password different keys under the salt of the hash. *)
Theorem unsanitized_password_is_locked_out
    (deriveBits : string -> string -> Z -> list byte)
    (random16 : list byte) (hashReq : Auth.Request) (hashBody : AuthActions.Body)
    (now : Z) (db0 : Auth.Store) (h p : string)
    (env : Auth.Env) (req : Auth.Request) (db : Auth.Store) (u : Auth.User) :
  AuthActions.body_password hashBody = Some p ->
  fst (AuthActions.serve_hash_password deriveBits random16 hashReq (Some hashBody) now db0)
  = AuthActions.answer 200 (AuthActions.Hashed h) ->
  Auth.select_active_user db (Spec.submitted_login req) = Some u ->
  Auth.password_hash u = h ->
  (b ← Auth.body req; Auth.password b) = Some p ->
  deriveBits (Auth.sanitizeInput (Some p)) (Auth.generateSalt random16) 100000%Z
  <> deriveBits p (Auth.generateSalt random16) 100000%Z ->
  Auth.sanitizeInput (Some p) <> p
  /\ Auth.status (fst (fst (Auth.serve_login deriveBits env req db))) <> 200%Z
  /\ Auth.sessions (snd (fst (Auth.serve_login deriveBits env req db)))
     = Auth.sessions db.
Proof.
  intros Hp Hhash Hu Hh Hpw Hkeys.
  split; [intros E; apply Hkeys; rewrite E; reflexivity|].
  assert (Hhashed : h = Auth.hashPassword deriveBits p None random16).
  { unfold AuthActions.serve_hash_password, AuthActions.field in Hhash. rewrite Hp in Hhash.
    cbn [mbind option_bind] in Hhash.
    destruct (Auth.is_ip_blocked _ _ _); [discriminate Hhash|].
    destruct (Str.truthy p); [|discriminate Hhash].
    cbn [fst] in Hhash. injection Hhash as Hhash. symmetry. exact Hhash. }
  assert (Hverify : Auth.verifyPassword deriveBits (Auth.sanitizeInput (Some p))
                      (Auth.password_hash u) = Some false).
  { rewrite Hh, Hhashed, verify_hashed. f_equal. apply String.eqb_neq.
    intros E. apply Hkeys, hex_injective, E. }
  unfold Spec.submitted_login in Hu. unfold Auth.serve_login. cbv zeta.
  destruct (Auth.is_ip_blocked _ _ _); [split; [discriminate|reflexivity]|].
  destruct (Auth.body req) as [b|]; [|split; [discriminate|reflexivity]].
  cbn [mbind option_bind] in Hu, Hpw.
  destruct (negb (Auth.validateCSRFToken _ _)); [split; [discriminate|reflexivity]|].
  destruct (negb _ || negb _); [split; [discriminate|reflexivity]|].
  destruct (Auth.is_login_rate_limited _ _ _ _); [split; [discriminate|reflexivity]|].
  rewrite Hu, Hpw, Hverify. split; [discriminate|reflexivity].
Qed.

Lemma unsanitized_password_is_locked_out_witness :
  Auth.status
    (fst (fst (Auth.serve_login Examples.sample_deriveBits Examples.sample_env
                 (Examples.login_request "erin" "a<b" "fp-1")
                 (Examples.store_of
                    (Examples.erin
                       (Auth.hashPassword Examples.sample_deriveBits "a<b" None
                          [x0a; xff]%byte)))))) <> 200%Z.
Proof.
  destruct (unsanitized_password_is_locked_out Examples.sample_deriveBits [x0a; xff]%byte
              Examples.good_request (Examples.password_body "a<b") 1500000
              Examples.quiet_store
              (Auth.hashPassword Examples.sample_deriveBits "a<b" None [x0a; xff]%byte)
              "a<b" Examples.sample_env (Examples.login_request "erin" "a<b" "fp-1")
              (Examples.store_of
                 (Examples.erin
                    (Auth.hashPassword Examples.sample_deriveBits "a<b" None
                       [x0a; xff]%byte)))
              (Examples.erin
                 (Auth.hashPassword Examples.sample_deriveBits "a<b" None [x0a; xff]%byte))
              eq_refl ltac:(vm_compute; reflexivity) ltac:(vm_compute; reflexivity)
              eq_refl eq_refl ltac:(vm_compute; discriminate))
    as (_ & Hstatus & _).
  exact Hstatus.
Defined.

(** ** Small facts of the edge function and of the client *)

(** X25.  [getClientIP] never gives the empty string; the first field of
    [x-forwarded-for], when it is not blank, decides the address whatever
    the other headers say, and without any of the three headers the
    address is ["unknown"]. *)
Theorem getClientIP_by_header (req : Auth.Request) :
  Auth.getClientIP req <> EmptyString
  /\ (forall f, Auth.x_forwarded_for req = Some f ->
                Str.trim (Auth.firstField f) <> EmptyString ->
                Auth.getClientIP req = Str.trim (Auth.firstField f))
  /\ (Auth.x_forwarded_for req = None -> Auth.x_real_ip req = None ->
      Auth.cf_connecting_ip req = None -> Auth.getClientIP req = "unknown"%string).
Proof.
  assert (Htruthy : forall s, Str.truthy s = true -> s <> EmptyString).
  { intros s H ->. discriminate H. }
  assert (Hfalsy : forall s, s <> EmptyString -> Str.truthy s = true).
  { intros s H. unfold Str.truthy. destruct (String.eqb_spec s EmptyString);
      [contradiction|reflexivity]. }
  unfold Auth.getClientIP. split; [|split].
  - destruct (Auth.x_forwarded_for req) as [f|]; cbn [mbind option_bind Str.orElse].
    + destruct (Str.truthy (Str.trim (Auth.firstField f))) eqn:E1;
        [exact (Htruthy _ E1)|].
      destruct (Auth.x_real_ip req) as [r|]; cbn [Str.orElse];
        [destruct (Str.truthy r) eqn:E2; [exact (Htruthy _ E2)|]|];
        (destruct (Auth.cf_connecting_ip req) as [c|]; cbn [Str.orElse];
         [destruct (Str.truthy c) eqn:E3; [exact (Htruthy _ E3)|]|]; discriminate).
    + destruct (Auth.x_real_ip req) as [r|]; cbn [Str.orElse];
        [destruct (Str.truthy r) eqn:E2; [exact (Htruthy _ E2)|]|];
        (destruct (Auth.cf_connecting_ip req) as [c|]; cbn [Str.orElse];
         [destruct (Str.truthy c) eqn:E3; [exact (Htruthy _ E3)|]|]; discriminate).
  - intros f -> Hf. cbn [mbind option_bind Str.orElse]. rewrite (Hfalsy _ Hf). reflexivity.
  - intros -> -> ->. reflexivity.
Qed.

(** X26.  [generateToken], [generateRefreshToken] and [generateSalt] write two
    lowercase hexadecimal digits for each random byte, and different bytes
    give different strings. *)
Theorem generateToken_shape (bytes : list byte) :
  String.length (Auth.generateToken bytes) = 2 * length bytes
  /\ Spec.isHexString (Auth.generateToken bytes) = true
  /\ Auth.generateRefreshToken bytes = Auth.generateToken bytes
  /\ Auth.generateSalt bytes = Auth.generateToken bytes
  /\ forall other, Auth.generateToken other = Auth.generateToken bytes -> other = bytes.
Proof.
  unfold Auth.generateToken, Auth.generateRefreshToken, Auth.generateSalt.
  split; [|split; [apply hex_isHex|split; [reflexivity|split; [reflexivity|]]]].
  - induction bytes as [|b bytes IH]; [reflexivity|].
    cbn [Str.hex fold_right length]. rewrite string_length_append.
    fold (Str.hex bytes). rewrite IH. cbn [Str.toHex2 String.length]. lia.
  - intros other. apply hex_injective.
Qed.

(** X27.  The lock of a login ends: when every failed attempt is 15 minutes old
    or more, no login is answered 429. *)
Theorem lock_ends_after_15_minutes (deriveBits : string -> string -> Z -> list byte)
    (env : Auth.Env) (req : Auth.Request) (db : Auth.Store) :
  (forall a, In a (Auth.login_attempts db) -> Auth.attempt_success a = false ->
             (Auth.attempt_created_at a + Auth.minutes15 <= Auth.sql_now env)%Z) ->
  Auth.is_login_rate_limited db (Auth.sql_now env) (Spec.submitted_login req)
    (Auth.getClientIP req) = false
  /\ Auth.status (fst (fst (Auth.serve_login deriveBits env req db))) <> 429%Z.
Proof.
  intros Hold.
  assert (Hnone : forall l ip,
             Auth.is_login_rate_limited db (Auth.sql_now env) l ip = false).
  { intros l ip. unfold Auth.is_login_rate_limited.
    assert (Hempty : List.filter (Auth.counts_against (Auth.sql_now env) l ip)
                       (Auth.login_attempts db) = []).
    { induction (Auth.login_attempts db) as [|a rows IH]; [reflexivity|].
      cbn [List.filter].
      destruct (Auth.counts_against (Auth.sql_now env) l ip a) eqn:Hc.
      - exfalso. unfold Auth.counts_against in Hc.
        apply andb_true_iff in Hc as [Hc Hrecent]. apply andb_true_iff in Hc as [_ Hfailed].
        apply negb_true_iff in Hfailed. apply Z.ltb_lt in Hrecent.
        specialize (Hold a (or_introl eq_refl) Hfailed). lia.
      - apply IH. intros x Hx. apply Hold. right. exact Hx. }
    rewrite Hempty. reflexivity. }
  split; [apply Hnone|].
  destruct (Auth.serve_login deriveBits env req db) as [[resp db'] trace] eqn:H.
  cbn [fst]. unfold Auth.serve_login, Auth.device_gate, Auth.issue_session in H.
  cbv zeta in H.
  destruct (Auth.is_ip_blocked _ _ _); [close_run H; discriminate|].
  destruct (Auth.body req) as [b|]; [|close_run H; discriminate].
  rewrite Hnone in H.
  split_run H; close_run H; discriminate.
Qed.

Lemma lock_ends_after_15_minutes_witness :
  Auth.is_login_rate_limited Examples.busy_store 1000004
    (Spec.submitted_login Examples.good_request) (Auth.getClientIP Examples.good_request)
  = true
  /\ Auth.status
       (fst (fst (Auth.serve_login Examples.sample_deriveBits Examples.late_env
                    Examples.good_request Examples.busy_store))) <> 429%Z.
Proof.
  split; [vm_compute; reflexivity|].
  apply (lock_ends_after_15_minutes Examples.sample_deriveBits Examples.late_env
           Examples.good_request Examples.busy_store).
  intros a Ha _. cbn in Ha. unfold Auth.minutes15.
  repeat destruct Ha as [<-|Ha]; [cbn; lia..|destruct Ha].
Defined.

(** X28.  A browser that is allowed for a student is a mobile one and is allowed
    for every role; a browser whose user agent names both Chrome and Edge
    is allowed for no role. *)
Theorem isAllowedBrowser_by_role (userAgent : string) (role : Auth.Role) :
  (ClientAuth.isAllowedBrowser userAgent Auth.student = true ->
   ClientAuth.isMobileDevice userAgent = true
   /\ ClientAuth.isAllowedBrowser userAgent role = true)
  /\ (Geolocation.includes (Geolocation.toLowerCase userAgent) "chrome" = true ->
      Geolocation.includes (Geolocation.toLowerCase userAgent) "edg" = true ->
      ClientAuth.isAllowedBrowser userAgent role = false).
Proof.
  unfold ClientAuth.isAllowedBrowser. cbv zeta.
  destruct (Geolocation.includes (Geolocation.toLowerCase userAgent) "chrome"),
           (Geolocation.includes (Geolocation.toLowerCase userAgent) "edg"),
           (Geolocation.includes (Geolocation.toLowerCase userAgent) "safari"),
           (ClientAuth.isMobileDevice userAgent), role;
    cbn [andb orb negb]; repeat split; intros; try discriminate; reflexivity.
Qed.

(** ** The verdict of the fake-GPS check *)

Lemma zero_below_one (a : float) : (a =? 0)%float = true -> (a <? 1)%float = true.
Proof.
  rewrite FloatAxioms.eqb_spec, FloatAxioms.ltb_spec. destruct (Prim2SF a) as [s|s| |s m e]; intros H.
  - destruct s; vm_compute; reflexivity.
  - destruct s; vm_compute in H; discriminate H.
  - vm_compute in H; discriminate H.
  - destruct s; vm_compute in H; discriminate H.
Qed.

(** X29.  [detectFakeGPS] says fake exactly when the user agent names an
    emulator or, the position being known, its accuracy is below 1 m or
    above 1000 m: the test for an accuracy of 0 adds a reason and changes no
    verdict, a refused permission or an unknown position is a reason and
    no more, and every verdict of fake comes with a reason. *)
Theorem detectFakeGPS_verdict (userAgent : string)
    (permission : option Geolocation.PermissionState)
    (location : Geolocation.LocationData + string) :
  let check := Geolocation.detectFakeGPS userAgent permission location in
  let ua := Geolocation.toLowerCase userAgent in
  let emulator := Geolocation.includes ua "sdk" || Geolocation.includes ua "emulator"
                  || Geolocation.includes ua "simulator" in
  Geolocation.isFake check
  = emulator
    || match location with
       | inl loc => (Geolocation.accuracy loc <? 1)%float
                    || (1000 <? Geolocation.accuracy loc)%float
       | inr _ => false
       end
  /\ (Geolocation.isFake check = true -> Geolocation.reasons check <> [])
  /\ (permission = Some Geolocation.denied ->
      In "GPS ruxsati yo'q"%string (Geolocation.reasons check))
  /\ (forall message, location = inr message ->
        In "GPS tekshiruvida xatolik"%string (Geolocation.reasons check)).
Proof.
  cbv zeta. unfold Geolocation.detectFakeGPS.
  set (emulator := Geolocation.includes _ "sdk" || _ || _).
  assert (Hlast : forall (l : list string) (x : string), l ++ [x] <> []).
  { intros l x H. apply app_eq_nil in H as [_ H]. discriminate H. }
  destruct location as [loc|message]; cbn [Geolocation.isFake Geolocation.reasons].
  - split; [|split; [|split; [|discriminate]]].
    + destruct (Geolocation.accuracy loc =? 0)%float eqn:Hzero.
      * rewrite (zero_below_one _ Hzero). destruct emulator; reflexivity.
      * destruct emulator, (Geolocation.accuracy loc <? 1)%float; reflexivity.
    + destruct (Geolocation.accuracy loc =? 0)%float eqn:Hzero.
      * intros _. cbn [orb]. apply Hlast.
      * cbn [orb]. destruct (1000 <? Geolocation.accuracy loc)%float; [intros _; apply Hlast|].
        destruct (Geolocation.accuracy loc <? 1)%float; [intros _; apply Hlast|].
        destruct emulator; [|discriminate]. intros _.
        destruct permission as [[| |]|]; discriminate.
    + intros ->.
      assert (Hin : In "GPS ruxsati yo'q"%string
                      ((if emulator then ["Emulyator aniqlandi"%string] else [])
                       ++ ["GPS ruxsati yo'q"%string]))
        by (apply in_or_app; right; left; reflexivity).
      destruct (Geolocation.accuracy loc <? 1)%float,
               ((Geolocation.accuracy loc =? 0)%float
                || (1000 <? Geolocation.accuracy loc)%float);
        repeat first [exact Hin | apply in_or_app; left].
  - split; [rewrite orb_false_r; reflexivity|]. split; [intros _; apply Hlast|].
    split.
    + intros ->. apply in_or_app. left. apply in_or_app. right. left. reflexivity.
    + intros m _. apply in_or_app. right. left. reflexivity.
Qed.

(** ** The mark of a teacher and the check-in of the student *)


